(** * OVN-Kubernetes bootstrap and rollout decisions

    A shallow embedding of [pkg/network/ovn_kubernetes.go]: the discovery of
    the control-plane members, the election of the database cluster
    initiator, the progress evaluator and the three rollout gates, followed
    by the properties proved about them.  Logging calls ([klog]) have no
    effect on any result and are left out. *)

From Stdlib Require Import ZArith Lia Bool Ascii String SpecFloat.
From stdpp Require Import base option gmap strings pretty list sorting.

Local Open Scope string_scope.
Local Open Scope list_scope.
Local Open Scope Z_scope.

(** ** Results of fallible code *)

(** A Go run-time panic. *)
Inductive panic := IndexOutOfRange | NilDereference.

(** What a call yields: a value, a returned [error] (its text) or a panic. *)
Inductive outcome (A : Type) :=
  | Ok (a : A)
  | Err (msg : string)
  | Panic (p : panic).
Arguments Ok {A} a.
Arguments Err {A} msg.
Arguments Panic {A} p.

(** Code that reads and writes a store of type [St] on its way. *)
Definition M (St A : Type) : Type := St → outcome A * St.

#[export] Instance M_ret {St} : MRet (M St) := λ A a s, (Ok a, s).
#[export] Instance M_bind {St} : MBind (M St) := λ A B f m s,
  match m s with
  | (Ok a, s') => f a s'
  | (Err e, s') => (Err e, s')
  | (Panic p, s') => (Panic p, s')
  end.

Definition fail {St A} (msg : string) : M St A := λ s, (Err msg, s).
Definition crash {St A} (p : panic) : M St A := λ s, (Panic p, s).
Definition get {St} : M St St := λ s, (Ok s, s).
Definition put {St} (s : St) : M St unit := λ _, (Ok tt, s).

(** [fmt.Errorf(prefix + "%v", err)] around a call. *)
Definition wrapErr {St A} (prefix : string) (m : M St A) : M St A := λ s,
  match m s with
  | (Err e, s') => (Err (prefix +:+ e), s')
  | r => r
  end.

(** ** Machine integers *)

Definition int32_range (z : Z) : Prop := - 2 ^ 31 ≤ z < 2 ^ 31.

(** Two's complement wrap-around of int32 arithmetic. *)
Definition wrap32 (z : Z) : Z := (z + 2 ^ 31) mod 2 ^ 32 - 2 ^ 31.

(** Wrap-around of uint32 arithmetic. *)
Definition wrapU32 (z : Z) : Z := z mod 2 ^ 32.

(** ** Cluster objects *)

(** [map[string]string]; the nil map is [None]. *)
Abbreviation StringMap := (option (gmap string string)).

(** [m[k]]: the zero value when the key is missing or the map is nil. *)
Definition index (m : StringMap) (k : string) : string :=
  default "" (m ≫= (.!! k)).

(** [v, ok := m[k]]. *)
Definition index_ok (m : StringMap) (k : string) : option string :=
  m ≫= (.!! k).

Module appsv1.
Record DaemonSetStatus := {
  DesiredNumberScheduled : Z;
  UpdatedNumberScheduled : Z;
  NumberUnavailable : Z;
  NumberAvailable : Z;
  ObservedGeneration : Z
}.

Record DaemonSet := {
  Namespace : string;
  Name : string;
  Annotations : StringMap;
  Generation : Z;
  Status : DaemonSetStatus
}.
End appsv1.

Module corev1.
Record NodeAddress := { Type_ : string; Address : string }.
Record Node := { Name : string; Addresses : list NodeAddress }.
Definition NodeInternalIP : string := "InternalIP".
End corev1.

Module operv1.
Record ClusterNetworkEntry := { CIDR : string; HostPrefix : Z }.
Record MTUMigrationValues := { From : option Z; To : option Z }.
Record MTUMigration := {
  Network_ : option MTUMigrationValues;
  Machine : option MTUMigrationValues
}.
Record NetworkMigration := { MigrationMTU : option MTUMigration }.
(** A nil slice of hybrid cluster networks is [None]: deep equality tells
    it from an empty one. *)
Record HybridOverlayConfig := {
  HybridClusterNetwork : option (list ClusterNetworkEntry);
  HybridOverlayVXLANPort : option Z
}.
Record PolicyAuditConfig := {
  RateLimit : option Z;
  MaxFileSize : option Z;
  Destination : string;
  SyslogFacility : string
}.
Record GatewayConfig := { RoutingViaHost : bool }.
(** [IPsecConfig] is an empty struct: only its presence matters. *)
Record OVNKubernetesConfig := {
  MTU : option Z;
  GenevePort : option Z;
  HybridOverlay : option HybridOverlayConfig;
  IPsecConfig : option unit;
  PolicyAudit : option PolicyAuditConfig;
  Gateway : option GatewayConfig
}.
Record IPFIXConfig := { IPFIXCollectors : list string }.
Record NetFlowConfig := { NetFlowCollectors : list string }.
Record SFlowConfig := { SFlowCollectors : list string }.
Record ExportNetworkFlows := {
  NetFlow : option NetFlowConfig;
  SFlow : option SFlowConfig;
  IPFIX : option IPFIXConfig
}.
Record NetworkSpec := {
  ClusterNetwork : list ClusterNetworkEntry;
  ServiceNetwork : list string;
  OVNKubernetes : option OVNKubernetesConfig;
  Migration : option NetworkMigration;
  DeployKubeProxy : option bool;
  ExportFlows : option ExportNetworkFlows
}.
Record Network := { Annotations : StringMap; Spec : NetworkSpec }.
End operv1.

#[export] Instance ClusterNetworkEntry_eq_dec : EqDecision operv1.ClusterNetworkEntry.
Proof. solve_decision. Defined.

#[export] Instance HybridOverlayConfig_eq_dec : EqDecision operv1.HybridOverlayConfig.
Proof. solve_decision. Defined.

(** ** Binary64 arithmetic

    [daemonSetProgressing] computes the tolerated lag in [float64].  The
    operations are those of the IEEE 754 specification of the Standard
    Library at precision 53 and maximal exponent 1024. *)

(** Conversion of an integer below 2^53 in magnitude: exact. *)
Definition float64_of_Z (z : Z) : spec_float := binary_normalize 53 1024 z 0 false.

(** The constant [0.1]: the binary64 value nearest to one tenth,
    0x1.999999999999ap-4. *)
Definition point_one : spec_float := S754_finite false 7205759403792794 (-56).

(** The integer part, rounded towards minus infinity, of a finite value. *)
Definition SF_floorZ (x : spec_float) : Z :=
  match x with
  | S754_finite s m e =>
      let v := cond_Zopp s (Z.pos m) in
      if 0 <=? e then v * 2 ^ e else v / 2 ^ (- e)
  | _ => 0
  end.

(** [math.Floor]. *)
Definition math_Floor (x : spec_float) : spec_float :=
  match x with
  | S754_finite s m e =>
      if 0 <=? e then x else binary_normalize 53 1024 (SF_floorZ x) 0 s
  | _ => x
  end.

(** [math.Max], with its special cases for infinities, NaN and signed
    zeros. *)
Definition math_Max (x y : spec_float) : spec_float :=
  match x, y with
  | S754_infinity false, _ | _, S754_infinity false => S754_infinity false
  | S754_nan, _ | _, S754_nan => S754_nan
  | S754_zero sx, S754_zero sy => S754_zero (sx && sy)
  | _, _ => if SFltb y x then x else y
  end.

(** [int(f)]: truncation towards zero; a value that does not fit in 64
    bits, an infinity or a NaN gives the most negative integer, as the
    conversion instruction of amd64 does. *)
Definition float64_to_int (x : spec_float) : Z :=
  match x with
  | S754_zero _ => 0
  | S754_finite s m e =>
      let t := cond_Zopp s (if 0 <=? e then Z.pos m * 2 ^ e else Z.pos m / 2 ^ (- e)) in
      if (- 2 ^ 63 <=? t) && (t <? 2 ^ 63) then t else - 2 ^ 63
  | _ => - 2 ^ 63
  end.

(** ** Declarations of other files

    The constants of package [names] read by this file.  Their values are
    declared elsewhere; every definition below takes them as they come. *)
Class Names := {
  RolloutHungAnnotation : string;
  NetworkIPFamilyModeAnnotation : string;
  OVNRaftClusterInitiator : string;
  IPFamilySingleStack : string;
  IPFamilyDualStack : string;
  APPLIED_NAMESPACE : string
}.

(** Modelled from the spec: the type of version deltas returned by
    [compareVersions], whose declaration is outside this file (section 3,
    VersionDelta: Upgrade, Same, Downgrade, Unknown). *)
Inductive versionChange :=
  | versionUpgrade
  | versionSame
  | versionDowngrade
  | versionUnknown.

#[export] Instance versionChange_eq_dec : EqDecision versionChange.
Proof. solve_decision. Defined.

(** ** The progress evaluator *)

Section Decisions.
Context `{Names}.

(** The version classifier [compareVersions fromVersion toVersion]; it is
    declared in another file of the package. *)
Variable compareVersions : string → string → versionChange.

(** [maxBehind] of [daemonSetProgressing], for the desired count [d]:
    [int(math.Max(1, math.Floor(float64(d)*0.1)))]. *)
Definition maxBehind (d : Z) : Z :=
  float64_to_int
    (math_Max (float64_of_Z 1)
       (math_Floor (SFmul 53 1024 (float64_of_Z d) point_one))).

(** The test named [progressing] in [daemonSetProgressing]. *)
Definition progressing (ds : appsv1.DaemonSet) : bool :=
  let status := appsv1.Status ds in
  (appsv1.UpdatedNumberScheduled status <? appsv1.DesiredNumberScheduled status)
  || (0 <? appsv1.NumberUnavailable status)
  || (appsv1.NumberAvailable status =? 0)
  || (appsv1.ObservedGeneration status <? appsv1.Generation ds).

(** [daemonSetProgressing] returns true if a daemonset is rolling out a
    change; with [allowHung] a daemonset hung near the end counts as done. *)
Definition daemonSetProgressing (ds : appsv1.DaemonSet) (allowHung : bool) : bool :=
  let status := appsv1.Status ds in
  if negb (progressing ds) then false
  else
    if allowHung then
      let hung := bool_decide (is_Some (index_ok (appsv1.Annotations ds) RolloutHungAnnotation)) in
      let maxBehind := maxBehind (appsv1.DesiredNumberScheduled status) in
      let numBehind :=
        wrap32 (appsv1.DesiredNumberScheduled status - appsv1.UpdatedNumberScheduled status) in
      if hung && (numBehind <=? maxBehind) then false else true
    else true.

(** ** The rollout gates *)

(** [shouldUpdateOVNKonIPFamilyChange]: masters first on a change of the
    IP family mode.  The result is [(updateNode, updateMaster)]. *)
Definition shouldUpdateOVNKonIPFamilyChange
    (existingNode existingMaster : option appsv1.DaemonSet) (ipFamilyMode : string)
    : bool * bool :=
  match existingNode, existingMaster with
  | Some node, Some master =>
      let nodeIPFamilyMode := index (appsv1.Annotations node) NetworkIPFamilyModeAnnotation in
      let masterIPFamilyMode := index (appsv1.Annotations master) NetworkIPFamilyModeAnnotation in
      if bool_decide (nodeIPFamilyMode = "") || bool_decide (masterIPFamilyMode = "") then
        (true, true)
      else if bool_decide (nodeIPFamilyMode = ipFamilyMode)
              && bool_decide (masterIPFamilyMode = ipFamilyMode) then
        (true, true)
      else if bool_decide (masterIPFamilyMode ≠ ipFamilyMode) then
        (false, true)
      else if daemonSetProgressing master false then
        (false, true)
      else
        (true, true)
  | _, _ => (true, true)
  end.

(** [shouldUpdateOVNKonPrepull]: the result is [(updateNode, renderPrepull)]. *)
Definition shouldUpdateOVNKonPrepull
    (existingNode prePuller : option appsv1.DaemonSet) (releaseVersion : string)
    : bool * bool :=
  match existingNode with
  | None => (true, false)
  | Some node =>
      let existingNodeVersion := index (appsv1.Annotations node) "release.openshift.io/version" in
      if bool_decide (existingNodeVersion = releaseVersion) then (true, false)
      else
        match prePuller with
        | None => (false, true)
        | Some pp =>
            let existingPrePullerVersion :=
              index (appsv1.Annotations pp) "release.openshift.io/version" in
            if bool_decide (existingPrePullerVersion ≠ releaseVersion) then (false, true)
            else if daemonSetProgressing pp true then (false, true)
            else (true, false)
        end
  end.

(** [shouldUpdateOVNKonUpgrade]: nodes first on upgrades, masters first on
    downgrades.  The result is [(updateNode, updateMaster)]. *)
Definition shouldUpdateOVNKonUpgrade
    (existingNode existingMaster : option appsv1.DaemonSet) (releaseVersion : string)
    : bool * bool :=
  match existingNode, existingMaster with
  | Some node, Some master =>
      let nodeVersion := index (appsv1.Annotations node) "release.openshift.io/version" in
      let masterVersion := index (appsv1.Annotations master) "release.openshift.io/version" in
      if bool_decide (nodeVersion = releaseVersion)
         && bool_decide (masterVersion = releaseVersion) then
        (true, true)
      else
        let masterDelta := compareVersions masterVersion releaseVersion in
        let nodeDelta := compareVersions nodeVersion releaseVersion in
        if bool_decide (masterDelta = versionUnknown)
           || bool_decide (nodeDelta = versionUnknown) then
          (true, true)
        else if bool_decide (masterDelta = versionUpgrade)
                && bool_decide (nodeDelta = versionUpgrade) then
          (true, false)
        else if bool_decide (masterDelta = versionUpgrade)
                && bool_decide (nodeDelta = versionSame) then
          if daemonSetProgressing node true then (true, false) else (true, true)
        else if bool_decide (masterDelta = versionDowngrade)
                && bool_decide (nodeDelta = versionDowngrade) then
          (false, true)
        else if bool_decide (masterDelta = versionSame)
                && bool_decide (nodeDelta = versionDowngrade) then
          if daemonSetProgressing master false then (false, true) else (true, true)
        else if bool_decide (masterDelta = versionSame)
                && bool_decide (nodeDelta = versionSame) then
          (true, true)
        else
          (true, true)
  | _, _ => (true, true)
  end.

End Decisions.

(** ** Constants of the file *)

Definition OVN_NB_PORT : string := "9641".
Definition OVN_SB_PORT : string := "9642".
Definition OVN_NB_RAFT_PORT : string := "9643".
Definition OVN_SB_RAFT_PORT : string := "9644".
Definition OVN_CERT_CN : string := "ovn".
Definition OVN_MASTER_DISCOVERY_POLL : Z := 5.
Definition OVN_MASTER_DISCOVERY_BACKOFF : Z := 120.
Definition OVN_LOCAL_GW_MODE : string := "local".
Definition OVN_SHARED_GW_MODE : string := "shared".
Definition OVN_LOG_PATTERN_CONSOLE : string :=
  "%D{%Y-%m-%dT%H:%M:%S.###Z}|%05N|%c%T|%p|%m".
Definition OVN_NODE_MODE_FULL : string := "full".
Definition OVN_NODE_MODE_DPU_HOST : string := "dpu-host".
Definition OVN_NODE_MODE_DPU : string := "dpu".
Definition OVSFlowsConfigMapName : string := "ovs-flows-config".


(** ** Parsing of numbers ([strconv]) *)

Definition digit_of (c : Ascii.ascii) : option Z :=
  let n := Z.of_N (Ascii.N_of_ascii c) in
  if (48 <=? n) && (n <=? 57) then Some (n - 48) else None.

Fixpoint parse_digits (acc : Z) (s : string) : option Z :=
  match s with
  | EmptyString => Some acc
  | String c r =>
      match digit_of c with
      | Some d => parse_digits (10 * acc + d) r
      | None => None
      end
  end.

(** [strconv.Atoi]: the value and whether the error is nil.  A syntax
    error gives 0, a range error the nearest 64-bit integer. *)
Definition Atoi (s : string) : Z * bool :=
  let '(neg, body) :=
    match s with
    | String "-"%char r => (true, r)
    | String "+"%char r => (false, r)
    | _ => (false, s)
    end in
  match body with
  | EmptyString => (0, false)
  | _ =>
      match parse_digits 0 body with
      | None => (0, false)
      | Some n =>
          let v := if neg : bool then - n else n in
          if v <? - 2 ^ 63 then (- 2 ^ 63, false)
          else if 2 ^ 63 <=? v then (2 ^ 63 - 1, false)
          else (v, true)
      end
  end.

(** [strconv.ParseUint(s, 10, 32)]: the value when the error is nil. *)
Definition ParseUint32 (s : string) : option Z :=
  match s with
  | EmptyString => None
  | _ =>
      match parse_digits 0 s with
      | Some n => if n <? 2 ^ 32 then Some n else None
      | None => None
      end
  end.

(** ** The cluster as the client sees it *)

(** The result of a [kubeClient.Get]: the object, a NotFound error or
    another error (with the error text). *)
Inductive getResult (A : Type) :=
  | Found (a : A)
  | NotFound (e : string)
  | GetFailed (e : string).
Arguments Found {A} a.
Arguments NotFound {A} e.
Arguments GetFailed {A} e.

(** One field per object the file reads; the values are the [Data] of
    config maps.  [listMasterNodes i] is the answer to the [i]-th listing of
    the nodes labelled as masters. *)
Record KubeClient := {
  getClusterConfig : getResult StringMap;
  getGatewayModeConfig : getResult StringMap;
  getDpuModeConfig : getResult StringMap;
  getFlowsConfig : getResult StringMap;
  listMasterNodes : nat → string + list corev1.Node;
  getMasterDaemonSet : getResult appsv1.DaemonSet;
  getNodeDaemonSet : getResult appsv1.DaemonSet;
  getPrePullerDaemonSet : getResult appsv1.DaemonSet
}.

Module bootstrap.
Record OVNConfigBoostrapResult := { NodeMode : string }.
Record FlowsConfig := {
  Target : string;
  CacheActiveTimeout : option Z;
  CacheMaxFlows : option Z;
  Sampling : option Z
}.
Record InfraBootstrapResult := {
  PlatformType : string;
  ExternalControlPlane : bool
}.
Record OVNBootstrapResult := {
  MasterIPs : list string;
  ClusterInitiator : string;
  ExistingMasterDaemonset : option appsv1.DaemonSet;
  ExistingNodeDaemonset : option appsv1.DaemonSet;
  OVNKubernetesConfig : OVNConfigBoostrapResult;
  PrePullerDaemonset : option appsv1.DaemonSet;
  Flows : option FlowsConfig
}.
Record BootstrapResult := {
  Infra : InfraBootstrapResult;
  OVN : OVNBootstrapResult
}.
End bootstrap.

(** ** Polling ([wait.PollImmediate]) *)

(** The error of a poll: the deadline passed ([wait.ErrWaitTimeout]) or the
    condition failed. *)
Inductive pollError :=
  | ErrWaitTimeout
  | ConditionError (e : string).

(** The condition is tried at once and then at every tick, [attempts]
    times in all. *)
Fixpoint pollLoop {St} (attempts : nat) (condition : St → (string + bool) * St) (s : St)
    : option pollError * St :=
  match attempts with
  | O => (Some ErrWaitTimeout, s)
  | S n =>
      match condition s with
      | (inl e, s') => (Some (ConditionError e), s')
      | (inr true, s') => (None, s')
      | (inr false, s') => pollLoop n condition s'
      end
  end.

(** Time is counted in ticks of [interval] seconds: the condition runs at
    0, [interval], 2 [interval], ... up to [timeout].  (A [timeout] of 0
    makes the Go function poll for ever; here it gives one attempt.) *)
Definition PollImmediate {St} (interval timeout : Z)
    (condition : St → (string + bool) * St) (s : St) : option pollError * St :=
  pollLoop (S (Z.to_nat (timeout / interval))) condition s.

(** ** Sorting ([sort.Strings]) *)

(** Byte-wise lexicographic order, the order of Go's [<] on strings. *)
Definition string_le (s1 s2 : string) : Prop := String.leb s1 s2 = true.

#[export] Instance string_le_dec (s1 s2 : string) : Decision (string_le s1 s2).
Proof. unfold string_le. apply _. Defined.

(** The sorted list is determined by the order, whichever algorithm
    computes it. *)
Definition sort_Strings (l : list string) : list string := merge_sort string_le l.

(** ** Small helpers of the file *)

Fixpoint currentInitiatorExists (ovnMasterIPs : list string) (configInitiator : string) : bool :=
  match ovnMasterIPs with
  | [] => false
  | masterIP :: rest =>
      if bool_decide (masterIP = configInitiator) then true
      else currentInitiatorExists rest configInitiator
  end.

(** [strings.Contains(s, ":")]. *)
Fixpoint contains_colon (s : string) : bool :=
  match s with
  | EmptyString => false
  | String c r => if bool_decide (c = ":"%char) then true else contains_colon r
  end.

(** [strings.ContainsAny(s, ":%")], the test of [net.JoinHostPort]. *)
Fixpoint contains_colon_or_percent (s : string) : bool :=
  match s with
  | EmptyString => false
  | String c r =>
      if bool_decide (c = ":"%char) || bool_decide (c = "%"%char) then true
      else contains_colon_or_percent r
  end.

(** [net.JoinHostPort]. *)
Definition JoinHostPort (host port : string) : string :=
  if contains_colon_or_percent host then "[" +:+ host +:+ "]:" +:+ port
  else host +:+ ":" +:+ port.

Definition dbList (masterIPs : list string) (port : string) : string :=
  String.concat "," (map (λ ip, "ssl:" +:+ JoinHostPort ip port) masterIPs).

Definition listenDualStack (masterIP : string) : string :=
  if contains_colon masterIP then ":[::]" else "".

(** ** Bootstrap *)

(** The store of a bootstrap call: the package variable holding the
    discovery deadline, in seconds, and the configuration object the
    caller passes by pointer. *)
Record BootState := {
  OVN_MASTER_DISCOVERY_TIMEOUT : Z;
  conf : operv1.Network
}.

Definition set_timeout (t : Z) (s : BootState) : BootState :=
  {| OVN_MASTER_DISCOVERY_TIMEOUT := t; conf := conf s |}.

Definition set_conf (c : operv1.Network) (s : BootState) : BootState :=
  {| OVN_MASTER_DISCOVERY_TIMEOUT := OVN_MASTER_DISCOVERY_TIMEOUT s; conf := c |}.

(** [conf.Spec.DefaultNetwork.OVNKubernetesConfig.GatewayConfig = g]. *)
Definition set_GatewayConfig (g : operv1.GatewayConfig) (c : operv1.Network)
    : option operv1.Network :=
  let spec := operv1.Spec c in
  match operv1.OVNKubernetes spec with
  | None => None
  | Some oc =>
      Some {| operv1.Annotations := operv1.Annotations c;
              operv1.Spec :=
                {| operv1.ClusterNetwork := operv1.ClusterNetwork spec;
                   operv1.ServiceNetwork := operv1.ServiceNetwork spec;
                   operv1.OVNKubernetes :=
                     Some {| operv1.MTU := operv1.MTU oc;
                             operv1.GenevePort := operv1.GenevePort oc;
                             operv1.HybridOverlay := operv1.HybridOverlay oc;
                             operv1.IPsecConfig := operv1.IPsecConfig oc;
                             operv1.PolicyAudit := operv1.PolicyAudit oc;
                             operv1.Gateway := Some g |};
                   operv1.Migration := operv1.Migration spec;
                   operv1.DeployKubeProxy := operv1.DeployKubeProxy spec;
                   operv1.ExportFlows := operv1.ExportFlows spec |} |}
  end.

(** [conf.SetAnnotations(a)]. *)
Definition SetAnnotations (a : StringMap) (c : operv1.Network) : operv1.Network :=
  {| operv1.Annotations := a; operv1.Spec := operv1.Spec c |}.

(** [time.Duration.Seconds], for a duration in nanoseconds. *)
Definition Duration_Seconds (d : Z) : spec_float :=
  let sec := Z.quot d 1000000000 in
  let nsec := Z.rem d 1000000000 in
  SFadd 53 1024 (float64_of_Z sec)
    (SFdiv 53 1024 (float64_of_Z nsec) (float64_of_Z 1000000000)).

(** [uint(f)] for [f] below 2^63, as amd64 converts it: through the
    signed conversion. *)
Definition float64_to_uint (x : spec_float) : Z := float64_to_int x mod 2 ^ 64.

Section Bootstrap.
Context `{Names}.

(** [yaml.Unmarshal] of the install configuration into
    [replicaCountDecoder]: an error text or the [replicas] string. *)
Variable yamlUnmarshalReplicas : string → string + string.

(** [platform.BootstrapInfra]. *)
Variable BootstrapInfra : KubeClient → string + bootstrap.InfraBootstrapResult.

(** [time.ParseDuration]: an error text or the nanoseconds. *)
Variable ParseDuration : string → string + Z.

(** [bootstrapOVNGatewayConfig] sets the gateway configuration from the
    [gateway-mode-config] map, if any. *)
Definition bootstrapOVNGatewayConfig (kubeClient : KubeClient) : M BootState unit :=
  λ s,
  let modeOverride :=
    match getGatewayModeConfig kubeClient with
    | Found cm =>
        let m := index cm "mode" in
        if bool_decide (m ≠ OVN_SHARED_GW_MODE) && bool_decide (m ≠ OVN_LOCAL_GW_MODE)
        then OVN_SHARED_GW_MODE else m
    | _ => OVN_SHARED_GW_MODE
    end in
  let routeViaHost := bool_decide (modeOverride = OVN_LOCAL_GW_MODE) in
  match set_GatewayConfig {| operv1.RoutingViaHost := routeViaHost |} (conf s) with
  | Some c => (Ok tt, set_conf c s)
  | None => (Panic NilDereference, s)
  end.

(** [bootstrapOVNConfig] returns the node mode found in the
    [dpu-mode-config] map, or the default. *)
Definition bootstrapOVNConfig (kubeClient : KubeClient)
    : M BootState bootstrap.OVNConfigBoostrapResult :=
  s ← get;
  match operv1.OVNKubernetes (operv1.Spec (conf s)) with
  | None => crash NilDereference
  | Some oc =>
      _ ← (match operv1.Gateway oc with
           | None => bootstrapOVNGatewayConfig kubeClient
           | Some _ => mret tt
           end);
      match getDpuModeConfig kubeClient with
      | NotFound _ => mret {| bootstrap.NodeMode := OVN_NODE_MODE_FULL |}
      | GetFailed e => fail ("Could not determine Node Mode: " +:+ e)
      | Found cm =>
          let nodeModeOverride := index cm "mode" in
          if bool_decide (nodeModeOverride ≠ OVN_NODE_MODE_DPU_HOST)
             && bool_decide (nodeModeOverride ≠ OVN_NODE_MODE_DPU)
          then mret {| bootstrap.NodeMode := OVN_NODE_MODE_FULL |}
          else mret {| bootstrap.NodeMode := nodeModeOverride |}
      end
  end.

(** [bootstrapFlowsConfig] reads the [ovs-flows-config] map; nil when it
    is missing or names no target. *)
Definition bootstrapFlowsConfig (cl : KubeClient) : option bootstrap.FlowsConfig :=
  match getFlowsConfig cl with
  | Found cm =>
      let target :=
        match index_ok cm "sharedTarget" with
        | Some st => Some st
        | None =>
            match index_ok cm "nodePort" with
            | Some np => Some (":" +:+ np)
            | None => None
            end
        end in
      match target with
      | None => None
      | Some t =>
          Some {| bootstrap.Target := t;
                  bootstrap.CacheActiveTimeout :=
                    match index_ok cm "cacheActiveTimeout" with
                    | Some catStr =>
                        match ParseDuration catStr with
                        | inl _ => None
                        | inr catd => Some (float64_to_uint (Duration_Seconds catd))
                        end
                    | None => None
                    end;
                  bootstrap.CacheMaxFlows :=
                    match index_ok cm "cacheMaxFlows" with
                    | Some cmfStr => ParseUint32 cmfStr
                    | None => None
                    end;
                  bootstrap.Sampling :=
                    match index_ok cm "sampling" with
                    | Some sStr => ParseUint32 sStr
                    | None => None
                    end |}
      end
  | _ => None
  end.

(** The condition polled by [bootstrapOVN]: list the masters into
    [masterNodeList]; done when their number is the expected one.  The
    store is the number of listings made and [masterNodeList.Items]. *)
Definition discoveryCondition (kubeClient : KubeClient) (controlPlaneReplicaCount : Z)
    (st : nat * list corev1.Node) : (string + bool) * (nat * list corev1.Node) :=
  let '(calls, items) := st in
  match listMasterNodes kubeClient calls with
  | inl e => (inl e, (S calls, items))
  | inr nodes =>
      (inr (bool_decide (Z.of_nat (length nodes) ≠ 0)
            && bool_decide (controlPlaneReplicaCount = Z.of_nat (length nodes))),
       (S calls, nodes))
  end.

(** The discovery of the masters (the poll and the handling of its
    error): the nodes found, with the deadline shortened after a timeout. *)
Definition discoverMasters (kubeClient : KubeClient) (controlPlaneReplicaCount : Z)
    : M BootState (list corev1.Node) := λ s,
  let timeout := OVN_MASTER_DISCOVERY_TIMEOUT s in
  let '(err, (_, items)) :=
    PollImmediate OVN_MASTER_DISCOVERY_POLL timeout
      (discoveryCondition kubeClient controlPlaneReplicaCount) (O, []) in
  match err with
  | Some ErrWaitTimeout =>
      if 0 <? timeout - OVN_MASTER_DISCOVERY_BACKOFF
      then (Ok items, set_timeout (timeout - OVN_MASTER_DISCOVERY_BACKOFF) s)
      else (Ok items, s)
  | Some (ConditionError e) => (Err ("Unable to bootstrap OVN, err: " +:+ e), s)
  | None => (Ok items, s)
  end.

(** The first address of type InternalIP of a node, or the empty string. *)
Fixpoint internalIP (addresses : list corev1.NodeAddress) : string :=
  match addresses with
  | [] => ""
  | address :: rest =>
      if bool_decide (corev1.Type_ address = corev1.NodeInternalIP)
      then corev1.Address address
      else internalIP rest
  end.

(** The loop filling [ovnMasterIPs]: it stops at the first node without
    an internal address. *)
Fixpoint masterIPs (items : list corev1.Node) : string + list string :=
  match items with
  | [] => inr []
  | masterNode :: rest =>
      let ip := internalIP (corev1.Addresses masterNode) in
      if bool_decide (ip = "") then
        inl ("No InternalIP found on master node '" +:+ corev1.Name masterNode +:+ "'")
      else
        match masterIPs rest with
        | inl e => inl e
        | inr ips => inr (ip :: ips)
        end
  end.

(** The choice of [clusterInitiator]: the annotated initiator when it is
    still a master, else the first address, which is then annotated. *)
Definition electInitiator (ovnMasterIPs : list string) : M BootState string :=
  s ← get;
  let currentAnnotation := operv1.Annotations (conf s) in
  let reelect : M BootState string :=
    match ovnMasterIPs with
    | [] => crash IndexOutOfRange
    | clusterInitiator :: _ =>
        let currentAnnotation' :=
          match currentAnnotation with
          | None => Some {[ OVNRaftClusterInitiator := clusterInitiator ]}
          | Some m => Some (<[ OVNRaftClusterInitiator := clusterInitiator ]> m)
          end in
        _ ← put (set_conf (SetAnnotations currentAnnotation' (conf s)) s);
        mret clusterInitiator
    end in
  match index_ok currentAnnotation OVNRaftClusterInitiator with
  | Some cInitiator =>
      if currentInitiatorExists ovnMasterIPs cInitiator then mret cInitiator
      else reelect
  | None => reelect
  end.

(** The retrieval of an existing daemonset: nil when it is not found. *)
Definition existingDaemonSet (what : string) (r : getResult appsv1.DaemonSet)
    : M BootState (option appsv1.DaemonSet) :=
  match r with
  | Found ds => mret (Some ds)
  | NotFound _ => mret None
  | GetFailed e => fail ("Failed to retrieve existing " +:+ what +:+ " DaemonSet: " +:+ e)
  end.

Definition bootstrapOVN (kubeClient : KubeClient) : M BootState bootstrap.BootstrapResult :=
  clusterConfig ←
    match getClusterConfig kubeClient with
    | Found cm => mret cm
    | NotFound e | GetFailed e =>
        fail ("Unable to bootstrap OVN, unable to retrieve cluster config: " +:+ e)
    end;
  replicas ←
    match yamlUnmarshalReplicas (index clusterConfig "install-config") with
    | inr r => mret r
    | inl e => fail ("Unable to bootstrap OVN, unable to unmarshal install-config: " +:+ e)
    end;
  ovnConfigResult ←
    wrapErr "Unable to bootstrap OVN config, err: " (bootstrapOVNConfig kubeClient);
  let controlPlaneReplicaCount := fst (Atoi replicas) in
  items ← discoverMasters kubeClient controlPlaneReplicaCount;
  ips ←
    match masterIPs items with
    | inr ips => mret ips
    | inl e => fail e
    end;
  let ovnMasterIPs := sort_Strings ips in
  clusterInitiator ← electInitiator ovnMasterIPs;
  masterDS ← existingDaemonSet "master" (getMasterDaemonSet kubeClient);
  nodeDS ← existingDaemonSet "node" (getNodeDaemonSet kubeClient);
  prePullerDS ← existingDaemonSet "prepuller" (getPrePullerDaemonSet kubeClient);
  infraRes ←
    match BootstrapInfra kubeClient with
    | inr r => mret r
    | inl e => fail e
    end;
  mret {| bootstrap.Infra := infraRes;
          bootstrap.OVN :=
            {| bootstrap.MasterIPs := ovnMasterIPs;
               bootstrap.ClusterInitiator := clusterInitiator;
               bootstrap.ExistingMasterDaemonset := masterDS;
               bootstrap.ExistingNodeDaemonset := nodeDS;
               bootstrap.OVNKubernetesConfig := ovnConfigResult;
               bootstrap.PrePullerDaemonset := prePullerDS;
               bootstrap.Flows := bootstrapFlowsConfig kubeClient |} |}.

End Bootstrap.

(** ** Validation and defaults *)

Definition set_OVNKubernetes (oc : operv1.OVNKubernetesConfig) (c : operv1.NetworkSpec)
    : operv1.NetworkSpec :=
  {| operv1.ClusterNetwork := operv1.ClusterNetwork c;
     operv1.ServiceNetwork := operv1.ServiceNetwork c;
     operv1.OVNKubernetes := Some oc;
     operv1.Migration := operv1.Migration c;
     operv1.DeployKubeProxy := operv1.DeployKubeProxy c;
     operv1.ExportFlows := operv1.ExportFlows c |}.

Definition set_DeployKubeProxy (b : option bool) (c : operv1.NetworkSpec)
    : operv1.NetworkSpec :=
  {| operv1.ClusterNetwork := operv1.ClusterNetwork c;
     operv1.ServiceNetwork := operv1.ServiceNetwork c;
     operv1.OVNKubernetes := operv1.OVNKubernetes c;
     operv1.Migration := operv1.Migration c;
     operv1.DeployKubeProxy := b;
     operv1.ExportFlows := operv1.ExportFlows c |}.

Definition set_MTU (mtu : option Z) (oc : operv1.OVNKubernetesConfig)
    : operv1.OVNKubernetesConfig :=
  {| operv1.MTU := mtu;
     operv1.GenevePort := operv1.GenevePort oc;
     operv1.HybridOverlay := operv1.HybridOverlay oc;
     operv1.IPsecConfig := operv1.IPsecConfig oc;
     operv1.PolicyAudit := operv1.PolicyAudit oc;
     operv1.Gateway := operv1.Gateway oc |}.

Section Validation.

(** [utilnet.IsIPv6CIDRString]. *)
Variable IsIPv6CIDRString : string → bool.

(** [validateOVNKubernetes] checks that the configuration is basically
    sane; it returns the list of errors found. *)
Definition validateOVNKubernetes (conf : operv1.NetworkSpec) : list string :=
  let cnHasIPv6 := existsb (λ cn, IsIPv6CIDRString (operv1.CIDR cn)) (operv1.ClusterNetwork conf) in
  let cnHasIPv4 :=
    existsb (λ cn, negb (IsIPv6CIDRString (operv1.CIDR cn))) (operv1.ClusterNetwork conf) in
  let snHasIPv6 := existsb (λ sn, IsIPv6CIDRString sn) (operv1.ServiceNetwork conf) in
  let snHasIPv4 := existsb (λ sn, negb (IsIPv6CIDRString sn)) (operv1.ServiceNetwork conf) in
  let len := Z.of_nat (length (operv1.ServiceNetwork conf)) in
  (if negb cnHasIPv6 && negb cnHasIPv4 then ["ClusterNetwork cannot be empty"] else [])
  ++ (if negb snHasIPv6 && negb snHasIPv4 then ["ServiceNetwork cannot be empty"] else [])
  ++ (if negb (eqb cnHasIPv4 snHasIPv4) || negb (eqb cnHasIPv6 snHasIPv6)
      then ["ClusterNetwork and ServiceNetwork must have matching IP families"] else [])
  ++ (if (2 <? len) || ((len =? 2) && (negb snHasIPv4 || negb snHasIPv6))
      then ["ServiceNetwork must have either a single CIDR or a dual-stack pair of CIDRs"]
      else [])
  ++ match operv1.OVNKubernetes conf with
     | None => []
     | Some oc =>
         match operv1.MTU oc with
         | Some mtu =>
             if (mtu <? 576) || (65536 <? mtu) then ["invalid MTU " +:+ pretty mtu] else []
         | None => []
         end
         ++ match operv1.GenevePort oc with
            | Some port =>
                if (port <? 1) || (65535 <? port)
                then ["invalid GenevePort " +:+ pretty port] else []
            | None => []
            end
     end.

End Validation.

(** [getOVNEncapOverhead]: the Geneve header, and ESP when IPsec is on. *)
Definition getOVNEncapOverhead (conf : operv1.NetworkSpec) : outcome Z :=
  match operv1.OVNKubernetes conf with
  | None => Panic NilDereference
  | Some oc =>
      match operv1.IPsecConfig oc with
      | Some _ => Ok (wrapU32 (100 + 46))
      | None => Ok 100
      end
  end.

(** The branch of [isOVNKubernetesChangeSafe] on the MTU, when a migration
    of the MTU is requested with values [mtuNet] and [mtuMach]. *)
Definition checkMTUMigration (prev next : operv1.NetworkSpec)
    (mtuNet mtuMach : option operv1.MTUMigrationValues) : outcome (list string) :=
  match mtuNet, mtuMach with
  | Some net, Some mach =>
      match operv1.From net, operv1.To net, operv1.To mach with
      | Some from, Some to, Some machTo =>
          let checkPrevMTU :=
            match operv1.Migration prev with
            | None => true
            | Some pm =>
                match operv1.MigrationMTU pm with
                | None => true
                | Some pmtu =>
                    match operv1.Network_ pmtu with
                    | None => true
                    | Some pnet => bool_decide (operv1.From pnet ≠ Some from)
                    end
                end
            end in
          let first : outcome (list string) :=
            if checkPrevMTU then
              match operv1.OVNKubernetes prev with
              | None => Panic NilDereference
              | Some pn =>
                  match operv1.MTU pn with
                  | Some cur =>
                      if bool_decide (from ≠ cur) then
                        Ok ["invalid Migration.MTU.Network.From(" +:+ pretty from
                            +:+ ") not equal to the currently applied MTU("
                            +:+ pretty cur +:+ ")"]
                      else Ok []
                  | None => Panic NilDereference
                  end
              end
            else Ok [] in
          match first with
          | Ok errs =>
              match getOVNEncapOverhead next with
              | Ok overhead =>
                  if machTo <? wrapU32 (to + overhead) then
                    Ok (errs ++ ["invalid Migration.MTU.Machine.To(" +:+ pretty machTo
                                 +:+ "), has to be at least "
                                 +:+ pretty (wrapU32 (to + overhead))])
                  else Ok errs
              | Err e => Err e
              | Panic p => Panic p
              end
          | r => r
          end
      | _, _, _ =>
          Ok ["invalid Migration.MTU, at least one of the required fields is missing"]
      end
  | _, _ => Ok ["invalid Migration.MTU, at least one of the required fields is missing"]
  end.

(** [isOVNKubernetesChangeSafe] returns an error for every change made to
    an immutable field. *)
Definition isOVNKubernetesChangeSafe (prev next : operv1.NetworkSpec)
    : outcome (list string) :=
  let migrationMTU :=
    match operv1.Migration next with
    | Some m => operv1.MigrationMTU m
    | None => None
    end in
  let rest (pn nn : operv1.OVNKubernetesConfig) : list string :=
    (if bool_decide (operv1.GenevePort pn ≠ operv1.GenevePort nn)
     then ["cannot change ovn-kubernetes genevePort"] else [])
    ++ (match operv1.HybridOverlay pn, operv1.HybridOverlay nn with
        | None, Some _ => ["cannot start a hybrid overlay network after install time"]
        | _, _ => []
        end)
    ++ (match operv1.HybridOverlay pn with
        | Some _ =>
            if bool_decide (operv1.HybridOverlay pn ≠ operv1.HybridOverlay nn)
            then ["cannot edit a running hybrid overlay network"] else []
        | None => []
        end)
    ++ (match operv1.IPsecConfig pn, operv1.IPsecConfig nn with
        | None, Some _ => ["cannot enable IPsec after install time"]
        | _, _ => []
        end)
    ++ (match operv1.IPsecConfig pn with
        | Some _ =>
            if bool_decide (operv1.IPsecConfig pn ≠ operv1.IPsecConfig nn)
            then ["cannot edit IPsec configuration at runtime"] else []
        | None => []
        end) in
  let mtuErrs : outcome (list string) :=
    match migrationMTU with
    | Some mtu => checkMTUMigration prev next (operv1.Network_ mtu) (operv1.Machine mtu)
    | None =>
        match operv1.OVNKubernetes prev, operv1.OVNKubernetes next with
        | Some pn, Some nn =>
            if bool_decide (operv1.MTU pn ≠ operv1.MTU nn)
            then Ok ["cannot change ovn-kubernetes MTU without migration"] else Ok []
        | _, _ => Panic NilDereference
        end
    end in
  match mtuErrs with
  | Ok errs =>
      match operv1.OVNKubernetes prev, operv1.OVNKubernetes next with
      | Some pn, Some nn => Ok (errs ++ rest pn nn)
      | _, _ => Panic NilDereference
      end
  | r => r
  end.

(** [fillOVNKubernetesDefaults]: the configuration with every unset field
    of the OVN-Kubernetes section given its default. *)
Definition fillOVNKubernetesDefaults (conf : operv1.NetworkSpec)
    (previous : option operv1.NetworkSpec) (hostMTU : Z) : operv1.NetworkSpec :=
  let sc :=
    match operv1.OVNKubernetes conf with
    | Some oc => oc
    | None =>
        {| operv1.MTU := None; operv1.GenevePort := None; operv1.HybridOverlay := None;
           operv1.IPsecConfig := None; operv1.PolicyAudit := None;
           operv1.Gateway := None |}
    end in
  let overhead :=
    match operv1.IPsecConfig sc with
    | Some _ => wrapU32 (100 + 46)
    | None => 100
    end in
  let mtu :=
    match operv1.MTU sc with
    | Some m => Some m
    | None =>
        let inferred := Some (wrapU32 (wrapU32 hostMTU - overhead)) in
        match previous with
        | Some p =>
            match operv1.OVNKubernetes p with
            | Some poc =>
                match operv1.MTU poc with
                | Some m => Some m
                | None => inferred
                end
            | None => inferred
            end
        | None => inferred
        end
    end in
  let geneve :=
    match operv1.GenevePort sc with
    | Some g => Some g
    | None => Some 6081
    end in
  let pa :=
    match operv1.PolicyAudit sc with
    | Some pa => pa
    | None =>
        {| operv1.RateLimit := None; operv1.MaxFileSize := None;
           operv1.Destination := ""; operv1.SyslogFacility := "" |}
    end in
  let pa' :=
    {| operv1.RateLimit :=
         match operv1.RateLimit pa with Some r => Some r | None => Some 20 end;
       operv1.MaxFileSize :=
         match operv1.MaxFileSize pa with Some r => Some r | None => Some 50 end;
       operv1.Destination :=
         if bool_decide (operv1.Destination pa = "") then "null" else operv1.Destination pa;
       operv1.SyslogFacility :=
         if bool_decide (operv1.SyslogFacility pa = "") then "local0"
         else operv1.SyslogFacility pa |} in
  set_OVNKubernetes
    {| operv1.MTU := mtu;
       operv1.GenevePort := geneve;
       operv1.HybridOverlay := operv1.HybridOverlay sc;
       operv1.IPsecConfig := operv1.IPsecConfig sc;
       operv1.PolicyAudit := Some pa';
       operv1.Gateway := operv1.Gateway sc |}
    conf.

(** ** Rendered objects *)

Module uns.
(** The pod template annotations of an object, as the nested accessors see
    them: unreachable when a field on the path is not a map (with the error
    text of the setter), else the map, nil when absent. *)
Inductive templateAnnotations :=
  | TemplateBlocked (e : string)
  | TemplateAnnotations (a : StringMap).

Record Unstructured := {
  APIVersion : string;
  Kind : string;
  Namespace : string;
  Name : string;
  Annotations : StringMap;
  Template : templateAnnotations;
  Content : string
}.
End uns.

(** [anno[key] = value] after [if anno == nil { anno = map[string]string{} }]. *)
Definition annotate (anno : StringMap) (key value : string) : StringMap :=
  match anno with
  | None => Some {[ key := value ]}
  | Some m => Some (<[ key := value ]> m)
  end.

(** The body of the loop of [setOVNDaemonsetAnnotation] for one object:
    the object after it and the error returned, if any. *)
Definition annotateDaemonset (obj : uns.Unstructured) (key value : string)
    : uns.Unstructured * option string :=
  if bool_decide (uns.APIVersion obj = "apps/v1")
     && bool_decide (uns.Kind obj = "DaemonSet")
     && (bool_decide (uns.Name obj = "ovnkube-master")
         || bool_decide (uns.Name obj = "ovnkube-node"))
  then
    let anno := annotate (uns.Annotations obj) key value in
    match uns.Template obj with
    | uns.TemplateAnnotations t =>
        ({| uns.APIVersion := uns.APIVersion obj; uns.Kind := uns.Kind obj;
            uns.Namespace := uns.Namespace obj; uns.Name := uns.Name obj;
            uns.Annotations := anno;
            uns.Template := uns.TemplateAnnotations (annotate t key value);
            uns.Content := uns.Content obj |}, None)
    | uns.TemplateBlocked e =>
        ({| uns.APIVersion := uns.APIVersion obj; uns.Kind := uns.Kind obj;
            uns.Namespace := uns.Namespace obj; uns.Name := uns.Name obj;
            uns.Annotations := anno;
            uns.Template := uns.TemplateBlocked e;
            uns.Content := uns.Content obj |}, Some e)
    end
  else (obj, None).

(** [setOVNDaemonsetAnnotation] annotates the master and node daemonsets
    and their pod templates; the objects are changed in place, up to the
    one whose template cannot be set. *)
Fixpoint setOVNDaemonsetAnnotation (objs : list uns.Unstructured) (key value : string)
    : list uns.Unstructured * option string :=
  match objs with
  | [] => ([], None)
  | obj :: rest =>
      match annotateDaemonset obj key value with
      | (obj', Some e) => (obj' :: rest, Some e)
      | (obj', None) =>
          let '(rest', err) := setOVNDaemonsetAnnotation rest key value in
          (obj' :: rest', err)
      end
  end.

(** Modelled from the spec: [k8s.ToUnstructured], [k8s.ReplaceObj] and
    [k8s.RemoveObjByGroupKindName] of package [k8s], which is not part of
    this file (section 6: an object withheld is replaced by the existing
    one, identity substitution; the prepull object is dropped from the
    set). *)
Definition ToUnstructured (ds : appsv1.DaemonSet) : uns.Unstructured :=
  {| uns.APIVersion := "apps/v1"; uns.Kind := "DaemonSet";
     uns.Namespace := appsv1.Namespace ds; uns.Name := appsv1.Name ds;
     uns.Annotations := appsv1.Annotations ds;
     uns.Template := uns.TemplateAnnotations None;
     uns.Content := "" |}.

Definition sameObject (a b : uns.Unstructured) : bool :=
  bool_decide (uns.APIVersion a = uns.APIVersion b)
  && bool_decide (uns.Kind a = uns.Kind b)
  && bool_decide (uns.Namespace a = uns.Namespace b)
  && bool_decide (uns.Name a = uns.Name b).

Definition ReplaceObj (objs : list uns.Unstructured) (new : uns.Unstructured)
    : list uns.Unstructured :=
  map (λ obj, if sameObject obj new then new else obj) objs.

(** What precedes the first slash of a string, if it has one. *)
Fixpoint before_slash (s : string) : option string :=
  match s with
  | EmptyString => None
  | String c r =>
      if bool_decide (c = "/"%char) then Some ""
      else String c <$> before_slash r
  end.

(** The group of an API version: empty for the core group. *)
Definition apiGroup (apiVersion : string) : string :=
  default "" (before_slash apiVersion).

Definition RemoveObjByGroupKindName (objs : list uns.Unstructured)
    (group kind namespace name : string) : list uns.Unstructured :=
  filter (λ obj, ¬ (apiGroup (uns.APIVersion obj) = group ∧ uns.Kind obj = kind
                    ∧ uns.Namespace obj = namespace ∧ uns.Name obj = name)) objs.

(** ** Rendering *)

(** A value of the template data: nil, a string, a boolean, a number or a
    pointer to a number. *)
Inductive dataValue :=
  | DNil
  | DString (s : string)
  | DBool (b : bool)
  | DInt (z : Z)
  | DUint32Ptr (p : option Z).

(** [data.Data[k] = v] for each pair, in order. *)
Definition setAll (kvs : list (string * dataValue)) (data : gmap string dataValue)
    : gmap string dataValue :=
  foldl (λ d kv, <[ kv.1 := kv.2 ]> d) data kvs.

(** [strings.TrimSuffix(s, ",")]. *)
Fixpoint TrimSuffix_comma (s : string) : string :=
  match s with
  | EmptyString => ""
  | String c r =>
      match r with
      | EmptyString => if bool_decide (c = ","%char) then "" else s
      | _ => String c (TrimSuffix_comma r)
      end
  end.

(** The collectors of a flow exporter, written to a builder each followed
    by a comma, the last comma trimmed. *)
Definition collectorList (collectors : list string) : string :=
  TrimSuffix_comma (foldl (λ acc v, acc +:+ (v +:+ ",")) "" collectors).

(** The loop building [ippools]. *)
Definition ippools (nets : list operv1.ClusterNetworkEntry) : string :=
  foldl (λ acc net,
           (if bool_decide (String.length acc ≠ 0%nat) then acc +:+ "," else acc)
           +:+ (operv1.CIDR net +:+ "/" +:+ pretty (operv1.HostPrefix net)))
        "" nets.

(** [renderOVNFlowsConfig] renders the bootstrapped information from the
    [ovs-flows-config] map. *)
Definition renderOVNFlowsConfig (bootstrapResult : bootstrap.BootstrapResult)
    (data : gmap string dataValue) : gmap string dataValue :=
  match bootstrap.Flows (bootstrap.OVN bootstrapResult) with
  | None => data
  | Some flows =>
      if bool_decide (bootstrap.Target flows = "") then data
      else
        let d1 :=
          match data !! "IPFIXCollectors" with
          | Some (DString colls) =>
              if bool_decide (colls = "")
              then <[ "IPFIXCollectors" := DString (bootstrap.Target flows) ]> data
              else <[ "IPFIXCollectors" :=
                        DString (colls +:+ "," +:+ bootstrap.Target flows) ]> data
          | _ => <[ "IPFIXCollectors" := DString (bootstrap.Target flows) ]> data
          end in
        let d2 :=
          match bootstrap.CacheMaxFlows flows with
          | Some v => <[ "IPFIXCacheMaxFlows" := DInt v ]> d1
          | None => d1
          end in
        let d3 :=
          match bootstrap.Sampling flows with
          | Some v => <[ "IPFIXSampling" := DInt v ]> d2
          | None => d2
          end in
        match bootstrap.CacheActiveTimeout flows with
        | Some v => <[ "IPFIXCacheActiveTimeout" := DInt v ]> d3
        | None => d3
        end
  end.

(** The three decisions of a pass. *)
Record RolloutDecision := {
  updateNode : bool;
  updateMaster : bool;
  renderPrePull : bool
}.

Definition AzurePlatformType : string := "Azure".

(** [*p] for a pointer [p]. *)
Definition deref {St A} (p : option A) : M St A :=
  match p with
  | Some a => mret a
  | None => crash NilDereference
  end.

Section Render.
Context `{Names}.

Variable compareVersions : string → string → versionChange.

(** [os.Getenv]. *)
Variable Getenv : string → string.

(** [render.RenderDir] and [render.RenderTemplate], given the manifest
    directory, the path below it and the data. *)
Variable RenderDir : string → string → gmap string dataValue → string + list uns.Unstructured.
Variable RenderTemplate :
  string → string → gmap string dataValue → string + list uns.Unstructured.

(** [pluginCNIConfDir], [CNIBinDir] and [fillKubeProxyDefaults (conf, nil)],
    of other files of the package. *)
Variable pluginCNIConfDir : operv1.NetworkSpec → string.
Variable CNIBinDir : string.
Variable fillKubeProxyDefaults : operv1.NetworkSpec → operv1.NetworkSpec.

(** The IP family mode of a pass, from the service networks. *)
Definition ipFamilyModeOf (serviceNetwork : list string) : string :=
  if bool_decide (length serviceNetwork = 2%nat) then IPFamilyDualStack
  else IPFamilySingleStack.

(** The decisions taken by [renderOVNKubernetes]: the gate on the IP family
    first, the upgrade order if the gate lets both through, the prepull
    stage if the node may be updated. *)
Definition rolloutDecision (existingNode existingMaster prePuller : option appsv1.DaemonSet)
    (serviceNetwork : list string) (releaseVersion : string) : RolloutDecision :=
  let ipFamilyMode := ipFamilyModeOf serviceNetwork in
  let '(updateNode, updateMaster) :=
    shouldUpdateOVNKonIPFamilyChange existingNode existingMaster ipFamilyMode in
  let '(updateNode, updateMaster) :=
    if updateMaster && updateNode
    then shouldUpdateOVNKonUpgrade compareVersions existingNode existingMaster releaseVersion
    else (updateNode, updateMaster) in
  let '(updateNode, renderPrePull) :=
    if updateNode
    then shouldUpdateOVNKonPrepull existingNode prePuller releaseVersion
    else (updateNode, false) in
  {| updateNode := updateNode; updateMaster := updateMaster; renderPrePull := renderPrePull |}.

(** The template data of [renderOVNKubernetes], once the pointers it
    reads are known to be set: [c] is the OVN-Kubernetes configuration,
    [mtu] and [routableMTU] the values chosen for the MTU, [masterIP0] the
    first master address and [pa] the policy audit configuration. *)
Definition renderData (conf : operv1.NetworkSpec) (c : operv1.OVNKubernetesConfig)
    (mtu routableMTU : dataValue) (masterIP0 : string) (pa : operv1.PolicyAuditConfig)
    (bootstrapResult : bootstrap.BootstrapResult) : gmap string dataValue :=
  let ovn := bootstrap.OVN bootstrapResult in
  let infra := bootstrap.Infra bootstrapResult in
  let controller_inactivity_probe :=
    if bool_decide (String.length (Getenv "OVN_CONTROLLER_INACTIVITY_PROBE") = 0%nat)
    then "180000" else Getenv "OVN_CONTROLLER_INACTIVITY_PROBE" in
  let nb_inactivity_probe :=
    if bool_decide (String.length (Getenv "OVN_NB_INACTIVITY_PROBE") = 0%nat)
    then "60000" else Getenv "OVN_NB_INACTIVITY_PROBE" in
  let hybrid :=
    match operv1.HybridOverlay c with
    | Some h =>
        [("OVNHybridOverlayNetCIDR",
          match operv1.HybridClusterNetwork h with
          | Some (n :: _) => DString (operv1.CIDR n)
          | _ => DString ""
          end);
         ("OVNHybridOverlayVXLANPort",
          match operv1.HybridOverlayVXLANPort h with
          | Some p => DUint32Ptr (Some p)
          | None => DString ""
          end);
         ("OVNHybridOverlayEnable", DBool true)]
    | None =>
        [("OVNHybridOverlayNetCIDR", DString "");
         ("OVNHybridOverlayEnable", DBool false);
         ("OVNHybridOverlayVXLANPort", DString "")]
    end in
  let gatewayMode :=
    match operv1.Gateway c with
    | Some g => if operv1.RoutingViaHost g then OVN_LOCAL_GW_MODE else OVN_SHARED_GW_MODE
    | None => OVN_SHARED_GW_MODE
    end in
  let flows :=
    match operv1.ExportFlows conf with
    | Some e =>
        match operv1.NetFlow e with
        | Some f => [("NetFlowCollectors", DString (collectorList (operv1.NetFlowCollectors f)))]
        | None => []
        end
        ++ match operv1.SFlow e with
           | Some f => [("SFlowCollectors", DString (collectorList (operv1.SFlowCollectors f)))]
           | None => []
           end
        ++ match operv1.IPFIX e with
           | Some f => [("IPFIXCollectors", DString (collectorList (operv1.IPFIXCollectors f)))]
           | None => []
           end
    | None => []
    end in
  let data :=
    setAll
      ([("ReleaseVersion", DString (Getenv "RELEASE_VERSION"));
        ("OvnImage", DString (Getenv "OVN_IMAGE"));
        ("KubeRBACProxyImage", DString (Getenv "KUBE_RBAC_PROXY_IMAGE"));
        ("KUBERNETES_SERVICE_HOST", DString (Getenv "KUBERNETES_SERVICE_HOST"));
        ("KUBERNETES_SERVICE_PORT", DString (Getenv "KUBERNETES_SERVICE_PORT"));
        ("K8S_APISERVER",
         DString ("https://" +:+ Getenv "KUBERNETES_SERVICE_HOST" +:+ ":"
                  +:+ Getenv "KUBERNETES_SERVICE_PORT"));
        ("MTU", mtu);
        ("RoutableMTU", routableMTU);
        ("GenevePort", DUint32Ptr (operv1.GenevePort c));
        ("CNIConfDir", DString (pluginCNIConfDir conf));
        ("CNIBinDir", DString CNIBinDir);
        ("OVN_NODE_MODE", DString OVN_NODE_MODE_FULL);
        ("OVN_NB_PORT", DString OVN_NB_PORT);
        ("OVN_SB_PORT", DString OVN_SB_PORT);
        ("OVN_NB_RAFT_PORT", DString OVN_NB_RAFT_PORT);
        ("OVN_SB_RAFT_PORT", DString OVN_SB_RAFT_PORT);
        ("OVN_NB_RAFT_ELECTION_TIMER", DString (Getenv "OVN_NB_RAFT_ELECTION_TIMER"));
        ("OVN_SB_RAFT_ELECTION_TIMER", DString (Getenv "OVN_SB_RAFT_ELECTION_TIMER"));
        ("OVN_CONTROLLER_INACTIVITY_PROBE", DString (Getenv "OVN_CONTROLLER_INACTIVITY_PROBE"));
        ("OVN_CONTROLLER_INACTIVITY_PROBE", DString controller_inactivity_probe);
        ("OVN_NB_INACTIVITY_PROBE", DString nb_inactivity_probe);
        ("OVN_NB_DB_LIST", DString (dbList (bootstrap.MasterIPs ovn) OVN_NB_PORT));
        ("OVN_SB_DB_LIST", DString (dbList (bootstrap.MasterIPs ovn) OVN_SB_PORT));
        ("OVN_DB_CLUSTER_INITIATOR", DString (bootstrap.ClusterInitiator ovn));
        ("OVN_MIN_AVAILABLE", DInt (Z.of_nat (length (bootstrap.MasterIPs ovn)) / 2 + 1));
        ("LISTEN_DUAL_STACK", DString (listenDualStack masterIP0));
        ("OVN_CERT_CN", DString OVN_CERT_CN);
        ("OVN_NORTHD_PROBE_INTERVAL", DString (Getenv "OVN_NORTHD_PROBE_INTERVAL"));
        ("NetFlowCollectors", DString "");
        ("SFlowCollectors", DString "");
        ("IPFIXCollectors", DString "");
        ("IPFIXCacheMaxFlows", DString "");
        ("IPFIXCacheActiveTimeout", DString "");
        ("IPFIXSampling", DString "");
        ("OVNPolicyAuditRateLimit", DUint32Ptr (operv1.RateLimit pa));
        ("OVNPolicyAuditMaxFileSize", DUint32Ptr (operv1.MaxFileSize pa));
        ("OVNPolicyAuditDestination", DString (operv1.Destination pa));
        ("OVNPolicyAuditSyslogFacility", DString (operv1.SyslogFacility pa));
        ("OVN_LOG_PATTERN_CONSOLE", DString OVN_LOG_PATTERN_CONSOLE);
        ("PlatformType", DString (bootstrap.PlatformType infra));
        ("OVNPlatformAzure",
         DBool (bool_decide (bootstrap.PlatformType infra = AzurePlatformType)));
        ("OVN_cidr", DString (ippools (operv1.ClusterNetwork conf)));
        ("OVN_service_cidr", DString (String.concat "," (operv1.ServiceNetwork conf)))]
       ++ hybrid
       ++ [("EnableIPsec", DBool (bool_decide (is_Some (operv1.IPsecConfig c))));
           ("OVN_GATEWAY_MODE", DString gatewayMode)]
       ++ flows)
      ∅ in
  <[ "IsSNO" := DBool (bool_decide (length (bootstrap.MasterIPs ovn) = 1%nat)) ]>
    (renderOVNFlowsConfig bootstrapResult data).

(** [renderOVNKubernetes] returns the manifests for ovn-kubernetes.  The
    store is the configuration, passed by pointer. *)
Definition renderOVNKubernetes (bootstrapResult : bootstrap.BootstrapResult)
    (manifestDir : string) : M operv1.NetworkSpec (list uns.Unstructured) :=
  let ovn := bootstrap.OVN bootstrapResult in
  if bootstrap.ExternalControlPlane (bootstrap.Infra bootstrapResult) then
    fail "Unable to render OVN in a cluster with an external control plane"
  else
    conf ← get;
    c ← deref (operv1.OVNKubernetes conf);
    '(mtu, routableMTU) ←
      match operv1.Migration conf with
      | Some (operv1.Build_NetworkMigration (Some m)) =>
          net ← deref (operv1.Network_ m);
          from ← deref (operv1.From net);
          to ← deref (operv1.To net);
          _ ← put (set_OVNKubernetes (set_MTU (Some to) c) conf);
          if to <? from
          then mret (DUint32Ptr (Some from), DUint32Ptr (Some to))
          else mret (DUint32Ptr (Some to), DUint32Ptr (Some from))
      | _ => mret (DUint32Ptr (operv1.MTU c), DNil)
      end;
    masterIP0 ←
      match bootstrap.MasterIPs ovn with
      | [] => crash IndexOutOfRange
      | ip :: _ => mret ip
      end;
    pa ← deref (operv1.PolicyAudit c);
    let data := renderData conf c mtu routableMTU masterIP0 pa bootstrapResult in
    manifests ←
      match RenderDir manifestDir "network/ovn-kubernetes" data with
      | inr ms => mret ms
      | inl e => fail ("failed to render manifests: " +:+ e)
      end;
    let nodeMode := bootstrap.NodeMode (bootstrap.OVNKubernetesConfig ovn) in
    objs ←
      (if bool_decide (nodeMode = OVN_NODE_MODE_DPU_HOST) then
         match RenderTemplate manifestDir "network/ovn-kubernetes/ovnkube-node.yaml"
                 (<[ "OVN_NODE_MODE" := DString nodeMode ]> data) with
         | inr ms => mret (manifests ++ ms)
         | inl e => fail ("failed to render manifests: " +:+ e)
         end
       else if bool_decide (nodeMode = OVN_NODE_MODE_DPU) then
         match RenderTemplate manifestDir "network/ovn-kubernetes/error-cni.yaml"
                 (<[ "OVN_NODE_MODE" := DString nodeMode ]> data) with
         | inr ms =>
             conf' ← get;
             _ ← put (fillKubeProxyDefaults (set_DeployKubeProxy (Some true) conf'));
             mret (manifests ++ ms)
         | inl e => fail ("failed to render manifests: " +:+ e)
         end
       else mret manifests);
    conf' ← get;
    let ipFamilyMode := ipFamilyModeOf (operv1.ServiceNetwork conf') in
    let existingNode := bootstrap.ExistingNodeDaemonset ovn in
    let existingMaster := bootstrap.ExistingMasterDaemonset ovn in
    let decision :=
      rolloutDecision existingNode existingMaster (bootstrap.PrePullerDaemonset ovn)
        (operv1.ServiceNetwork conf') (Getenv "RELEASE_VERSION") in
    objs ←
      match setOVNDaemonsetAnnotation objs NetworkIPFamilyModeAnnotation ipFamilyMode with
      | (objs', None) => mret objs'
      | (_, Some e) =>
          fail ("failed to set IP family " +:+ ipFamilyMode
                +:+ " annotation on daemonsets: " +:+ e)
      end;
    objs ←
      (if negb (updateMaster decision) then
         ds ← deref existingMaster; mret (ReplaceObj objs (ToUnstructured ds))
       else mret objs);
    objs ←
      (if negb (updateNode decision) then
         ds ← deref existingNode; mret (ReplaceObj objs (ToUnstructured ds))
       else mret objs);
    if negb (renderPrePull decision) then
      mret (RemoveObjByGroupKindName objs "apps" "DaemonSet" "openshift-ovn-kubernetes"
              "ovnkube-upgrades-prepuller")
    else mret objs.

End Render.

(** ** The version classifier and the ordering table, from the spec *)

(** The numbers of a dotted version, none when a part is not a number. *)
Fixpoint parseVersion (acc : option Z) (s : string) : option (list Z) :=
  match s with
  | EmptyString =>
      match acc with
      | Some n => Some [n]
      | None => None
      end
  | String c r =>
      if bool_decide (c = "."%char) then
        match acc with
        | Some n => (n ::.) <$> parseVersion None r
        | None => None
        end
      else
        match digit_of c with
        | Some d => parseVersion (Some (10 * default 0 acc + d)) r
        | None => None
        end
  end.

Fixpoint compareNumbers (a b : list Z) : comparison :=
  match a, b with
  | [], [] => Eq
  | [], _ :: _ => Lt
  | _ :: _, [] => Gt
  | x :: a', y :: b' =>
      match x ?= y with
      | Eq => compareNumbers a' b'
      | c => c
      end
  end.

(** Modelled from the spec: [compareVersions], declared in another file of
    the package (section 4.2: equal strings are Same; otherwise Upgrade if
    the deployed version is below the desired one in the release ordering,
    Downgrade if above, Unknown if the ordering cannot be determined).  The
    release ordering is taken on dotted numbers. *)
Definition compareVersions_spec (fromVersion toVersion : string) : versionChange :=
  if bool_decide (fromVersion = toVersion) then versionSame
  else
    match parseVersion None fromVersion, parseVersion None toVersion with
    | Some a, Some b =>
        match compareNumbers a b with
        | Lt => versionUpgrade
        | Gt => versionDowngrade
        | Eq => versionUnknown
        end
    | _, _ => versionUnknown
    end.

(** The ordering table of the spec (section 4.3): rows are the node delta,
    columns the master delta, cells are [(updateNode, updateMaster)];
    [nodeProgressing] is the node rollout still progressing with the hang
    tolerance, [masterProgressing] the master rollout without it.  The
    cells the spec calls illegal and those with an Unknown permit both. *)
Definition orderingTable (nodeDelta masterDelta : versionChange)
    (nodeProgressing masterProgressing : bool) : bool * bool :=
  match nodeDelta, masterDelta with
  | versionUpgrade, versionUpgrade => (true, false)
  | versionUpgrade, versionSame => (true, true)
  | versionUpgrade, versionDowngrade => (true, true)
  | versionUpgrade, versionUnknown => (true, true)
  | versionSame, versionUpgrade => if nodeProgressing then (true, false) else (true, true)
  | versionSame, versionSame => (true, true)
  | versionSame, versionDowngrade => (true, true)
  | versionSame, versionUnknown => (true, true)
  | versionDowngrade, versionUpgrade => (true, true)
  | versionDowngrade, versionSame => if masterProgressing then (false, true) else (true, true)
  | versionDowngrade, versionDowngrade => (false, true)
  | versionDowngrade, versionUnknown => (true, true)
  | versionUnknown, _ => (true, true)
  end.

(** The base condition of the progress evaluator, as the spec words it
    (section 4.5). *)
Definition baseCondition (ds : appsv1.DaemonSet) : Prop :=
  let status := appsv1.Status ds in
  appsv1.UpdatedNumberScheduled status < appsv1.DesiredNumberScheduled status
  ∨ appsv1.NumberUnavailable status > 0
  ∨ appsv1.NumberAvailable status = 0
  ∨ appsv1.Generation ds > appsv1.ObservedGeneration status.

(** The counts of a tier snapshot are numbers of nodes: non-negative
    32-bit integers. *)
Definition count_range (z : Z) : Prop := 0 ≤ z < 2 ^ 31.

(** ** Worked data *)

(** Values for the constants of package [names], for the examples. *)
Definition example_names : Names :=
  {| RolloutHungAnnotation := "networkoperator.openshift.io/rollout-hung";
     NetworkIPFamilyModeAnnotation := "networkoperator.openshift.io/ip-family-mode";
     OVNRaftClusterInitiator := "networkoperator.openshift.io/ovn-cluster-initiator";
     IPFamilySingleStack := "single-stack";
     IPFamilyDualStack := "dual-stack";
     APPLIED_NAMESPACE := "openshift-network-operator" |}.

(** A daemonset of [name] at [version], marked with IP family [mode], with
    [updated] of [desired] pods updated and all of them available. *)
Definition example_ds (name version mode : string) (hung : bool) (desired updated : Z)
    : appsv1.DaemonSet :=
  {| appsv1.Namespace := "openshift-ovn-kubernetes";
     appsv1.Name := name;
     appsv1.Annotations :=
       Some (<[ "release.openshift.io/version" := version ]>
             (<[ "networkoperator.openshift.io/ip-family-mode" := mode ]>
              (if hung then {[ "networkoperator.openshift.io/rollout-hung" := "" ]} else ∅)));
     appsv1.Generation := 1;
     appsv1.Status :=
       {| appsv1.DesiredNumberScheduled := desired;
          appsv1.UpdatedNumberScheduled := updated;
          appsv1.NumberUnavailable := 0;
          appsv1.NumberAvailable := desired;
          appsv1.ObservedGeneration := 1 |} |}.

Definition example_node (ip : string) (name : string) : corev1.Node :=
  {| corev1.Name := name;
     corev1.Addresses :=
       [ {| corev1.Type_ := "Hostname"; corev1.Address := name |};
         {| corev1.Type_ := "InternalIP"; corev1.Address := ip |} ] |}.

Definition example_ovn_config (gateway : option operv1.GatewayConfig)
    : operv1.OVNKubernetesConfig :=
  {| operv1.MTU := Some 1400; operv1.GenevePort := Some 6081;
     operv1.HybridOverlay := None; operv1.IPsecConfig := None;
     operv1.PolicyAudit :=
       Some {| operv1.RateLimit := Some 20; operv1.MaxFileSize := Some 50;
               operv1.Destination := "null"; operv1.SyslogFacility := "local0" |};
     operv1.Gateway := gateway |}.

Definition example_spec (gateway : option operv1.GatewayConfig) : operv1.NetworkSpec :=
  {| operv1.ClusterNetwork := [ {| operv1.CIDR := "10.128.0.0/14"; operv1.HostPrefix := 23 |} ];
     operv1.ServiceNetwork := [ "172.30.0.0/16" ];
     operv1.OVNKubernetes := Some (example_ovn_config gateway);
     operv1.Migration := None;
     operv1.DeployKubeProxy := None;
     operv1.ExportFlows := None |}.

Definition example_conf (initiator : option string) (gateway : option operv1.GatewayConfig)
    : operv1.Network :=
  {| operv1.Annotations :=
       match initiator with
       | Some i => Some {[ "networkoperator.openshift.io/ovn-cluster-initiator" := i ]}
       | None => None
       end;
     operv1.Spec := example_spec gateway |}.

(** A cluster of three masters, listed at once, with no daemonset yet. *)
Definition example_client : KubeClient :=
  {| getClusterConfig := Found (Some {[ "install-config" := "controlPlane: {replicas: 3}" ]});
     getGatewayModeConfig := NotFound "not found";
     getDpuModeConfig := NotFound "not found";
     getFlowsConfig := NotFound "not found";
     listMasterNodes := λ _,
       inr [ example_node "10.0.0.3" "master-2"; example_node "10.0.0.1" "master-0";
             example_node "10.0.0.2" "master-1" ];
     getMasterDaemonSet := NotFound "not found";
     getNodeDaemonSet := NotFound "not found";
     getPrePullerDaemonSet := NotFound "not found" |}.

(** A cluster whose masters never show up: the listing stays empty. *)
Definition example_client_no_masters : KubeClient :=
  {| getClusterConfig := Found (Some {[ "install-config" := "controlPlane: {replicas: 3}" ]});
     getGatewayModeConfig := NotFound "not found";
     getDpuModeConfig := NotFound "not found";
     getFlowsConfig := NotFound "not found";
     listMasterNodes := λ _, inr [];
     getMasterDaemonSet := NotFound "not found";
     getNodeDaemonSet := NotFound "not found";
     getPrePullerDaemonSet := NotFound "not found" |}.

Definition example_yaml (s : string) : string + string := inr "3".

Definition example_infra (external : bool) (c : KubeClient)
    : string + bootstrap.InfraBootstrapResult :=
  inr {| bootstrap.PlatformType := "AWS"; bootstrap.ExternalControlPlane := external |}.

Definition example_duration (s : string) : string + Z := inl "time: invalid duration".

Definition example_state (timeout : Z) (c : operv1.Network) : BootState :=
  {| OVN_MASTER_DISCOVERY_TIMEOUT := timeout; conf := c |}.

Definition example_bootstrapResult (external : bool) (ips : list string)
    (node master prepuller : option appsv1.DaemonSet) : bootstrap.BootstrapResult :=
  {| bootstrap.Infra :=
       {| bootstrap.PlatformType := "AWS"; bootstrap.ExternalControlPlane := external |};
     bootstrap.OVN :=
       {| bootstrap.MasterIPs := ips;
          bootstrap.ClusterInitiator := default "" (head ips);
          bootstrap.ExistingMasterDaemonset := master;
          bootstrap.ExistingNodeDaemonset := node;
          bootstrap.OVNKubernetesConfig := {| bootstrap.NodeMode := "full" |};
          bootstrap.PrePullerDaemonset := prepuller;
          bootstrap.Flows := None |} |}.

Definition example_getenv (k : string) : string :=
  if bool_decide (k = "RELEASE_VERSION") then "4.11.0" else "".

Definition example_render (dir path : string) (data : gmap string dataValue)
    : string + list uns.Unstructured :=
  inr [ {| uns.APIVersion := "apps/v1"; uns.Kind := "DaemonSet";
           uns.Namespace := "openshift-ovn-kubernetes"; uns.Name := "ovnkube-master";
           uns.Annotations := None; uns.Template := uns.TemplateAnnotations None;
           uns.Content := "master" |};
        {| uns.APIVersion := "apps/v1"; uns.Kind := "DaemonSet";
           uns.Namespace := "openshift-ovn-kubernetes"; uns.Name := "ovnkube-node";
           uns.Annotations := None; uns.Template := uns.TemplateAnnotations None;
           uns.Content := "node" |};
        {| uns.APIVersion := "apps/v1"; uns.Kind := "DaemonSet";
           uns.Namespace := "openshift-ovn-kubernetes";
           uns.Name := "ovnkube-upgrades-prepuller";
           uns.Annotations := None; uns.Template := uns.TemplateAnnotations None;
           uns.Content := "prepuller" |} ].

(** ** Predicates of the statements *)

(** A configuration with its gateway configuration forgotten. *)
Definition without_gateway (spec : operv1.NetworkSpec) : operv1.NetworkSpec :=
  match operv1.OVNKubernetes spec with
  | None => spec
  | Some oc =>
      set_OVNKubernetes
        {| operv1.MTU := operv1.MTU oc;
           operv1.GenevePort := operv1.GenevePort oc;
           operv1.HybridOverlay := operv1.HybridOverlay oc;
           operv1.IPsecConfig := operv1.IPsecConfig oc;
           operv1.PolicyAudit := operv1.PolicyAudit oc;
           operv1.Gateway := None |}
        spec
  end.

(** The gateway configuration of a configuration object, if any. *)
Definition gateway_of (c : operv1.Network) : option operv1.GatewayConfig :=
  match operv1.OVNKubernetes (operv1.Spec c) with
  | Some oc => operv1.Gateway oc
  | None => None
  end.

(** The daemonset a retrieval yields. *)
Definition retrieved (r : getResult appsv1.DaemonSet) : option appsv1.DaemonSet :=
  match r with
  | Found ds => Some ds
  | _ => None
  end.

(** Code that never indexes out of range. *)
Definition in_range {St A} (m : M St A) : Prop :=
  ∀ s, (m s).1 ≠ Panic IndexOutOfRange.


(** The gateway configuration that bootstrap writes, as the
    [gateway-mode-config] map gives it: routed via the host exactly when the
    map is found and its mode is the local one, shared in every other
    case. *)
Definition gatewayFromMap (kubeClient : KubeClient) : operv1.GatewayConfig :=
  {| operv1.RoutingViaHost :=
       match getGatewayModeConfig kubeClient with
       | Found cm => bool_decide (index cm "mode" = OVN_LOCAL_GW_MODE)
       | _ => false
       end |}.

(** The current member list of a bootstrap started in a store: the sorted
    addresses of the masters that its discovery finds, none when the
    bootstrap cannot come to have them. *)
Definition currentMembers (yamlUnmarshalReplicas : string → string + string)
    (kubeClient : KubeClient) (s : BootState) : option (list string) :=
  match getClusterConfig kubeClient with
  | Found clusterConfig =>
      match yamlUnmarshalReplicas (index clusterConfig "install-config") with
      | inr replicas =>
          match discoverMasters kubeClient (Atoi replicas).1 s with
          | (Ok items, _) =>
              match masterIPs items with
              | inr ips => Some (sort_Strings ips)
              | inl _ => None
              end
          | _ => None
          end
      | inl _ => None
      end
  | _ => None
  end.

(** ** The reconciliation pass *)

(** Modelled from the spec: the reconciliation pass, whose code, the caller
    of [bootstrapOVN] and [renderOVNKubernetes], is not part of this file
    (section 2: bootstrap produces the snapshot, which the decisions and
    the rendering consume; section 7: an error of bootstrap aborts the
    pass).  The rendering works on the specification of the configuration
    object that bootstrap was given. *)
Definition reconciliationPass `{Names}
    (yamlUnmarshalReplicas : string → string + string)
    (BootstrapInfra : KubeClient → string + bootstrap.InfraBootstrapResult)
    (ParseDuration : string → string + Z)
    (compareVersions : string → string → versionChange) (Getenv : string → string)
    (RenderDir RenderTemplate :
       string → string → gmap string dataValue → string + list uns.Unstructured)
    (pluginCNIConfDir : operv1.NetworkSpec → string) (CNIBinDir : string)
    (fillKubeProxyDefaults : operv1.NetworkSpec → operv1.NetworkSpec)
    (kubeClient : KubeClient) (manifestDir : string)
    : M BootState (list uns.Unstructured) := λ s,
  match bootstrapOVN yamlUnmarshalReplicas BootstrapInfra ParseDuration kubeClient s with
  | (Ok bootstrapResult, s1) =>
      let '(r, spec) :=
        renderOVNKubernetes compareVersions Getenv RenderDir RenderTemplate pluginCNIConfDir
          CNIBinDir fillKubeProxyDefaults bootstrapResult manifestDir
          (operv1.Spec (conf s1)) in
      (r, set_conf {| operv1.Annotations := operv1.Annotations (conf s1);
                      operv1.Spec := spec |} s1)
  | (Err e, s1) => (Err e, s1)
  | (Panic p, s1) => (Panic p, s1)
  end.

(** The daemonsets that [setOVNDaemonsetAnnotation] annotates. *)
Definition ovnDaemonset (obj : uns.Unstructured) : bool :=
  bool_decide (uns.APIVersion obj = "apps/v1")
  && bool_decide (uns.Kind obj = "DaemonSet")
  && (bool_decide (uns.Name obj = "ovnkube-master")
      || bool_decide (uns.Name obj = "ovnkube-node")).

(** The value of an annotation, none on a nil map. *)
Definition annotation (anno : StringMap) (key : string) : option string :=
  match anno with
  | Some m => m !! key
  | None => None
  end.

(** The value of an annotation of the pod template, none when the template
    cannot be reached. *)
Definition templateAnnotation (obj : uns.Unstructured) (key : string) : option string :=
  match uns.Template obj with
  | uns.TemplateAnnotations a => annotation a key
  | uns.TemplateBlocked _ => None
  end.

(** An object with other annotations. *)
Definition withAnnotations (anno : StringMap) (obj : uns.Unstructured) : uns.Unstructured :=
  {| uns.APIVersion := uns.APIVersion obj; uns.Kind := uns.Kind obj;
     uns.Namespace := uns.Namespace obj; uns.Name := uns.Name obj;
     uns.Annotations := anno;
     uns.Template := uns.Template obj;
     uns.Content := uns.Content obj |}.

(** Code that does not panic, from any store. *)
Definition never_panics {St A} (m : M St A) : Prop :=
  ∀ (s : St) (p : panic), (m s).1 ≠ Panic p.

(** Code that leaves the store as it is. *)
Definition keeps_store {St A} (m : M St A) : Prop :=
  ∀ s : St, (m s).2 = s.

(** The pointers of an MTU migration that the rendering follows are set. *)
Definition migrationComplete (conf : operv1.NetworkSpec) : Prop :=
  match operv1.Migration conf with
  | Some (operv1.Build_NetworkMigration (Some m)) =>
      match operv1.Network_ m with
      | Some net => is_Some (operv1.From net) ∧ is_Some (operv1.To net)
      | None => False
      end
  | _ => True
  end.

(** What the rendering follows of its inputs without a check: the
    OVN-Kubernetes configuration and its policy audit configuration, the
    values of an MTU migration and the first master address. *)
Definition renderReady (conf : operv1.NetworkSpec)
    (bootstrapResult : bootstrap.BootstrapResult) : Prop :=
  (∃ c, operv1.OVNKubernetes conf = Some c ∧ is_Some (operv1.PolicyAudit c))
  ∧ migrationComplete conf
  ∧ bootstrap.MasterIPs (bootstrap.OVN bootstrapResult) ≠ [].

(** The configuration after the rendering has applied the MTU of a
    migration, if there is one. *)
Definition appliedMTU (conf : operv1.NetworkSpec) : operv1.NetworkSpec :=
  match operv1.OVNKubernetes conf, operv1.Migration conf with
  | Some c, Some (operv1.Build_NetworkMigration (Some m)) =>
      match operv1.Network_ m with
      | Some net =>
          match operv1.From net, operv1.To net with
          | Some _, Some to => set_OVNKubernetes (set_MTU (Some to) c) conf
          | _, _ => conf
          end
      | None => conf
      end
  | _, _ => conf
  end.

(** * Properties *)

(** ** Binary64: the tolerated lag in integer arithmetic *)

Lemma digits2_pos_bounds (p : positive) :
  2 ^ (Z.pos (digits2_pos p) - 1) ≤ Z.pos p < 2 ^ Z.pos (digits2_pos p).
Proof.
  induction p as [p IH|p IH|]; simpl digits2_pos.
  - rewrite Pos2Z.inj_succ. change (Z.pos p~1) with (2 * Z.pos p + 1).
    replace (Z.succ (Z.pos (digits2_pos p)) - 1) with (Z.succ (Z.pos (digits2_pos p) - 1)) by lia.
    rewrite !Z.pow_succ_r by lia. lia.
  - rewrite Pos2Z.inj_succ. change (Z.pos p~0) with (2 * Z.pos p).
    replace (Z.succ (Z.pos (digits2_pos p)) - 1) with (Z.succ (Z.pos (digits2_pos p) - 1)) by lia.
    rewrite !Z.pow_succ_r by lia. lia.
  - simpl. lia.
Qed.

Lemma Zdigits2_unique (z n : Z) :
  0 < z → 2 ^ (n - 1) ≤ z < 2 ^ n → Zdigits2 z = n.
Proof.
  intros Hz [Hlo Hhi]. destruct z as [|p|p]; try lia. simpl.
  pose proof (digits2_pos_bounds p) as [Hl Hh].
  set (D := Z.pos (digits2_pos p)) in *.
  assert (0 < n).
  { destruct (Z.lt_trichotomy n 0) as [Hn|[Hn|Hn]]; try lia.
    - rewrite Z.pow_neg_r in Hhi by lia. lia.
    - subst n. simpl in Hhi. lia. }
  assert (D - 1 < n).
  { apply (Z.pow_lt_mono_r_iff 2); lia. }
  assert (n - 1 < D).
  { apply (Z.pow_lt_mono_r_iff 2); lia. }
  lia.
Qed.

Lemma iter_pos_nat {A} (f : A → A) (p : positive) (x : A) :
  SpecFloat.iter_pos f p x = Nat.iter (Pos.to_nat p) f x.
Proof.
  revert x. induction p as [p IH|p IH|]; intros x; cbn [SpecFloat.iter_pos].
  - rewrite !IH, Pos2Nat.inj_xI, Nat.iter_succ_r.
    replace (2 * Pos.to_nat p)%nat with (Pos.to_nat p + Pos.to_nat p)%nat by lia.
    by rewrite Nat.iter_add.
  - rewrite !IH, Pos2Nat.inj_xO.
    replace (2 * Pos.to_nat p)%nat with (Pos.to_nat p + Pos.to_nat p)%nat by lia.
    by rewrite Nat.iter_add.
  - done.
Qed.

Lemma shr_1_m (mrs : shr_record) :
  0 ≤ shr_m mrs → shr_m (shr_1 mrs) = shr_m mrs / 2.
Proof.
  destruct mrs as [m r s]; simpl. intros Hm.
  rewrite <- Z.div2_div.
  destruct m as [|[p|p|]|]; try done; lia.
Qed.

Lemma shr_iter_m (k : nat) (mrs : shr_record) :
  0 ≤ shr_m mrs → shr_m (Nat.iter k shr_1 mrs) = shr_m mrs / 2 ^ Z.of_nat k.
Proof.
  intros Hm. induction k as [|k IH].
  - simpl. by rewrite Z.div_1_r.
  - rewrite Nat2Z.inj_succ, Z.pow_succ_r by lia. simpl.
    rewrite shr_1_m; rewrite IH.
    + rewrite Z.mul_comm, Z.div_div; lia.
    + apply Z.div_pos; lia.
Qed.

Lemma shr_pos (mrs : shr_record) (e k : Z) :
  0 < k → shr mrs e k = (Nat.iter (Z.to_nat k) shr_1 mrs, e + k).
Proof.
  intros Hk. destruct k as [|p|p]; try lia. simpl.
  by rewrite iter_pos_nat.
Qed.

Lemma round_nearest_even_bounds (mrs : shr_record) :
  shr_m mrs ≤ round_nearest_even (shr_m mrs) (loc_of_shr_record mrs) ≤ shr_m mrs + 1.
Proof.
  destruct mrs as [m [] []]; simpl; try lia.
  destruct (Z.even m); lia.
Qed.

(** Rounding a wide positive mantissa to binary64: the result is finite and its
    mantissa is the truncated quotient or its successor, possibly renormalised. *)
Lemma binary_round_aux_wide (mx : positive) (ex : Z) :
  let k := Z.pos (digits2_pos mx) - 53 in
  0 < k → -1074 ≤ ex + k → ex + k + 1 ≤ 971 →
  ∃ (m : positive) (e m2 : Z),
    binary_round_aux 53 1024 false (Z.pos mx) ex loc_Exact = S754_finite false m e ∧
    Z.pos mx / 2 ^ k ≤ m2 ≤ Z.pos mx / 2 ^ k + 1 ∧
    ((e = ex + k ∧ Z.pos m = m2) ∨ (e = ex + k + 1 ∧ 2 * Z.pos m = m2)).
Proof.
  intros k Hk Hlo Hhi.
  pose proof (digits2_pos_bounds mx) as [Hdl Hdh].
  unfold binary_round_aux, shr_fexp.
  change (Zdigits2 (Z.pos mx)) with (Z.pos (digits2_pos mx)).
  replace (fexp 53 1024 (Z.pos (digits2_pos mx) + ex) - ex) with k
    by (unfold fexp, emin; lia).
  rewrite shr_pos by done.
  set (mrs := Nat.iter (Z.to_nat k) shr_1 (shr_record_of_loc (Z.pos mx) loc_Exact)).
  assert (Hm1 : shr_m mrs = Z.pos mx / 2 ^ k).
  { unfold mrs. rewrite shr_iter_m by (simpl; lia). simpl. by rewrite Z2Nat.id by lia. }
  pose proof (round_nearest_even_bounds mrs) as Hr.
  set (m2 := round_nearest_even (shr_m mrs) (loc_of_shr_record mrs)) in *.
  rewrite Hm1 in Hr.
  assert (Hq : 2 ^ 52 ≤ Z.pos mx / 2 ^ k < 2 ^ 53).
  { assert (Hp : 0 < 2 ^ k) by (apply Z.pow_pos_nonneg; lia).
    replace (Z.pos (digits2_pos mx)) with (k + 53) in Hdh by lia.
    replace (Z.pos (digits2_pos mx) - 1) with (k + 52) in Hdl by lia.
    rewrite Z.pow_add_r in Hdl, Hdh by lia.
    split.
    - apply Z.div_le_lower_bound; lia.
    - apply Z.div_lt_upper_bound; lia. }
  destruct (Z.eq_dec m2 (2 ^ 53)) as [Heq|Hne].
  - rewrite Heq.
    replace (fexp 53 1024 (Zdigits2 (2 ^ 53) + (ex + k)) - (ex + k)) with 1
      by (change (Zdigits2 (2 ^ 53)) with 54; unfold fexp, emin; lia).
    simpl shr. cbn [shr_m].
    assert (Hle : (ex + k + 1 <=? 1024 - 53) = true) by (apply Z.leb_le; lia).
    rewrite Hle.
    eexists _, _, m2. split; [done|]. split; [done|]. right. split; [done|]. by rewrite Heq.
  - assert (Hd : Zdigits2 m2 = 53) by (apply Zdigits2_unique; lia).
    rewrite Hd.
    replace (fexp 53 1024 (53 + (ex + k)) - (ex + k)) with 0
      by (unfold fexp, emin; lia).
    simpl shr. cbn [shr_m shr_record_of_loc].
    destruct m2 as [|p|p] eqn:Hm2; try lia.
    assert (Hle : (ex + k <=? 1024 - 53) = true) by (apply Z.leb_le; lia).
    rewrite Hle.
    eexists _, _, (Z.pos p). split; [done|]. split; [lia|]. left. done.
Qed.

Lemma binary_round_aux_exact (s : bool) (mx : positive) (ex : Z) :
  Z.pos (digits2_pos mx) = 53 → -1074 ≤ ex ≤ 971 →
  binary_round_aux 53 1024 s (Z.pos mx) ex loc_Exact = S754_finite s mx ex.
Proof.
  intros Hd He. unfold binary_round_aux, shr_fexp.
  change (Zdigits2 (Z.pos mx)) with (Z.pos (digits2_pos mx)). rewrite Hd.
  replace (fexp 53 1024 (53 + ex) - ex) with 0 by (unfold fexp, emin; lia).
  cbn [shr shr_record_of_loc shr_m loc_of_shr_record round_nearest_even].
  change (Zdigits2 (Z.pos mx)) with (Z.pos (digits2_pos mx)). rewrite Hd.
  replace (fexp 53 1024 (53 + ex) - ex) with 0 by (unfold fexp, emin; lia).
  cbn [shr shr_record_of_loc shr_m].
  assert (Hle : (ex <=? 1024 - 53) = true) by (apply Z.leb_le; lia).
  by rewrite Hle.
Qed.

Lemma iter_xO_shift (p d : positive) :
  Z.pos (Pos.iter xO p d) = Z.pos p * 2 ^ Z.pos d.
Proof.
  change (Pos.iter xO p d) with (shift_pos d p).
  rewrite shift_pos_correct. change (Z.pow_pos 2 d) with (2 ^ Z.pos d). lia.
Qed.

(** An integer below 2^53 converts exactly, to a normalised mantissa. *)
Lemma float64_of_Z_pos (z : Z) :
  0 < z < 2 ^ 53 →
  ∃ (m : positive) (e : Z),
    float64_of_Z z = S754_finite false m e ∧
    -52 ≤ e ≤ 0 ∧ Z.pos m = z * 2 ^ (- e) ∧ Z.pos (digits2_pos m) = 53.
Proof.
  intros [Hz0 Hz53]. destruct z as [|p|p]; try lia.
  pose proof (digits2_pos_bounds p) as [Hl Hh].
  unfold float64_of_Z, binary_normalize, binary_round, shl_align.
  set (D := Z.pos (digits2_pos p)) in *.
  assert (HD : 1 ≤ D ≤ 53).
  { split; [lia|].
    assert (D - 1 < 53); [|lia]. apply (Z.pow_lt_mono_r_iff 2); lia. }
  replace (fexp 53 1024 (D + 0) - 0) with (D - 53) by (unfold fexp, emin; lia).
  replace (fexp 53 1024 (D + 0)) with (D - 53) by (unfold fexp, emin; lia).
  destruct (D - 53) as [|k|k] eqn:Hk; try lia.
  - rewrite binary_round_aux_exact by lia.
    exists p, 0. repeat split; lia.
  - assert (Hm : Z.pos (Pos.iter xO p k) = Z.pos p * 2 ^ Z.pos k) by apply iter_xO_shift.
    assert (Hdig : Z.pos (digits2_pos (Pos.iter xO p k)) = 53).
    { apply (Zdigits2_unique (Z.pos (Pos.iter xO p k)) 53); [lia|].
      assert (E52 : 2 ^ 52 = 2 ^ (D - 1) * 2 ^ Z.pos k)
        by (rewrite <- Z.pow_add_r by lia; f_equal; lia).
      assert (E53 : 2 ^ 53 = 2 ^ D * 2 ^ Z.pos k)
        by (rewrite <- Z.pow_add_r by lia; f_equal; lia).
      assert (0 < 2 ^ Z.pos k) by (apply Z.pow_pos_nonneg; lia).
      rewrite Hm. change (53 - 1) with 52. rewrite E52, E53. nia. }
    rewrite binary_round_aux_exact by lia.
    eexists _, _. split; [done|]. repeat split; try lia.
    rewrite Hm. by replace (- Z.neg k) with (Z.pos k) by lia.
Qed.

Lemma div_between (x T q : Z) : q * T ≤ x < (q + 1) * T → x / T = q.
Proof.
  intros H. symmetry. apply (Z.div_unique x T q (x - q * T)); lia.
Qed.

(** The binary64 product [float64(d) * 0.1] has integer part [d / 10]. *)
Lemma SFmul_point_one (d : Z) :
  0 < d < 2 ^ 31 →
  ∃ (m : positive) (e : Z),
    SFmul 53 1024 (float64_of_Z d) point_one = S754_finite false m e ∧
    e < 0 ∧ Z.pos m / 2 ^ (- e) = d / 10.
Proof.
  intros Hd.
  destruct (float64_of_Z_pos d) as (a & e & Hf & He & Ha & Hdig); [lia|].
  rewrite Hf. unfold point_one. cbn [SFmul xorb].
  pose proof (digits2_pos_bounds a) as Hab. rewrite Hdig in Hab.
  change (53 - 1) with 52 in Hab.
  set (M := 7205759403792794) in *.
  set (P := Z.pos (a * 7205759403792794)).
  assert (HP : P = d * 2 ^ (- e) * M) by (unfold P; rewrite Pos2Z.inj_mul, Ha; done).
  set (s := - e) in *. set (S := 2 ^ s) in *.
  assert (HS : 2 ^ 22 ≤ S).
  { unfold S. apply Z.pow_le_mono_r; [lia|].
    assert (21 < s); [|lia]. apply (Z.pow_lt_mono_r_iff 2); [lia|lia|].
    fold S. nia. }
  pose proof (digits2_pos_bounds (a * 7205759403792794)) as HD. fold P in HD.
  set (D := Z.pos (digits2_pos (a * 7205759403792794))) in *.
  assert (HPlo : 2 ^ 104 < P) by (rewrite HP; unfold M; nia).
  assert (HPhi : P < 2 ^ 106) by (rewrite HP; unfold M; nia).
  assert (HDr : 105 ≤ D ≤ 106).
  { split.
    - assert (104 < D); [|lia]. apply (Z.pow_lt_mono_r_iff 2); lia.
    - assert (D - 1 < 106); [|lia]. apply (Z.pow_lt_mono_r_iff 2); lia. }
  destruct (binary_round_aux_wide (a * 7205759403792794) (e + -56))
    as (m & e' & m2 & Hr & Hm2 & Hcase); fold D; try lia.
  fold D P in Hm2.
  set (k := D - 53) in *.
  exists m, e'. split; [exact Hr|].
  set (t := 56 + s - k).
  assert (HK : 0 < 2 ^ k ≤ 2 ^ 53).
  { split; [apply Z.pow_pos_nonneg; lia|apply Z.pow_le_mono_r; lia]. }
  assert (HTK : 2 ^ t * 2 ^ k = 2 ^ 56 * S).
  { unfold S. rewrite <- !Z.pow_add_r by lia. f_equal. lia. }
  assert (HT : 0 < 2 ^ t) by (apply Z.pow_pos_nonneg; lia).
  set (q := d / 10).
  assert (Hq : 10 * q ≤ d ≤ 10 * q + 9).
  { pose proof (Z.div_mod d 10 ltac:(lia)). pose proof (Z.mod_pos_bound d 10 ltac:(lia)).
    fold q in H. lia. }
  assert (Hm1 : 2 ^ k * (P / 2 ^ k) ≤ P < 2 ^ k * (P / 2 ^ k + 1)).
  { pose proof (Z.div_mod P (2 ^ k) ltac:(lia)).
    pose proof (Z.mod_pos_bound P (2 ^ k) ltac:(lia)). lia. }
  set (m1 := P / 2 ^ k) in *. set (K := 2 ^ k) in *. set (T := 2 ^ t) in *.
  assert (Hbetween : q * T ≤ m2 < (q + 1) * T).
  { assert (H10M : 10 * M = 2 ^ 56 + 4) by done.
    assert (Hlow : q * T * K ≤ P).
    { replace (q * T * K) with (q * (T * K)) by lia. rewrite HTK, HP. fold S.
      assert (q * 2 ^ 56 ≤ d * M) by lia. nia. }
    assert (Hup : P + K < (q + 1) * T * K).
    { replace ((q + 1) * T * K) with ((q + 1) * (T * K)) by lia. rewrite HTK, HP. fold S.
      assert (10 * (d * M) ≤ (10 * q + 9) * (2 ^ 56 + 4)) by nia.
      assert (K ≤ 2 ^ 31 * S) by lia.
      assert (0 ≤ q ∧ 10 * q + 9 < 2 ^ 31 + 9) by lia.
      nia. }
    split.
    - assert (q * T < m1 + 1) by nia. lia.
    - assert (m1 + 1 < (q + 1) * T) by nia. lia. }
  split.
  - destruct Hcase as [[He' _]|[He' _]]; unfold k in He'; lia.
  - destruct Hcase as [[He' Hm]|[He' Hm]].
    + replace (- e') with t by (unfold t; lia). fold T. rewrite Hm.
      by apply div_between.
    + replace (- e') with (t - 1) by (unfold t; lia).
      assert (HT' : T = 2 * 2 ^ (t - 1)).
      { unfold T. replace t with (Z.succ (t - 1)) at 1 by lia.
        rewrite Z.pow_succ_r by (unfold t; lia). done. }
      apply div_between. lia.
Qed.


Lemma math_Max_one_of_Z (q : Z) :
  0 ≤ q < 2 ^ 53 →
  float64_to_int (math_Max (float64_of_Z 1) (float64_of_Z q)) = Z.max 1 q.
Proof.
  intros Hq. destruct (Z.eq_dec q 0) as [->|Hne]; [done|].
  destruct (float64_of_Z_pos q) as (m & e & Hf & He & Hm & Hdig); [lia|].
  rewrite Hf. change (float64_of_Z 1) with (S754_finite false 4503599627370496 (-52)).
  pose proof (digits2_pos_bounds m) as Hmb. rewrite Hdig in Hmb.
  change (53 - 1) with 52 in Hmb.
  assert (Hlt : SFltb (S754_finite false m e) (S754_finite false 4503599627370496 (-52)) = false).
  { unfold SFltb, SFcompare.
    destruct (Z.compare_spec e (-52)) as [Heq|Hlt|Hgt]; try done; [|lia].
    rewrite Pos.compare_cont_spec. unfold Pos.switch_Eq.
    destruct (Pos.compare_spec m 4503599627370496) as [?|Hc|?]; [done| |done].
    exfalso. apply Pos2Z.pos_lt_pos in Hc. lia. }
  cbn [math_Max]. rewrite Hlt. cbn [float64_to_int cond_Zopp].
  assert (Hv : (if 0 <=? e then Z.pos m * 2 ^ e else Z.pos m / 2 ^ (- e)) = q).
  { destruct (Z.leb_spec 0 e).
    - replace e with 0 in * by lia. simpl in Hm. lia.
    - rewrite Hm. apply Z.div_mul. apply Z.pow_nonzero; lia. }
  rewrite Hv.
  assert (Hr : (- 2 ^ 63 <=? q) && (q <? 2 ^ 63) = true).
  { apply andb_true_iff. split; [apply Z.leb_le|apply Z.ltb_lt]; lia. }
  rewrite Hr. lia.
Qed.

(** The float computation of the tolerated lag agrees with integer
    arithmetic on every non-negative int32 count. *)
Lemma maxBehind_int (d : Z) :
  0 ≤ d < 2 ^ 31 → maxBehind d = Z.max 1 (d / 10).
Proof.
  intros Hd. unfold maxBehind.
  destruct (Z.eq_dec d 0) as [->|Hne]; [done|].
  destruct (SFmul_point_one d) as (m & e & Hmul & He & Hfl); [lia|].
  rewrite Hmul.
  assert (Hfloor : math_Floor (S754_finite false m e) = float64_of_Z (d / 10)).
  { unfold math_Floor, SF_floorZ. cbn [cond_Zopp].
    destruct (Z.leb_spec 0 e); [lia|]. by rewrite Hfl. }
  rewrite Hfloor. apply math_Max_one_of_Z.
  split; [apply Z.div_pos; lia|].
  apply Z.div_lt_upper_bound; lia.
Qed.

(** ** The progress evaluator *)

Lemma wrap32_id (z : Z) : - 2 ^ 31 ≤ z < 2 ^ 31 → wrap32 z = z.
Proof.
  intros Hz. unfold wrap32. rewrite Z.mod_small; lia.
Qed.

Lemma progressing_base (ds : appsv1.DaemonSet) :
  progressing ds = true ↔ baseCondition ds.
Proof.
  unfold progressing, baseCondition. cbv zeta.
  rewrite !orb_true_iff, !Z.ltb_lt, Z.eqb_eq. lia.
Qed.

(** C2: the progress evaluator returns true exactly when the base condition
    holds and the hang escape does not apply; the escape needs [allowHung],
    a hang marker and a lag of at most max(1, floor(desired * 0.1)).  With 10
    desired, a hang marker and [allowHung], 9 updated is not progressing
    and 8 updated is. *)
Theorem daemonSetProgressing_spec `{Names} :
  (∀ (ds : appsv1.DaemonSet) (allowHung : bool),
     let status := appsv1.Status ds in
     let desired := appsv1.DesiredNumberScheduled status in
     let updated := appsv1.UpdatedNumberScheduled status in
     count_range desired → count_range updated →
     (daemonSetProgressing ds allowHung = true ↔
      baseCondition ds
      ∧ ¬ (allowHung = true
           ∧ is_Some (index_ok (appsv1.Annotations ds) RolloutHungAnnotation)
           ∧ desired - updated ≤ Z.max 1 (desired / 10))))
  ∧ (∀ ds : appsv1.DaemonSet,
       appsv1.DesiredNumberScheduled (appsv1.Status ds) = 10 →
       appsv1.UpdatedNumberScheduled (appsv1.Status ds) = 9 →
       is_Some (index_ok (appsv1.Annotations ds) RolloutHungAnnotation) →
       daemonSetProgressing ds true = false)
  ∧ (∀ ds : appsv1.DaemonSet,
       appsv1.DesiredNumberScheduled (appsv1.Status ds) = 10 →
       appsv1.UpdatedNumberScheduled (appsv1.Status ds) = 8 →
       is_Some (index_ok (appsv1.Annotations ds) RolloutHungAnnotation) →
       daemonSetProgressing ds true = true).
Proof.
  assert (Hgen : ∀ (ds : appsv1.DaemonSet) (allowHung : bool),
     count_range (appsv1.DesiredNumberScheduled (appsv1.Status ds)) →
     count_range (appsv1.UpdatedNumberScheduled (appsv1.Status ds)) →
     (daemonSetProgressing ds allowHung = true ↔
      baseCondition ds
      ∧ ¬ (allowHung = true
           ∧ is_Some (index_ok (appsv1.Annotations ds) RolloutHungAnnotation)
           ∧ appsv1.DesiredNumberScheduled (appsv1.Status ds)
             - appsv1.UpdatedNumberScheduled (appsv1.Status ds)
             ≤ Z.max 1 (appsv1.DesiredNumberScheduled (appsv1.Status ds) / 10)))).
  { intros ds allowHung Hd Hu. unfold count_range in *.
    unfold daemonSetProgressing. cbv zeta.
    rewrite maxBehind_int by done. rewrite wrap32_id by lia.
    rewrite <- progressing_base.
    destruct (progressing ds); simpl; [|intuition congruence].
    destruct allowHung; simpl; [|intuition congruence].
    case_bool_decide as Hh; simpl; [|intuition congruence].
    destruct (Z.leb_spec
                (appsv1.DesiredNumberScheduled (appsv1.Status ds)
                 - appsv1.UpdatedNumberScheduled (appsv1.Status ds))
                (Z.max 1 (appsv1.DesiredNumberScheduled (appsv1.Status ds) / 10)));
      intuition (congruence || lia). }
  split; [exact Hgen|].
  split; intros ds Hd Hu Hh.
  - destruct (daemonSetProgressing ds true) eqn:E; [|done].
    apply Hgen in E; unfold count_range; rewrite ?Hd, ?Hu; try lia.
    destruct E as [_ E]. exfalso. apply E. rewrite Hd, Hu. split_and!; done.
  - apply Hgen; unfold count_range; rewrite ?Hd, ?Hu; try lia.
    split.
    + unfold baseCondition. cbv zeta. rewrite Hd, Hu. lia.
    + intros (_ & _ & Hle). change (10 / 10) with 1 in Hle. lia.
Qed.

Lemma daemonSetProgressing_spec_witness :
  let ds := example_ds "ovnkube-node" "4.11.0" "single-stack" true 10 9 in
  count_range 10 ∧ count_range 9
  ∧ (daemonSetProgressing (H := example_names) ds true = true ↔
     baseCondition ds
     ∧ ¬ (true = true
          ∧ is_Some (index_ok (appsv1.Annotations ds)
                       (RolloutHungAnnotation (Names := example_names)))
          ∧ 10 - 9 ≤ Z.max 1 (10 / 10))).
Proof.
  split; [unfold count_range; lia|].
  split; [unfold count_range; lia|].
  apply (proj1 (daemonSetProgressing_spec (H := example_names))
           (example_ds "ovnkube-node" "4.11.0" "single-stack" true 10 9) true);
    unfold count_range; simpl; lia.
Defined.

(** ** The rollout sequencer *)

(** C1: on existing tiers that are not both at the release version, the
    sequencer returns the cell of the ordering table for the two deltas,
    for each of the 16 pairs of deltas: an Unknown delta and the illegal
    cells permit both tiers. *)
Theorem shouldUpdateOVNKonUpgrade_table `{Names}
    (compareVersions : string → string → versionChange)
    (node master : appsv1.DaemonSet) (releaseVersion : string) :
  let nodeVersion := index (appsv1.Annotations node) "release.openshift.io/version" in
  let masterVersion := index (appsv1.Annotations master) "release.openshift.io/version" in
  ¬ (nodeVersion = releaseVersion ∧ masterVersion = releaseVersion) →
  shouldUpdateOVNKonUpgrade compareVersions (Some node) (Some master) releaseVersion
  = orderingTable (compareVersions nodeVersion releaseVersion)
      (compareVersions masterVersion releaseVersion)
      (daemonSetProgressing node true) (daemonSetProgressing master false).
Proof.
  intros nodeVersion masterVersion Hne.
  unfold shouldUpdateOVNKonUpgrade. fold nodeVersion masterVersion.
  assert (Hb : bool_decide (nodeVersion = releaseVersion)
               && bool_decide (masterVersion = releaseVersion) = false).
  { repeat case_bool_decide; simpl; try done. tauto. }
  rewrite Hb. cbv zeta.
  destruct (compareVersions nodeVersion releaseVersion),
    (compareVersions masterVersion releaseVersion); reflexivity.
Qed.

Lemma shouldUpdateOVNKonUpgrade_table_witness :
  let node := example_ds "ovnkube-node" "4.10.0" "single-stack" false 3 3 in
  let master := example_ds "ovnkube-master" "4.10.0" "single-stack" false 3 3 in
  shouldUpdateOVNKonUpgrade (H := example_names) compareVersions_spec
    (Some node) (Some master) "4.11.0" = (true, false).
Proof.
  intros node master.
  rewrite (shouldUpdateOVNKonUpgrade_table (H := example_names) compareVersions_spec
             node master "4.11.0").
  - reflexivity.
  - vm_compute. intros [E _]. discriminate E.
Defined.

(** ** The gate on the IP family *)

(** C3: the gate permits both tiers when a tier is absent or unmarked, or
    when both are marked with the desired mode; it permits the master alone
    when the master's mark differs from the desired mode, or when the
    master is converted but still progressing; it permits both when the
    master is converted and settled.  Whenever the gate withholds a tier,
    its answer is the decision of the pass, whatever the version classifier,
    the release version and the prepull daemonset are. *)
Theorem shouldUpdateOVNKonIPFamilyChange_spec `{Names} :
  (∀ (existingNode existingMaster : option appsv1.DaemonSet) (ipFamilyMode : string),
     existingNode = None ∨ existingMaster = None →
     shouldUpdateOVNKonIPFamilyChange existingNode existingMaster ipFamilyMode = (true, true))
  ∧ (∀ (node master : appsv1.DaemonSet) (ipFamilyMode : string),
       let nodeMode := index (appsv1.Annotations node) NetworkIPFamilyModeAnnotation in
       let masterMode := index (appsv1.Annotations master) NetworkIPFamilyModeAnnotation in
       let gate := shouldUpdateOVNKonIPFamilyChange (Some node) (Some master) ipFamilyMode in
       (nodeMode = "" ∨ masterMode = "" → gate = (true, true))
       ∧ (nodeMode = ipFamilyMode → masterMode = ipFamilyMode → gate = (true, true))
       ∧ (nodeMode ≠ "" → masterMode ≠ "" → masterMode ≠ ipFamilyMode →
          gate = (false, true))
       ∧ (nodeMode ≠ "" → masterMode = ipFamilyMode → nodeMode ≠ ipFamilyMode →
          masterMode ≠ "" →
          gate = if daemonSetProgressing master false then (false, true) else (true, true)))
  ∧ (∀ (compareVersions compareVersions' : string → string → versionChange)
       (existingNode existingMaster prePuller prePuller' : option appsv1.DaemonSet)
       (serviceNetwork : list string) (releaseVersion releaseVersion' : string),
       let gate :=
         shouldUpdateOVNKonIPFamilyChange existingNode existingMaster
           (ipFamilyModeOf serviceNetwork) in
       gate ≠ (true, true) →
       rolloutDecision compareVersions existingNode existingMaster prePuller
         serviceNetwork releaseVersion
       = {| updateNode := gate.1; updateMaster := gate.2; renderPrePull := false |}
       ∧ rolloutDecision compareVersions' existingNode existingMaster prePuller'
           serviceNetwork releaseVersion'
         = rolloutDecision compareVersions existingNode existingMaster prePuller
             serviceNetwork releaseVersion).
Proof.
  split; [|split].
  - intros existingNode existingMaster ipFamilyMode [-> | ->]; [done|].
    by destruct existingNode.
  - intros node master ipFamilyMode nodeMode masterMode gate.
    unfold gate, shouldUpdateOVNKonIPFamilyChange. fold nodeMode masterMode.
    split_and!.
    + intros [E|E]; rewrite E; simpl; [done|].
      by rewrite orb_true_r.
    + intros E1 E2. repeat case_bool_decide; simpl; try done; congruence.
    + intros N1 N2 N3. repeat case_bool_decide; simpl; try done; congruence.
    + intros N1 E N2 N3. repeat case_bool_decide; simpl; try done; congruence.
  - intros compareVersions compareVersions' existingNode existingMaster prePuller prePuller'
      serviceNetwork releaseVersion releaseVersion' gate Hg.
    assert (Hshape : gate = (false, true)).
    { revert Hg. unfold gate, shouldUpdateOVNKonIPFamilyChange.
      destruct existingNode, existingMaster; try done.
      repeat case_bool_decide; simpl; try done.
      by destruct (daemonSetProgressing _ false). }
    unfold rolloutDecision. fold gate. rewrite Hshape. simpl. done.
Qed.

Lemma shouldUpdateOVNKonIPFamilyChange_spec_witness :
  let node := example_ds "ovnkube-node" "4.10.0" "single-stack" false 3 3 in
  let master := example_ds "ovnkube-master" "4.10.0" "single-stack" false 3 3 in
  rolloutDecision (H := example_names) compareVersions_spec (Some node) (Some master) None
    [ "172.30.0.0/16"; "fd02::/112" ] "4.11.0"
  = {| updateNode := false; updateMaster := true; renderPrePull := false |}.
Proof.
  intros node master.
  apply (proj1 (proj2 (proj2 (shouldUpdateOVNKonIPFamilyChange_spec (H := example_names)))
                 compareVersions_spec compareVersions_spec (Some node) (Some master)
                 None None [ "172.30.0.0/16"; "fd02::/112" ] "4.11.0" "4.11.0"
                 ltac:(vm_compute; discriminate))).
Defined.

(** ** The prepull stage *)

(** C4: the stage returns (true, false) when there is no node daemonset or
    it is at the release version; (false, true) when the node needs an
    update and there is no prepull daemonset, or its version is not the
    release version, or it is at the release version and still progressing
    with the hang tolerance; (true, false) otherwise. *)
Theorem shouldUpdateOVNKonPrepull_spec `{Names} :
  (∀ (prePuller : option appsv1.DaemonSet) (releaseVersion : string),
     shouldUpdateOVNKonPrepull None prePuller releaseVersion = (true, false))
  ∧ (∀ (node : appsv1.DaemonSet) (prePuller : option appsv1.DaemonSet)
       (releaseVersion : string),
       index (appsv1.Annotations node) "release.openshift.io/version" = releaseVersion →
       shouldUpdateOVNKonPrepull (Some node) prePuller releaseVersion = (true, false))
  ∧ (∀ (node : appsv1.DaemonSet) (releaseVersion : string),
       index (appsv1.Annotations node) "release.openshift.io/version" ≠ releaseVersion →
       shouldUpdateOVNKonPrepull (Some node) None releaseVersion = (false, true))
  ∧ (∀ (node pp : appsv1.DaemonSet) (releaseVersion : string),
       index (appsv1.Annotations node) "release.openshift.io/version" ≠ releaseVersion →
       index (appsv1.Annotations pp) "release.openshift.io/version" ≠ releaseVersion →
       shouldUpdateOVNKonPrepull (Some node) (Some pp) releaseVersion = (false, true))
  ∧ (∀ (node pp : appsv1.DaemonSet) (releaseVersion : string),
       index (appsv1.Annotations node) "release.openshift.io/version" ≠ releaseVersion →
       index (appsv1.Annotations pp) "release.openshift.io/version" = releaseVersion →
       shouldUpdateOVNKonPrepull (Some node) (Some pp) releaseVersion
       = if daemonSetProgressing pp true then (false, true) else (true, false)).
Proof.
  split_and!.
  - done.
  - intros node prePuller releaseVersion E. unfold shouldUpdateOVNKonPrepull.
    by rewrite bool_decide_eq_true_2.
  - intros node releaseVersion N. unfold shouldUpdateOVNKonPrepull.
    by rewrite bool_decide_eq_false_2.
  - intros node pp releaseVersion N1 N2. unfold shouldUpdateOVNKonPrepull.
    rewrite bool_decide_eq_false_2 by done. by rewrite bool_decide_eq_true_2.
  - intros node pp releaseVersion N1 E. unfold shouldUpdateOVNKonPrepull.
    rewrite bool_decide_eq_false_2 by done.
    rewrite (bool_decide_eq_false_2 (_ ≠ _)) by (intros N; by apply N).
    done.
Qed.

Lemma shouldUpdateOVNKonPrepull_spec_witness :
  let node := example_ds "ovnkube-node" "4.10.0" "single-stack" false 3 3 in
  shouldUpdateOVNKonPrepull (H := example_names) (Some node) None "4.11.0" = (false, true).
Proof.
  intros node.
  apply (proj1 (proj2 (proj2 (shouldUpdateOVNKonPrepull_spec (H := example_names))))
           node "4.11.0").
  vm_compute. discriminate.
Defined.

(** ** The IP family mode *)

(** C10: the mode is dual-stack exactly when there are two service
    networks, and single-stack for every other number of them. *)
Theorem ipFamilyModeOf_spec `{Names} (serviceNetwork : list string) :
  IPFamilySingleStack ≠ IPFamilyDualStack →
  (ipFamilyModeOf serviceNetwork = IPFamilyDualStack ↔ length serviceNetwork = 2%nat)
  ∧ (length serviceNetwork ≠ 2%nat → ipFamilyModeOf serviceNetwork = IPFamilySingleStack).
Proof.
  intros Hne. unfold ipFamilyModeOf. case_bool_decide; split; done.
Qed.

Lemma ipFamilyModeOf_spec_witness :
  ipFamilyModeOf (H := example_names) [ "a"; "b"; "c" ] = "single-stack".
Proof.
  apply (proj2 (ipFamilyModeOf_spec (H := example_names) [ "a"; "b"; "c" ]
                  ltac:(vm_compute; discriminate))).
  simpl. lia.
Defined.

(** ** The order on strings and sorting *)

Lemma ascii_compare_N (a b : ascii) :
  Ascii.compare a b = (N_of_ascii a ?= N_of_ascii b)%N.
Proof. reflexivity. Qed.

Lemma string_compare_refl (s : string) : String.compare s s = Eq.
Proof.
  induction s as [|c s IH]; simpl; [done|].
  rewrite ascii_compare_N, N.compare_refl. exact IH.
Qed.

Lemma string_compare_not_Gt_trans (a b c : string) :
  String.compare a b ≠ Gt → String.compare b c ≠ Gt → String.compare a c ≠ Gt.
Proof.
  revert b c. induction a as [|x a IH]; intros [|y b] [|z c]; simpl; try done.
  rewrite !ascii_compare_N.
  destruct (N.compare_spec (N_of_ascii x) (N_of_ascii y)) as [Exy|Lxy|Gxy];
    destruct (N.compare_spec (N_of_ascii y) (N_of_ascii z)) as [Eyz|Lyz|Gyz];
    try done; intros H1 H2.
  - rewrite Exy, Eyz, N.compare_refl. by apply (IH b c).
  - rewrite Exy. by apply N.compare_lt_iff in Lyz as ->.
  - rewrite <- Eyz. by apply N.compare_lt_iff in Lxy as ->.
  - assert (Lxz : (N_of_ascii x < N_of_ascii z)%N) by lia.
    by apply N.compare_lt_iff in Lxz as ->.
Qed.

Lemma string_le_compare (a b : string) : string_le a b ↔ String.compare a b ≠ Gt.
Proof.
  unfold string_le, String.leb. destruct (String.compare a b); split; done.
Qed.

#[export] Instance string_le_refl : Reflexive string_le.
Proof. intros s. apply string_le_compare. by rewrite string_compare_refl. Qed.

#[export] Instance string_le_trans : Transitive string_le.
Proof.
  intros a b c. rewrite !string_le_compare. apply string_compare_not_Gt_trans.
Qed.

#[export] Instance string_le_total : Total string_le.
Proof. intros a b. apply String.leb_total. Qed.

#[export] Instance string_le_antisym : AntiSymm (=) string_le.
Proof. intros a b Hab Hba. apply String.leb_antisym; done. Qed.

Lemma sort_Strings_sorted (l : list string) : Sorted string_le (sort_Strings l).
Proof. apply (Sorted_merge_sort string_le). Qed.

Lemma sort_Strings_perm (l : list string) : sort_Strings l ≡ₚ l.
Proof. apply (merge_sort_Permutation string_le). Qed.

Lemma sort_Strings_nonempty (l : list string) : l ≠ [] → sort_Strings l ≠ [].
Proof.
  intros Hl E. apply Hl. apply Permutation_nil_r. rewrite <- E.
  symmetry. apply sort_Strings_perm.
Qed.

(** The first element of a sorted list is below every element. *)
Lemma sorted_head_least (x : string) (l : list string) :
  Sorted string_le (x :: l) → ∀ y, y ∈ x :: l → string_le x y.
Proof.
  intros Hs y Hy. apply Sorted_StronglySorted in Hs; [|apply _].
  apply StronglySorted_inv in Hs as [_ Hall].
  apply elem_of_cons in Hy as [->|Hy]; [done|].
  rewrite Forall_forall in Hall. by apply Hall.
Qed.

(** ** Running code in the store monad *)


Lemma bind_run {St A B} (m : M St A) (f : A → M St B) (s s1 : St) (a : A) :
  m s = (Ok a, s1) → (m ≫= f) s = f a s1.
Proof. unfold mbind, M_bind. by intros ->. Qed.

(** ** Election of the initiator *)

Lemma currentInitiatorExists_elem (l : list string) (c : string) :
  currentInitiatorExists l c = true ↔ c ∈ l.
Proof.
  induction l as [|x l IH]; simpl.
  - split; [done|]. by intros ?%elem_of_nil.
  - case_bool_decide as E.
    + subst. split; [|done]. intros _. apply list_elem_of_here.
    + rewrite IH, elem_of_cons. split; [by right|]. by intros [->|?].
Qed.

(** C5: on a sorted, non-empty list of members, the election keeps the
    annotated initiator when it is a member, and leaves the store as it is;
    otherwise it elects the least member and annotates it.  In both cases
    the initiator elected is annotated and a member, and a later pass over
    any member list that still has it elects it again and changes nothing. *)
Theorem electInitiator_spec `{Names} (l : list string) (s : BootState) :
  l ≠ [] → Sorted string_le l →
  let annotation := operv1.Annotations (conf s) in
  (∀ c : string,
     index_ok annotation OVNRaftClusterInitiator = Some c → c ∈ l →
     electInitiator l s = (Ok c, s))
  ∧ ((∀ c : string, index_ok annotation OVNRaftClusterInitiator = Some c → c ∉ l) →
     ∃ i : string,
       electInitiator l s
       = (Ok i,
          set_conf (SetAnnotations (annotate annotation OVNRaftClusterInitiator i) (conf s)) s)
       ∧ i ∈ l ∧ ∀ x : string, x ∈ l → string_le i x)
  ∧ (∀ (i : string) (s' : BootState),
       electInitiator l s = (Ok i, s') →
       index_ok (operv1.Annotations (conf s')) OVNRaftClusterInitiator = Some i
       ∧ i ∈ l
       ∧ ∀ l' : list string, i ∈ l' → electInitiator l' s' = (Ok i, s')).
Proof.
  intros Hne Hsorted annotation.
  destruct l as [|x l]; [done|].
  assert (Hkeep : ∀ (l' : list string) (s0 : BootState) (c : string),
            index_ok (operv1.Annotations (conf s0)) OVNRaftClusterInitiator = Some c →
            c ∈ l' → electInitiator l' s0 = (Ok c, s0)).
  { intros l' s0 c Hc Hin. unfold electInitiator.
    rewrite (bind_run get _ s0 s0 s0) by done.
    rewrite Hc. apply currentInitiatorExists_elem in Hin. by rewrite Hin. }
  assert (Hre : (∀ c : string,
                   index_ok annotation OVNRaftClusterInitiator = Some c → c ∉ x :: l) →
                electInitiator (x :: l) s
                = (Ok x, set_conf (SetAnnotations
                                     (annotate annotation OVNRaftClusterInitiator x)
                                     (conf s)) s)).
  { intros Hnot. unfold electInitiator.
    rewrite (bind_run get _ s s s) by done. fold annotation.
    destruct (index_ok annotation OVNRaftClusterInitiator) as [c|] eqn:Hc.
    - destruct (currentInitiatorExists (x :: l) c) eqn:Hex.
      + apply currentInitiatorExists_elem in Hex. by destruct (Hnot c).
      + unfold annotate. by destruct annotation.
    - unfold annotate. by destruct annotation. }
  assert (Hann : ∀ a : StringMap,
            index_ok (annotate a OVNRaftClusterInitiator x) OVNRaftClusterInitiator = Some x).
  { intros [m|]; simpl; [apply lookup_insert_eq|apply lookup_singleton_eq]. }
  split_and!.
  - intros c Hc Hin. by apply Hkeep.
  - intros Hnot. exists x. split_and!.
    + by apply Hre.
    + apply list_elem_of_here.
    + by apply sorted_head_least.
  - intros i s' Hrun.
    destruct (index_ok annotation OVNRaftClusterInitiator) as [c|] eqn:Hc.
    + destruct (decide (c ∈ x :: l)) as [Hin|Hnin].
      * rewrite (Hkeep (x :: l) s c Hc Hin) in Hrun. inversion Hrun; subst.
        split_and!; [done|done|]. intros l' Hl'. by apply Hkeep.
      * rewrite Hre in Hrun by (intros c' Hc'; congruence).
        inversion Hrun; subst. split_and!; [apply Hann|apply list_elem_of_here|].
        intros l' Hl'. apply Hkeep; [apply Hann|done].
    + rewrite Hre in Hrun by (intros c' Hc'; congruence).
      inversion Hrun; subst. split_and!; [apply Hann|apply list_elem_of_here|].
      intros l' Hl'. apply Hkeep; [apply Hann|done].
Qed.

Lemma electInitiator_spec_witness :
  let s := example_state 250 (example_conf (Some "10.0.0.2") None) in
  electInitiator (H := example_names) [ "10.0.0.1"; "10.0.0.2"; "10.0.0.3" ] s
  = (Ok "10.0.0.2", s).
Proof.
  intros s.
  apply (proj1 (electInitiator_spec (H := example_names)
                  [ "10.0.0.1"; "10.0.0.2"; "10.0.0.3" ] s
                  ltac:(discriminate)
                  ltac:(repeat constructor))).
  - reflexivity.
  - set_solver.
Defined.

(** ** The discovery deadline *)

Lemma discoverMasters_conf (kubeClient : KubeClient) (n : Z) (s : BootState) :
  conf (discoverMasters kubeClient n s).2 = conf s.
Proof.
  unfold discoverMasters.
  destruct (PollImmediate _ _ _ _) as [[[|e]|] [calls items]]; simpl; try done.
  by destruct (0 <? _).
Qed.



(** ** Rendering: the external control plane and the first master *)

(** With an external control plane, rendering fails at once with an error
    of its own: it returns no object and leaves the configuration as it
    is, whatever the daemonsets, the templates and the environment. *)
Lemma renderOVNKubernetes_external `{Names}
    (compareVersions : string → string → versionChange) (Getenv : string → string)
    (RenderDir RenderTemplate :
       string → string → gmap string dataValue → string + list uns.Unstructured)
    (pluginCNIConfDir : operv1.NetworkSpec → string) (CNIBinDir : string)
    (fillKubeProxyDefaults : operv1.NetworkSpec → operv1.NetworkSpec)
    (bootstrapResult : bootstrap.BootstrapResult) (manifestDir : string)
    (conf : operv1.NetworkSpec) :
  bootstrap.ExternalControlPlane (bootstrap.Infra bootstrapResult) = true →
  renderOVNKubernetes compareVersions Getenv RenderDir RenderTemplate pluginCNIConfDir
    CNIBinDir fillKubeProxyDefaults bootstrapResult manifestDir conf
  = (Err "Unable to render OVN in a cluster with an external control plane", conf).
Proof.
  intros Hext. unfold renderOVNKubernetes. by rewrite Hext.
Qed.

Lemma in_range_bind {St A B} (m : M St A) (f : A → M St B) :
  in_range m → (∀ a, in_range (f a)) → in_range (m ≫= f).
Proof.
  intros Hm Hf s. unfold mbind, M_bind. specialize (Hm s).
  destruct (m s) as [[a|e|p] s1]; simpl in *; [apply Hf|done|].
  intros [= ->]. by apply Hm.
Qed.

Lemma in_range_ret {St A} (a : A) : in_range (mret a : M St A).
Proof. intros s. done. Qed.

Lemma in_range_fail {St A} (e : string) : in_range (fail e : M St A).
Proof. intros s. done. Qed.

Lemma in_range_get {St} : in_range (get : M St St).
Proof. intros s. done. Qed.

Lemma in_range_put {St} (s0 : St) : in_range (put s0).
Proof. intros s. done. Qed.

Lemma in_range_deref {St A} (p : option A) : in_range (deref p : M St A).
Proof. intros s. by destruct p. Qed.

Lemma in_range_run {St A} (m : M St A) (s : St) :
  in_range m → (m s).1 ≠ Panic IndexOutOfRange.
Proof. intros Hm. apply Hm. Qed.

Create HintDb in_range.

#[local] Hint Resolve in_range_ret in_range_fail in_range_get in_range_put
  in_range_deref : in_range.

Ltac in_range_step :=
  lazymatch goal with
  | |- in_range (_ ≫= _) => apply in_range_bind; [|intros ?]
  | |- in_range (match ?x with _ => _ end) => destruct x
  | |- in_range (if ?b then _ else _) => destruct b
  | |- in_range (let '(_, _) := ?x in _) => destruct x
  | |- _ => solve [auto with in_range]
  end.

(** C8: the election and the rendering index the first master address.
    On an empty list of members the election panics out of range, and so
    does the rendering (when the control plane is internal and the
    configuration pointers it reads before are set); on a non-empty list
    neither does. *)
Theorem first_master_precondition `{Names}
    (compareVersions : string → string → versionChange) (Getenv : string → string)
    (RenderDir RenderTemplate :
       string → string → gmap string dataValue → string + list uns.Unstructured)
    (pluginCNIConfDir : operv1.NetworkSpec → string) (CNIBinDir : string)
    (fillKubeProxyDefaults : operv1.NetworkSpec → operv1.NetworkSpec) :
  (∀ s : BootState, electInitiator [] s = (Panic IndexOutOfRange, s))
  ∧ (∀ (l : list string) (s : BootState),
       l ≠ [] → ∃ (i : string) (s' : BootState), electInitiator l s = (Ok i, s'))
  ∧ (∀ (bootstrapResult : bootstrap.BootstrapResult) (manifestDir : string)
       (conf : operv1.NetworkSpec),
       bootstrap.ExternalControlPlane (bootstrap.Infra bootstrapResult) = false →
       is_Some (operv1.OVNKubernetes conf) →
       operv1.Migration conf = None →
       bootstrap.MasterIPs (bootstrap.OVN bootstrapResult) = [] →
       renderOVNKubernetes compareVersions Getenv RenderDir RenderTemplate pluginCNIConfDir
         CNIBinDir fillKubeProxyDefaults bootstrapResult manifestDir conf
       = (Panic IndexOutOfRange, conf))
  ∧ (∀ (bootstrapResult : bootstrap.BootstrapResult) (manifestDir : string)
       (conf : operv1.NetworkSpec),
       bootstrap.MasterIPs (bootstrap.OVN bootstrapResult) ≠ [] →
       (renderOVNKubernetes compareVersions Getenv RenderDir RenderTemplate pluginCNIConfDir
          CNIBinDir fillKubeProxyDefaults bootstrapResult manifestDir conf).1
       ≠ Panic IndexOutOfRange).
Proof.
  split_and!.
  - intros s. unfold electInitiator. rewrite (bind_run get _ s s s) by done.
    destruct (index_ok _ _); done.
  - intros [|x l] s Hl; [done|]. unfold electInitiator.
    rewrite (bind_run get _ s s s) by done.
    destruct (index_ok _ _) as [c|]; [destruct (currentInitiatorExists _ _)|];
      eexists _, _; reflexivity.
  - intros bootstrapResult manifestDir conf Hext [c Hc] Hmig Hips.
    unfold renderOVNKubernetes. rewrite Hext.
    rewrite (bind_run get _ conf conf conf) by done.
    rewrite Hc, Hmig, Hips. reflexivity.
  - intros bootstrapResult manifestDir conf Hips.
    unfold renderOVNKubernetes.
    destruct (bootstrap.MasterIPs (bootstrap.OVN bootstrapResult)) as [|ip ips]; [done|].
    apply in_range_run. cbv zeta. repeat in_range_step.
Qed.

Lemma first_master_precondition_witness :
  (renderOVNKubernetes (H := example_names) compareVersions_spec example_getenv
     example_render example_render (λ _, "/etc/cni") "/opt/cni/bin" id
     (example_bootstrapResult false [ "10.0.0.1" ] None None None) "bindata"
     (example_spec None)).1
  ≠ Panic IndexOutOfRange.
Proof.
  apply (proj2 (proj2 (proj2 (first_master_precondition (H := example_names)
           compareVersions_spec example_getenv example_render example_render
           (λ _, "/etc/cni") "/opt/cni/bin" id)))).
  simpl. discriminate.
Defined.

(** ** What bootstrap writes to the configuration *)

Lemma bind_inv {St A B} (m : M St A) (f : A → M St B) (s s' : St) (r : outcome B) :
  (m ≫= f) s = (r, s') →
  (∃ a s1, m s = (Ok a, s1) ∧ f a s1 = (r, s'))
  ∨ (∃ r0, m s = (r0, s') ∧ ∀ b, r ≠ Ok b).
Proof.
  unfold mbind, M_bind. destruct (m s) as [[a|e|p] s1]; intros E.
  - left. by exists a, s1.
  - right. inversion E; subst. by eexists.
  - right. inversion E; subst. by eexists.
Qed.

Lemma pure_run {St A} (m : M St A) (s s' : St) (r : outcome A) :
  (∀ s0, (m s0).2 = s0) → m s = (r, s') → s' = s.
Proof. intros Hm E. specialize (Hm s). rewrite E in Hm. done. Qed.

Ltac solve_pure := intros ?; unfold existingDaemonSet; repeat case_match; done.

Lemma wrapErr_run {St A} (prefix : string) (m : M St A) (s s' : St) (r : outcome A) :
  wrapErr prefix m s = (r, s') → ∃ r0, m s = (r0, s').
Proof.
  unfold wrapErr. destruct (m s) as [[a|e|p] s1]; intros [= <- <-]; by eexists.
Qed.

Section BootstrapFrame.
Context `{Names}.
Variable yamlUnmarshalReplicas : string → string + string.
Variable BootstrapInfra : KubeClient → string + bootstrap.InfraBootstrapResult.
Variable ParseDuration : string → string + Z.

Lemma set_GatewayConfig_frame (g : operv1.GatewayConfig) (c c' : operv1.Network) :
  set_GatewayConfig g c = Some c' →
  operv1.Annotations c' = operv1.Annotations c
  ∧ without_gateway (operv1.Spec c') = without_gateway (operv1.Spec c)
  ∧ gateway_of c' = Some g.
Proof.
  unfold set_GatewayConfig, without_gateway, gateway_of.
  destruct c as [ann spec]; simpl.
  destruct (operv1.OVNKubernetes spec) as [oc|] eqn:E; [|done].
  intros [= <-]. simpl. rewrite ?E. done.
Qed.

Lemma bootstrapOVNConfig_run (kubeClient : KubeClient) (s s' : BootState)
    (r : outcome bootstrap.OVNConfigBoostrapResult) :
  bootstrapOVNConfig kubeClient s = (r, s') →
  OVN_MASTER_DISCOVERY_TIMEOUT s' = OVN_MASTER_DISCOVERY_TIMEOUT s
  ∧ operv1.Annotations (conf s') = operv1.Annotations (conf s)
  ∧ without_gateway (operv1.Spec (conf s')) = without_gateway (operv1.Spec (conf s))
  ∧ (is_Some (gateway_of (conf s)) → s' = s).
Proof.
  unfold bootstrapOVNConfig. rewrite (bind_run get _ s s s) by done.
  unfold gateway_of.
  destruct (operv1.OVNKubernetes (operv1.Spec (conf s))) as [oc|] eqn:Hoc.
  - destruct (operv1.Gateway oc) as [g|] eqn:Hg.
    + rewrite (bind_run (mret tt) _ s s tt) by done.
      intros E. apply pure_run in E as ->; [|solve_pure]. done.
    + intros E. apply bind_inv in E as [(u & s1 & Hgw & E)|(r0 & Hgw & _)].
      * apply pure_run in E as ->; [|solve_pure].
        unfold bootstrapOVNGatewayConfig in Hgw.
        destruct (set_GatewayConfig _ (conf s)) as [c'|] eqn:Hset;
          inversion Hgw; subst; try done.
        apply set_GatewayConfig_frame in Hset as (Ha & Hw & _).
        split_and!; try done; by intros [? [=]].
      * unfold bootstrapOVNGatewayConfig in Hgw.
        destruct (set_GatewayConfig _ (conf s)) as [c'|] eqn:Hset;
          inversion Hgw; subst; try done.
        apply set_GatewayConfig_frame in Hset as (Ha & Hw & _).
        split_and!; try done; by intros [? [=]].
  - intros [= <- <-]. split_and!; try done.
Qed.

Lemma electInitiator_keep (l : list string) (s : BootState) (c : string) :
  index_ok (operv1.Annotations (conf s)) OVNRaftClusterInitiator = Some c →
  c ∈ l → electInitiator l s = (Ok c, s).
Proof.
  intros Hc Hin. unfold electInitiator.
  rewrite (bind_run get _ s s s) by done.
  rewrite Hc. apply currentInitiatorExists_elem in Hin. by rewrite Hin.
Qed.

Lemma electInitiator_reelect (x : string) (l : list string) (s : BootState) :
  (∀ c : string,
     index_ok (operv1.Annotations (conf s)) OVNRaftClusterInitiator = Some c → c ∉ x :: l) →
  electInitiator (x :: l) s
  = (Ok x,
     set_conf (SetAnnotations
                 (annotate (operv1.Annotations (conf s)) OVNRaftClusterInitiator x)
                 (conf s)) s).
Proof.
  intros Hnot. unfold electInitiator.
  rewrite (bind_run get _ s s s) by done.
  destruct (index_ok (operv1.Annotations (conf s)) OVNRaftClusterInitiator) as [c|] eqn:Hc.
  - destruct (currentInitiatorExists (x :: l) c) eqn:Hex.
    + apply currentInitiatorExists_elem in Hex. by destruct (Hnot c).
    + unfold annotate. by destruct (operv1.Annotations (conf s)).
  - unfold annotate. by destruct (operv1.Annotations (conf s)).
Qed.

(** Every run of the election: the store is left as it is, or the first
    member is elected and annotated, the annotation naming no member. *)
Lemma electInitiator_run (l : list string) (s s' : BootState) (r : outcome string) :
  electInitiator l s = (r, s') →
  s' = s
  ∨ ∃ i : string,
      r = Ok i ∧ head l = Some i
      ∧ s' = set_conf (SetAnnotations
                         (annotate (operv1.Annotations (conf s)) OVNRaftClusterInitiator i)
                         (conf s)) s
      ∧ ∀ c : string,
          index_ok (operv1.Annotations (conf s)) OVNRaftClusterInitiator = Some c → c ∉ l.
Proof.
  intros Hrun.
  destruct (index_ok (operv1.Annotations (conf s)) OVNRaftClusterInitiator) as [c|] eqn:Hc.
  - destruct (decide (c ∈ l)) as [Hin|Hnin].
    + rewrite (electInitiator_keep l s c Hc Hin) in Hrun. left. by inversion Hrun.
    + destruct l as [|x l].
      * unfold electInitiator in Hrun. rewrite (bind_run get _ s s s) in Hrun by done.
        rewrite Hc in Hrun. simpl in Hrun. left. by inversion Hrun.
      * rewrite electInitiator_reelect in Hrun by (intros c' Hc'; congruence).
        right. exists x. inversion Hrun; subst. split_and!; try done.
        intros c' Hc'. congruence.
  - destruct l as [|x l].
    + unfold electInitiator in Hrun. rewrite (bind_run get _ s s s) in Hrun by done.
      rewrite Hc in Hrun. left. by inversion Hrun.
    + rewrite electInitiator_reelect in Hrun by (intros c' Hc'; congruence).
      right. exists x. inversion Hrun; subst. split_and!; try done.
Qed.

(** The steps of a bootstrap: the configuration step ends in [s1], the
    discovery in [s2], and the election over the sorted addresses ends the
    changes of the store. *)
Lemma bootstrapOVN_steps (kubeClient : KubeClient) (s s' : BootState)
    (r : outcome bootstrap.BootstrapResult) :
  bootstrapOVN yamlUnmarshalReplicas BootstrapInfra ParseDuration kubeClient s = (r, s') →
  ∃ s1 : BootState,
    ((∃ r1, bootstrapOVNConfig kubeClient s = (r1, s1)) ∨ s1 = s)
    ∧ ((s' = s1 ∧ ∀ res, r ≠ Ok res)
       ∨ ∃ (n : Z) (rd : outcome (list corev1.Node)) (s2 : BootState),
           discoverMasters kubeClient n s1 = (rd, s2)
           ∧ ((s' = s2 ∧ ∀ res, r ≠ Ok res)
              ∨ ∃ (items : list corev1.Node) (ips : list string) (ri : outcome string),
                  rd = Ok items
                  ∧ masterIPs items = inr ips
                  ∧ electInitiator (sort_Strings ips) s2 = (ri, s')
                  ∧ ∀ res, r = Ok res →
                           ri = Ok (bootstrap.ClusterInitiator (bootstrap.OVN res))
                           ∧ bootstrap.MasterIPs (bootstrap.OVN res) = sort_Strings ips
                           ∧ bootstrap.ExistingMasterDaemonset (bootstrap.OVN res)
                             = retrieved (getMasterDaemonSet kubeClient)
                           ∧ bootstrap.ExistingNodeDaemonset (bootstrap.OVN res)
                             = retrieved (getNodeDaemonSet kubeClient)
                           ∧ bootstrap.PrePullerDaemonset (bootstrap.OVN res)
                             = retrieved (getPrePullerDaemonSet kubeClient)
                           ∧ BootstrapInfra kubeClient = inr (bootstrap.Infra res))).
Proof.
  unfold bootstrapOVN. intros Hrun.
  apply bind_inv in Hrun as [(cc & s0 & H0 & Hrun)|(r0 & H0 & Hne)];
    [apply pure_run in H0 as ->; [|solve_pure]
    |apply pure_run in H0 as ->; [|solve_pure]; exists s; split; [by right|by left]].
  apply bind_inv in Hrun as [(rep & s0 & H0 & Hrun)|(r0 & H0 & Hne)];
    [apply pure_run in H0 as ->; [|solve_pure]
    |apply pure_run in H0 as ->; [|solve_pure]; exists s; split; [by right|by left]].
  apply bind_inv in Hrun as [(cfg & s1 & H1 & Hrun)|(r0 & H1 & Hne)];
    apply wrapErr_run in H1 as [r1 H1].
  2:{ exists s'. split; [left; by exists r1|by left]. }
  exists s1. split; [left; by exists r1|]. right.
  apply bind_inv in Hrun as [(items & s2 & H2 & Hrun)|(r0 & H2 & Hne)].
  2:{ exists (Atoi rep).1, r0, s'. split; [done|by left]. }
  exists (Atoi rep).1, (Ok items), s2. split; [done|].
  apply bind_inv in Hrun as [(ips & s0 & H0 & Hrun)|(r0 & H0 & Hne)];
    [pose proof H0 as Hips; apply pure_run in H0 as ->; [|solve_pure]
    |apply pure_run in H0 as ->; [|solve_pure]; by left].
  assert (Hm : masterIPs items = inr ips).
  { destruct (masterIPs items); by inversion Hips. }
  right. exists items, ips.
  apply bind_inv in Hrun as [(i & s3 & H3 & Hrun)|(r0 & H3 & Hne)].
  2:{ exists r0. split_and!; try done. intros res ->. by destruct (Hne res). }
  exists (Ok i).
  apply bind_inv in Hrun as [(mds & s0 & Hmds & Hrun)|(r0 & H0 & Hne)];
    [pose proof Hmds as H0; apply pure_run in H0 as ->; [|solve_pure]
    |apply pure_run in H0 as ->; [|solve_pure];
     split_and!; try done; intros res ->; by destruct (Hne res)].
  apply bind_inv in Hrun as [(nds & s0 & Hnds & Hrun)|(r0 & H0 & Hne)];
    [pose proof Hnds as H0; apply pure_run in H0 as ->; [|solve_pure]
    |apply pure_run in H0 as ->; [|solve_pure];
     split_and!; try done; intros res ->; by destruct (Hne res)].
  apply bind_inv in Hrun as [(pds & s0 & Hpds & Hrun)|(r0 & H0 & Hne)];
    [pose proof Hpds as H0; apply pure_run in H0 as ->; [|solve_pure]
    |apply pure_run in H0 as ->; [|solve_pure];
     split_and!; try done; intros res ->; by destruct (Hne res)].
  apply bind_inv in Hrun as [(infra & s0 & Hinfra & Hrun)|(r0 & H0 & Hne)];
    [pose proof Hinfra as H0; apply pure_run in H0 as ->; [|solve_pure]
    |apply pure_run in H0 as ->; [|solve_pure];
     split_and!; try done; intros res ->; by destruct (Hne res)].
  inversion Hrun; subst. split_and!; try done.
  intros res [= <-]. simpl.
  unfold existingDaemonSet in *.
  split_and!; try done.
  - by destruct (getMasterDaemonSet kubeClient); inversion Hmds.
  - by destruct (getNodeDaemonSet kubeClient); inversion Hnds.
  - by destruct (getPrePullerDaemonSet kubeClient); inversion Hpds.
  - by destruct (BootstrapInfra kubeClient); inversion Hinfra.
Qed.

End BootstrapFrame.

(** ** The members and the gateway configuration of a bootstrap *)

Lemma wrapErr_Ok {St A} (prefix : string) (m : M St A) (s s' : St) (a : A) :
  wrapErr prefix m s = (Ok a, s') → m s = (Ok a, s').
Proof. unfold wrapErr. destruct (m s) as [[a0|e|p] s1]; by intros [= <- <-]. Qed.

Lemma discoverMasters_result (kubeClient : KubeClient) (n : Z) (s1 s : BootState) :
  OVN_MASTER_DISCOVERY_TIMEOUT s1 = OVN_MASTER_DISCOVERY_TIMEOUT s →
  (discoverMasters kubeClient n s1).1 = (discoverMasters kubeClient n s).1.
Proof.
  unfold discoverMasters. intros ->.
  destruct (PollImmediate _ _ _ _) as [[[|e]|] [calls items]]; simpl; try done.
  by destruct (0 <? _).
Qed.

Lemma gateway_of_SetAnnotations (a : StringMap) (c : operv1.Network) :
  gateway_of (SetAnnotations a c) = gateway_of c.
Proof. done. Qed.

Section BootstrapMembers.
Context `{Names}.
Variable yamlUnmarshalReplicas : string → string + string.
Variable BootstrapInfra : KubeClient → string + bootstrap.InfraBootstrapResult.
Variable ParseDuration : string → string + Z.

(** The value that [bootstrapOVNGatewayConfig] writes is the one of the
    map, and it writes it whenever there is a configuration to write to. *)
Lemma bootstrapOVNGatewayConfig_run (kubeClient : KubeClient) (s s' : BootState)
    (r : outcome unit) :
  bootstrapOVNGatewayConfig kubeClient s = (r, s') →
  (r = Ok tt ∧ gateway_of (conf s') = Some (gatewayFromMap kubeClient))
  ∨ (s' = s ∧ ∀ u, r ≠ Ok u).
Proof.
  unfold bootstrapOVNGatewayConfig.
  assert (Hvalue :
    {| operv1.RoutingViaHost :=
         bool_decide
           (match getGatewayModeConfig kubeClient with
            | Found cm =>
                if bool_decide (index cm "mode" ≠ OVN_SHARED_GW_MODE)
                   && bool_decide (index cm "mode" ≠ OVN_LOCAL_GW_MODE)
                then OVN_SHARED_GW_MODE else index cm "mode"
            | _ => OVN_SHARED_GW_MODE
            end = OVN_LOCAL_GW_MODE) |}
    = gatewayFromMap kubeClient).
  { unfold gatewayFromMap. f_equal.
    destruct (getGatewayModeConfig kubeClient) as [cm|e|e]; [|done..].
    repeat case_bool_decide; simpl in *; try done; congruence. }
  cbv beta zeta. rewrite Hvalue.
  destruct (set_GatewayConfig _ (conf s)) as [c'|] eqn:Hset; intros [= <- <-].
  - left. split; [done|]. simpl.
    by apply set_GatewayConfig_frame in Hset as (_ & _ & Hg).
  - right. done.
Qed.

Lemma bootstrapOVNConfig_gateway (kubeClient : KubeClient) (s s' : BootState)
    (r : outcome bootstrap.OVNConfigBoostrapResult) :
  bootstrapOVNConfig kubeClient s = (r, s') →
  (gateway_of (conf s') = gateway_of (conf s)
   ∨ (gateway_of (conf s) = None
      ∧ gateway_of (conf s') = Some (gatewayFromMap kubeClient)))
  ∧ (∀ cfg, r = Ok cfg → gateway_of (conf s) = None →
            gateway_of (conf s') = Some (gatewayFromMap kubeClient)).
Proof.
  unfold bootstrapOVNConfig. rewrite (bind_run get _ s s s) by done.
  destruct (operv1.OVNKubernetes (operv1.Spec (conf s))) as [oc|] eqn:Hoc.
  - assert (Hgs : gateway_of (conf s) = operv1.Gateway oc).
    { unfold gateway_of. by rewrite Hoc. }
    destruct (operv1.Gateway oc) as [g|] eqn:Hg.
    + rewrite (bind_run (mret tt) _ s s tt) by done.
      intros E. apply pure_run in E as ->; [|solve_pure].
      split; [by left|]. intros cfg _. by rewrite Hgs.
    + intros E. apply bind_inv in E as [(u & s1 & Hgw & E)|(r0 & Hgw & Hne)].
      * apply pure_run in E as ->; [|solve_pure].
        apply bootstrapOVNGatewayConfig_run in Hgw as [[_ Hw]|[_ Hu]];
          [|by destruct (Hu u)].
        split; [by right|done].
      * apply bootstrapOVNGatewayConfig_run in Hgw as [[_ Hw]|[-> _]].
        -- split; [by right|done].
        -- split; [by left|]. intros cfg ->. by destruct (Hne cfg).
  - intros [= <- <-]. split; [by left|done].
Qed.

(** The steps of a bootstrap, up to the election: the configuration step
    ends in [s1]; either the run ends before the election, the
    configuration object as that step left it, or the election is run over
    the current members, on that object. *)
Lemma bootstrapOVN_election (kubeClient : KubeClient) (s s' : BootState)
    (r : outcome bootstrap.BootstrapResult) :
  bootstrapOVN yamlUnmarshalReplicas BootstrapInfra ParseDuration kubeClient s = (r, s') →
  ∃ s1 : BootState,
    ((∃ r1, bootstrapOVNConfig kubeClient s = (r1, s1)) ∨ s1 = s)
    ∧ ((conf s' = conf s1 ∧ ∀ res, r ≠ Ok res)
       ∨ ∃ (cfg : bootstrap.OVNConfigBoostrapResult) (members : list string)
           (ri : outcome string) (s2 : BootState),
           bootstrapOVNConfig kubeClient s = (Ok cfg, s1)
           ∧ currentMembers yamlUnmarshalReplicas kubeClient s = Some members
           ∧ conf s2 = conf s1
           ∧ electInitiator members s2 = (ri, s')
           ∧ ∀ res, r = Ok res → bootstrap.MasterIPs (bootstrap.OVN res) = members).
Proof.
  unfold bootstrapOVN. intros Hrun.
  apply bind_inv in Hrun as [(cc & s0 & H0 & Hrun)|(r0 & H0 & Hne)];
    [|apply pure_run in H0 as ->; [|solve_pure];
      exists s; split; [by right|by left]].
  assert (Hcc : getClusterConfig kubeClient = Found cc ∧ s0 = s).
  { destruct (getClusterConfig kubeClient); by inversion H0. }
  destruct Hcc as [Hcc ->]. clear H0.
  apply bind_inv in Hrun as [(rep & s0 & H0 & Hrun)|(r0 & H0 & Hne)];
    [|apply pure_run in H0 as ->; [|solve_pure];
      exists s; split; [by right|by left]].
  assert (Hrep : yamlUnmarshalReplicas (index cc "install-config") = inr rep ∧ s0 = s).
  { destruct (yamlUnmarshalReplicas _); by inversion H0. }
  destruct Hrep as [Hrep ->]. clear H0.
  apply bind_inv in Hrun as [(cfg & s1 & H1 & Hrun)|(r0 & H1 & Hne)].
  2:{ apply wrapErr_run in H1 as [r1 H1].
      exists s'. split; [left; by exists r1|by left]. }
  apply wrapErr_Ok in H1.
  exists s1. split; [left; by eexists|].
  pose proof (bootstrapOVNConfig_run kubeClient s s1 _ H1) as (Ht & _).
  apply bind_inv in Hrun as [(items & s2 & H2 & Hrun)|(r0 & H2 & Hne)].
  2:{ left. split; [|done].
      rewrite <- (discoverMasters_conf kubeClient (Atoi rep).1 s1). by rewrite H2. }
  assert (Hc2 : conf s2 = conf s1).
  { rewrite <- (discoverMasters_conf kubeClient (Atoi rep).1 s1). by rewrite H2. }
  apply bind_inv in Hrun as [(ips & s0 & H0 & Hrun)|(r0 & H0 & Hne)];
    [|apply pure_run in H0 as ->; [|solve_pure]; left; by rewrite Hc2].
  assert (Hips : masterIPs items = inr ips ∧ s0 = s2).
  { destruct (masterIPs items); by inversion H0. }
  destruct Hips as [Hips ->]. clear H0.
  assert (Hmembers :
    currentMembers yamlUnmarshalReplicas kubeClient s = Some (sort_Strings ips)).
  { unfold currentMembers. rewrite Hcc, Hrep.
    pose proof (discoverMasters_result kubeClient (Atoi rep).1 s1 s Ht) as Hd.
    rewrite H2 in Hd. simpl in Hd.
    destruct (discoverMasters kubeClient (Atoi rep).1 s) as [rd sd]. simpl in Hd.
    subst rd. by rewrite Hips. }
  right. exists cfg, (sort_Strings ips).
  apply bind_inv in Hrun as [(i & s3 & H3 & Hrun)|(r0 & H3 & Hne)].
  2:{ exists r0, s2. split_and!; try done. intros res ->. by destruct (Hne res). }
  exists (Ok i), s2.
  assert (Hrest : s' = s3 ∧ ∀ res, r = Ok res →
                    bootstrap.MasterIPs (bootstrap.OVN res) = sort_Strings ips).
  { apply bind_inv in Hrun as [(mds & s0 & H0 & Hrun)|(r0 & H0 & Hne)];
      [apply pure_run in H0 as ->; [|solve_pure]
      |apply pure_run in H0 as ->; [|solve_pure];
       split; [done|]; intros res ->; by destruct (Hne res)].
    apply bind_inv in Hrun as [(nds & s0 & H0 & Hrun)|(r0 & H0 & Hne)];
      [apply pure_run in H0 as ->; [|solve_pure]
      |apply pure_run in H0 as ->; [|solve_pure];
       split; [done|]; intros res ->; by destruct (Hne res)].
    apply bind_inv in Hrun as [(pds & s0 & H0 & Hrun)|(r0 & H0 & Hne)];
      [apply pure_run in H0 as ->; [|solve_pure]
      |apply pure_run in H0 as ->; [|solve_pure];
       split; [done|]; intros res ->; by destruct (Hne res)].
    apply bind_inv in Hrun as [(infra & s0 & H0 & Hrun)|(r0 & H0 & Hne)];
      [apply pure_run in H0 as ->; [|solve_pure]
      |apply pure_run in H0 as ->; [|solve_pure];
       split; [done|]; intros res ->; by destruct (Hne res)].
    inversion Hrun; subst. split; [done|]. by intros res [= <-]. }
  destruct Hrest as [-> Hres]. done.
Qed.

End BootstrapMembers.

(** C9, as the code has it.  Through every run of bootstrap, whether it
    succeeds, fails or panics: a persisted initiator annotation that names
    a current member keeps the annotations as they are, and the annotations
    change only by a re-election, which annotates the first of the current
    members when the persisted annotation names none of them; the current
    members are the master addresses that a successful bootstrap returns.
    Every field of the specification other than the gateway configuration
    is unchanged.  The gateway configuration is kept when it is set on
    entry; unset on entry, it is left unset or set to the value of the
    [gateway-mode-config] map (routed via the host exactly when the map is
    found with the local mode, shared otherwise), and it is set to that
    value by every bootstrap that succeeds. *)
Theorem bootstrapOVN_frame `{Names}
    (yamlUnmarshalReplicas : string → string + string)
    (BootstrapInfra : KubeClient → string + bootstrap.InfraBootstrapResult)
    (ParseDuration : string → string + Z)
    (kubeClient : KubeClient) (s s' : BootState) (r : outcome bootstrap.BootstrapResult) :
  bootstrapOVN yamlUnmarshalReplicas BootstrapInfra ParseDuration kubeClient s = (r, s') →
  let annotations := operv1.Annotations (conf s) in
  let members := currentMembers yamlUnmarshalReplicas kubeClient s in
  (∀ (c : string) (l : list string),
     index_ok annotations OVNRaftClusterInitiator = Some c →
     members = Some l → c ∈ l →
     operv1.Annotations (conf s') = annotations)
  ∧ (operv1.Annotations (conf s') = annotations
     ∨ ∃ (l : list string) (i : string),
         members = Some l ∧ head l = Some i
         ∧ (∀ c : string, index_ok annotations OVNRaftClusterInitiator = Some c → c ∉ l)
         ∧ operv1.Annotations (conf s') = annotate annotations OVNRaftClusterInitiator i)
  ∧ (∀ res : bootstrap.BootstrapResult,
       r = Ok res → members = Some (bootstrap.MasterIPs (bootstrap.OVN res)))
  ∧ without_gateway (operv1.Spec (conf s')) = without_gateway (operv1.Spec (conf s))
  ∧ (is_Some (gateway_of (conf s)) → operv1.Spec (conf s') = operv1.Spec (conf s))
  ∧ (gateway_of (conf s') = gateway_of (conf s)
     ∨ (gateway_of (conf s) = None
        ∧ gateway_of (conf s') = Some (gatewayFromMap kubeClient)))
  ∧ (∀ res : bootstrap.BootstrapResult,
       r = Ok res → gateway_of (conf s) = None →
       gateway_of (conf s') = Some (gatewayFromMap kubeClient)).
Proof.
  intros Hrun annotations members. subst annotations members.
  apply bootstrapOVN_election in Hrun as (s1 & H1 & Hrest).
  assert (Hs1 : operv1.Annotations (conf s1) = operv1.Annotations (conf s)
                ∧ without_gateway (operv1.Spec (conf s1))
                  = without_gateway (operv1.Spec (conf s))
                ∧ (is_Some (gateway_of (conf s)) → s1 = s)
                ∧ (gateway_of (conf s1) = gateway_of (conf s)
                   ∨ (gateway_of (conf s) = None
                      ∧ gateway_of (conf s1) = Some (gatewayFromMap kubeClient)))).
  { destruct H1 as [[r1 H1]| ->]; [|split_and!; try done; by left].
    pose proof (bootstrapOVNConfig_gateway kubeClient s s1 r1 H1) as [Hgw _].
    apply bootstrapOVNConfig_run in H1 as (_ & Ha & Hw & Hg). done. }
  destruct Hs1 as (Ha1 & Hw1 & Hg1 & Hgw1).
  assert (Hspec : is_Some (gateway_of (conf s)) →
                  operv1.Spec (conf s1) = operv1.Spec (conf s)).
  { intros Hg. by rewrite (Hg1 Hg). }
  destruct Hrest as [[Hc Hne]|(cfg & l & ri & s2 & Hcfg & Hl & Hc2 & Hel & Hres)].
  { rewrite Hc. split_and!; try done.
    - by left.
    - intros res ->. by destruct (Hne res).
    - intros res ->. by destruct (Hne res). }
  pose proof (bootstrapOVNConfig_gateway kubeClient s s1 _ Hcfg) as [_ Hset].
  specialize (Hset cfg eq_refl).
  apply electInitiator_run in Hel as [->|(i & -> & Hhead & -> & Hnot)].
  - rewrite Hc2. split_and!; try done.
    + by left.
    + intros res Hr. by rewrite (Hres res Hr).
  - simpl. rewrite Hc2, Ha1 in *. split_and!; try done.
    + intros c l' Hc. rewrite Hl. intros [= <-] Hin. by destruct (Hnot c Hc).
    + right. by exists l, i.
    + intros res Hr. by rewrite (Hres res Hr).
Qed.

Lemma bootstrapOVN_frame_witness :
  let s := example_state 250 (example_conf (Some "10.0.0.2") None) in
  let run :=
    bootstrapOVN (H := example_names) example_yaml (example_infra false) example_duration
      example_client s in
  operv1.Annotations (conf run.2) = operv1.Annotations (conf s)
  ∧ gateway_of (conf run.2) = Some (gatewayFromMap example_client).
Proof.
  intros s run.
  pose proof (bootstrapOVN_frame (H := example_names) example_yaml (example_infra false)
                example_duration example_client s run.2 run.1
                (surjective_pairing run)) as (Hkeep & _ & _ & _ & _ & _ & Hgateway).
  split.
  - apply (Hkeep "10.0.0.2" [ "10.0.0.1"; "10.0.0.2"; "10.0.0.3" ]).
    + reflexivity.
    + vm_compute. reflexivity.
    + set_solver.
  - eapply Hgateway.
    + vm_compute. reflexivity.
    + reflexivity.
Defined.

(** The claim as stated fails on a configuration without a gateway
    configuration: the annotated initiator is a member, and bootstrap still
    changes the object, by setting its gateway configuration. *)
Lemma bootstrapOVN_frame_counterexample :
  match bootstrapOVN (H := example_names) example_yaml (example_infra false)
          example_duration example_client
          (example_state 250 (example_conf (Some "10.0.0.2") None)) with
  | (Ok res, s') =>
      index_ok (operv1.Annotations (example_conf (Some "10.0.0.2") None))
        (OVNRaftClusterInitiator (Names := example_names)) = Some "10.0.0.2"
      ∧ "10.0.0.2" ∈ bootstrap.MasterIPs (bootstrap.OVN res)
      ∧ conf s' ≠ example_conf (Some "10.0.0.2") None
  | _ => False
  end.
Proof.
  destruct (bootstrapOVN _ _ _ _ _) as [r s'] eqn:Hrun.
  vm_compute in Hrun. injection Hrun as <- <-.
  split_and!.
  - reflexivity.
  - set_solver.
  - intros E. apply (f_equal gateway_of) in E. discriminate E.
Qed.

(** ** The pass under an external control plane *)

(** C7, as the code has it: the flag is read by the rendering, not by
    bootstrap.  With an external control plane the rendering fails at once
    with its explicit error and leaves the configuration as it is, so the
    pass never produces objects; but the pass comes to that error only
    after a bootstrap that succeeded, in the store that bootstrap left,
    and it ends as bootstrap does when bootstrap fails or panics. *)
Theorem reconciliationPass_external `{Names}
    (yamlUnmarshalReplicas : string → string + string)
    (BootstrapInfra : KubeClient → string + bootstrap.InfraBootstrapResult)
    (ParseDuration : string → string + Z)
    (compareVersions : string → string → versionChange) (Getenv : string → string)
    (RenderDir RenderTemplate :
       string → string → gmap string dataValue → string + list uns.Unstructured)
    (pluginCNIConfDir : operv1.NetworkSpec → string) (CNIBinDir : string)
    (fillKubeProxyDefaults : operv1.NetworkSpec → operv1.NetworkSpec)
    (kubeClient : KubeClient) (manifestDir : string) (s : BootState)
    (infra : bootstrap.InfraBootstrapResult) :
  BootstrapInfra kubeClient = inr infra →
  bootstrap.ExternalControlPlane infra = true →
  let boot := bootstrapOVN yamlUnmarshalReplicas BootstrapInfra ParseDuration kubeClient s in
  let run :=
    reconciliationPass yamlUnmarshalReplicas BootstrapInfra ParseDuration compareVersions
      Getenv RenderDir RenderTemplate pluginCNIConfDir CNIBinDir fillKubeProxyDefaults
      kubeClient manifestDir s in
  (∀ (bootstrapResult : bootstrap.BootstrapResult) (conf : operv1.NetworkSpec),
     bootstrap.ExternalControlPlane (bootstrap.Infra bootstrapResult) = true →
     renderOVNKubernetes compareVersions Getenv RenderDir RenderTemplate pluginCNIConfDir
       CNIBinDir fillKubeProxyDefaults bootstrapResult manifestDir conf
     = (Err "Unable to render OVN in a cluster with an external control plane", conf))
  ∧ (∀ objs : list uns.Unstructured, run.1 ≠ Ok objs)
  ∧ (∀ res : bootstrap.BootstrapResult,
       boot.1 = Ok res →
       run = (Err "Unable to render OVN in a cluster with an external control plane",
              boot.2))
  ∧ (∀ e : string, boot.1 = Err e → run = (Err e, boot.2))
  ∧ (∀ p : panic, boot.1 = Panic p → run = (Panic p, boot.2)).
Proof.
  intros Hinfra Hext boot run.
  assert (Hrender : ∀ (bootstrapResult : bootstrap.BootstrapResult)
                      (conf : operv1.NetworkSpec),
            bootstrap.ExternalControlPlane (bootstrap.Infra bootstrapResult) = true →
            renderOVNKubernetes compareVersions Getenv RenderDir RenderTemplate
              pluginCNIConfDir CNIBinDir fillKubeProxyDefaults bootstrapResult manifestDir
              conf
            = (Err "Unable to render OVN in a cluster with an external control plane",
               conf)).
  { intros bootstrapResult conf. apply renderOVNKubernetes_external. }
  assert (Hok : ∀ res : bootstrap.BootstrapResult,
            boot.1 = Ok res →
            run = (Err "Unable to render OVN in a cluster with an external control plane",
                   boot.2)).
  { intros res Hres. subst run. unfold reconciliationPass. fold boot.
    destruct boot as [r s1] eqn:Hboot. simpl in Hres. subst r.
    apply bootstrapOVN_steps in Hboot as (s0 & _ & [[_ Hne]|Hsteps]);
      [by destruct (Hne res)|].
    destruct Hsteps as (n & rd & s2 & _ & [[_ Hne]|Hsteps]); [by destruct (Hne res)|].
    destruct Hsteps as (items & ips & ri & _ & _ & _ & Hres).
    destruct (Hres res eq_refl) as (_ & _ & _ & _ & _ & Hi).
    rewrite Hinfra in Hi. injection Hi as Hi.
    rewrite Hrender by (by rewrite <- Hi).
    simpl. f_equal. destruct s1 as [t [a sp]]. done. }
  split_and!.
  - exact Hrender.
  - intros objs Hobjs. subst run. unfold reconciliationPass in *. fold boot in Hobjs.
    destruct boot as [[res|e|p] s1] eqn:Hboot; [|done..].
    specialize (Hok res eq_refl). unfold reconciliationPass in Hok. fold boot in Hok.
    rewrite Hboot in Hok. rewrite Hok in Hobjs. done.
  - exact Hok.
  - intros e He. subst run. unfold reconciliationPass. fold boot.
    destruct boot as [r s1]. simpl in He. by subst r.
  - intros p Hp. subst run. unfold reconciliationPass. fold boot.
    destruct boot as [r s1]. simpl in Hp. by subst r.
Qed.

Lemma reconciliationPass_external_witness :
  (reconciliationPass (H := example_names) example_yaml (example_infra true)
     example_duration compareVersions_spec example_getenv example_render example_render
     (λ _, "/etc/cni") "/opt/cni/bin" id example_client "bindata"
     (example_state 250 (example_conf None None))).1
  = Err "Unable to render OVN in a cluster with an external control plane".
Proof.
  pose proof (reconciliationPass_external (H := example_names) example_yaml
                (example_infra true) example_duration compareVersions_spec example_getenv
                example_render example_render (λ _, "/etc/cni") "/opt/cni/bin" id
                example_client "bindata" (example_state 250 (example_conf None None))
                {| bootstrap.PlatformType := "AWS"; bootstrap.ExternalControlPlane := true |}
                eq_refl eq_refl) as (_ & _ & Hok & _).
  cbv zeta in Hok. erewrite Hok; [reflexivity|].
  vm_compute. reflexivity.
Defined.

(** The claim as stated fails in a cluster with an external control
    plane.  With no master node, the pass ends in no explicit error:
    bootstrap, which does not read the flag, polls for the masters until
    the deadline, which it shortens, writes the gateway configuration, and
    panics in the election, on the empty list of members.  With three
    masters, the explicit error comes only after bootstrap has elected the
    initiator and written its annotation to the configuration object. *)
Lemma reconciliationPass_external_counterexample :
  let s := example_state 250 (example_conf None None) in
  let pass :=
    reconciliationPass (H := example_names) example_yaml (example_infra true)
      example_duration compareVersions_spec example_getenv example_render example_render
      (λ _, "/etc/cni") "/opt/cni/bin" id in
  let run := pass example_client_no_masters "bindata" s in
  let run3 := pass example_client "bindata" s in
  (∃ infra : bootstrap.InfraBootstrapResult,
     example_infra true example_client_no_masters = inr infra
     ∧ example_infra true example_client = inr infra
     ∧ bootstrap.ExternalControlPlane infra = true)
  ∧ run.1 = Panic IndexOutOfRange
  ∧ (∀ e : string, run.1 ≠ Err e)
  ∧ OVN_MASTER_DISCOVERY_TIMEOUT run.2 = 130
  ∧ gateway_of (conf s) = None
  ∧ gateway_of (conf run.2) = Some {| operv1.RoutingViaHost := false |}
  ∧ run3.1 = Err "Unable to render OVN in a cluster with an external control plane"
  ∧ index_ok (operv1.Annotations (conf s))
      (OVNRaftClusterInitiator (Names := example_names)) = None
  ∧ index_ok (operv1.Annotations (conf run3.2))
      (OVNRaftClusterInitiator (Names := example_names)) = Some "10.0.0.1".
Proof.
  intros s pass run run3.
  assert (Hrun : run.1 = Panic IndexOutOfRange
                 ∧ OVN_MASTER_DISCOVERY_TIMEOUT run.2 = 130
                 ∧ gateway_of (conf run.2) = Some {| operv1.RoutingViaHost := false |}).
  { vm_compute. done. }
  assert (Hrun3 : run3.1
                  = Err "Unable to render OVN in a cluster with an external control plane"
                  ∧ index_ok (operv1.Annotations (conf run3.2))
                      (OVNRaftClusterInitiator (Names := example_names))
                    = Some "10.0.0.1").
  { vm_compute. done. }
  destruct Hrun as (Hpanic & Htimeout & Hgateway).
  destruct Hrun3 as (Herr & Hannotation).
  split_and!.
  - eexists. split_and!; reflexivity.
  - exact Hpanic.
  - intros e. by rewrite Hpanic.
  - exact Htimeout.
  - reflexivity.
  - exact Hgateway.
  - exact Herr.
  - reflexivity.
  - exact Hannotation.
Qed.

(** * Further properties of the code *)

(** ** The tolerated lag *)

(** X1: on every non-negative int32 count the tolerated lag computed in
    binary64 is max(1, d / 10) in integer arithmetic: at least one pod, and
    at most a tenth of the desired pods from ten pods on. *)
Theorem maxBehind_tolerance (d : Z) :
  count_range d →
  maxBehind d = Z.max 1 (d / 10)
  ∧ 1 ≤ maxBehind d
  ∧ (10 ≤ d → 10 * maxBehind d ≤ d).
Proof.
  intros Hd. unfold count_range in Hd. rewrite maxBehind_int by done.
  split_and!; [done|lia|].
  intros H10. pose proof (Z.mul_div_le d 10 ltac:(lia)).
  assert (1 ≤ d / 10) by (apply Z.div_le_lower_bound; lia). lia.
Qed.

Lemma maxBehind_tolerance_witness : maxBehind 5000 = Z.max 1 (5000 / 10).
Proof.
  apply (proj1 (maxBehind_tolerance 5000 ltac:(unfold count_range; lia))).
Defined.

(** ** The progress evaluator and the hang tolerance *)

(** X2: without the hang tolerance the evaluator is the base condition;
    the tolerance can only turn a progressing rollout into a complete one,
    never the converse, and a rollout without hang marker is judged the
    same with and without it. *)
Theorem daemonSetProgressing_allowHung `{Names} (ds : appsv1.DaemonSet) :
  daemonSetProgressing ds false = progressing ds
  ∧ (daemonSetProgressing ds true = true → daemonSetProgressing ds false = true)
  ∧ (index_ok (appsv1.Annotations ds) RolloutHungAnnotation = None →
     daemonSetProgressing ds true = daemonSetProgressing ds false).
Proof.
  unfold daemonSetProgressing. destruct (progressing ds); simpl; split_and!; try done.
  intros ->. done.
Qed.

Lemma daemonSetProgressing_allowHung_witness :
  let ds := example_ds "ovnkube-node" "4.11.0" "single-stack" false 10 9 in
  daemonSetProgressing (H := example_names) ds true
  = daemonSetProgressing (H := example_names) ds false.
Proof.
  intros ds.
  apply (proj2 (proj2 (daemonSetProgressing_allowHung (H := example_names) ds))).
  reflexivity.
Defined.

(** ** The decisions of a pass *)

Lemma gate_shape `{Names} (existingNode existingMaster : option appsv1.DaemonSet)
    (ipFamilyMode : string) :
  shouldUpdateOVNKonIPFamilyChange existingNode existingMaster ipFamilyMode = (true, true)
  ∨ (shouldUpdateOVNKonIPFamilyChange existingNode existingMaster ipFamilyMode = (false, true)
     ∧ is_Some existingNode ∧ is_Some existingMaster).
Proof.
  unfold shouldUpdateOVNKonIPFamilyChange.
  destruct existingNode as [node|], existingMaster as [master|]; try by left.
  repeat case_bool_decide; simpl; try (by left); try (by right).
  destruct (daemonSetProgressing master false); [by right|by left].
Qed.

Lemma upgrade_shape `{Names} (compareVersions : string → string → versionChange)
    (existingNode existingMaster : option appsv1.DaemonSet) (releaseVersion : string) :
  shouldUpdateOVNKonUpgrade compareVersions existingNode existingMaster releaseVersion
  = (true, true)
  ∨ ((shouldUpdateOVNKonUpgrade compareVersions existingNode existingMaster releaseVersion
      = (true, false)
      ∨ shouldUpdateOVNKonUpgrade compareVersions existingNode existingMaster releaseVersion
        = (false, true))
     ∧ is_Some existingNode ∧ is_Some existingMaster).
Proof.
  unfold shouldUpdateOVNKonUpgrade.
  destruct existingNode as [node|], existingMaster as [master|]; try by left.
  repeat case_bool_decide; simpl; try (by left);
    repeat case_match; try (by left); right; (split; [by (left + right)|done]).
Qed.

Lemma prepull_shape `{Names} (existingNode prePuller : option appsv1.DaemonSet)
    (releaseVersion : string) :
  shouldUpdateOVNKonPrepull existingNode prePuller releaseVersion = (true, false)
  ∨ (shouldUpdateOVNKonPrepull existingNode prePuller releaseVersion = (false, true)
     ∧ is_Some existingNode).
Proof.
  unfold shouldUpdateOVNKonPrepull.
  destruct existingNode as [node|]; [|by left].
  repeat case_bool_decide; repeat case_match; try (by left); by right.
Qed.

(** X3: every pass permits something: when both tiers are withheld, the
    prepull daemonset is rendered; and the prepull daemonset is rendered
    only while the node tier is withheld. *)
Theorem rolloutDecision_progress `{Names}
    (compareVersions : string → string → versionChange)
    (existingNode existingMaster prePuller : option appsv1.DaemonSet)
    (serviceNetwork : list string) (releaseVersion : string) :
  let d :=
    rolloutDecision compareVersions existingNode existingMaster prePuller serviceNetwork
      releaseVersion in
  updateNode d || updateMaster d || renderPrePull d = true
  ∧ (renderPrePull d = true → updateNode d = false).
Proof.
  unfold rolloutDecision.
  destruct (gate_shape existingNode existingMaster (ipFamilyModeOf serviceNetwork))
    as [-> | [-> _]]; simpl; [|done].
  destruct (upgrade_shape compareVersions existingNode existingMaster releaseVersion)
    as [-> | [[-> | ->] _]]; simpl; try done;
    destruct (prepull_shape existingNode prePuller releaseVersion) as [-> | [-> _]];
    simpl; done.
Qed.

(** X4: a tier is withheld only if its daemonset exists, so the object put
    back in place of the rendered one is never nil; the master is withheld
    only if the node daemonset exists too. *)
Theorem rolloutDecision_withheld_exists `{Names}
    (compareVersions : string → string → versionChange)
    (existingNode existingMaster prePuller : option appsv1.DaemonSet)
    (serviceNetwork : list string) (releaseVersion : string) :
  let d :=
    rolloutDecision compareVersions existingNode existingMaster prePuller serviceNetwork
      releaseVersion in
  (updateNode d = false → is_Some existingNode)
  ∧ (updateMaster d = false → is_Some existingNode ∧ is_Some existingMaster).
Proof.
  unfold rolloutDecision.
  destruct (gate_shape existingNode existingMaster (ipFamilyModeOf serviceNetwork))
    as [-> | (-> & Hn & Hm)]; simpl; [|done].
  destruct (upgrade_shape compareVersions existingNode existingMaster releaseVersion)
    as [-> | [[-> | ->] [Hn Hm]]]; simpl; try done;
    destruct (prepull_shape existingNode prePuller releaseVersion) as [-> | [-> Hn']];
    simpl; done.
Qed.

Lemma rolloutDecision_withheld_exists_witness :
  let node := example_ds "ovnkube-node" "4.10.0" "single-stack" false 3 3 in
  let master := example_ds "ovnkube-master" "4.10.0" "single-stack" false 3 3 in
  is_Some (Some node).
Proof.
  intros node master.
  apply (proj1 (rolloutDecision_withheld_exists (H := example_names) compareVersions_spec
                  (Some node) (Some master) None [ "172.30.0.0/16" ] "4.11.0")).
  reflexivity.
Defined.

(** X5: the order of an upgrade and of a downgrade, on tiers not both at
    the release version.  While the master needs an upgrade and the node
    daemonset is at or below the release version, the master is updated
    only once the node daemonset is at the release version and its rollout
    is over (or hung near its end); while the node needs a downgrade and
    the master is at or above the release version, the node is updated
    only once the master is at the release version and its rollout is
    over. *)
Theorem shouldUpdateOVNKonUpgrade_order `{Names}
    (compareVersions : string → string → versionChange)
    (node master : appsv1.DaemonSet) (releaseVersion : string) :
  let nodeVersion := index (appsv1.Annotations node) "release.openshift.io/version" in
  let masterVersion := index (appsv1.Annotations master) "release.openshift.io/version" in
  let nodeDelta := compareVersions nodeVersion releaseVersion in
  let masterDelta := compareVersions masterVersion releaseVersion in
  let r := shouldUpdateOVNKonUpgrade compareVersions (Some node) (Some master) releaseVersion in
  ¬ (nodeVersion = releaseVersion ∧ masterVersion = releaseVersion) →
  (masterDelta = versionUpgrade → nodeDelta = versionUpgrade ∨ nodeDelta = versionSame →
   r.2 = true → nodeDelta = versionSame ∧ daemonSetProgressing node true = false)
  ∧ (nodeDelta = versionDowngrade →
     masterDelta = versionDowngrade ∨ masterDelta = versionSame →
     r.1 = true → masterDelta = versionSame ∧ daemonSetProgressing master false = false).
Proof.
  intros nodeVersion masterVersion nodeDelta masterDelta r Hne.
  unfold r, shouldUpdateOVNKonUpgrade.
  fold nodeVersion masterVersion. fold nodeDelta masterDelta.
  assert (Hb : bool_decide (nodeVersion = releaseVersion)
               && bool_decide (masterVersion = releaseVersion) = false).
  { repeat case_bool_decide; simpl; try done. tauto. }
  rewrite Hb. cbv zeta. split.
  - intros -> [-> | ->]; simpl; [done|].
    destruct (daemonSetProgressing node true); simpl; done.
  - intros -> [-> | ->]; simpl; [done|].
    destruct (daemonSetProgressing master false); simpl; done.
Qed.

Lemma shouldUpdateOVNKonUpgrade_order_witness :
  let node := example_ds "ovnkube-node" "4.11.0" "single-stack" false 3 3 in
  let master := example_ds "ovnkube-master" "4.10.0" "single-stack" false 3 3 in
  compareVersions_spec "4.11.0" "4.11.0" = versionSame
  ∧ daemonSetProgressing (H := example_names) node true = false.
Proof.
  intros node master.
  apply (proj1 (shouldUpdateOVNKonUpgrade_order (H := example_names) compareVersions_spec
                  node master "4.11.0" ltac:(vm_compute; intros [_ E]; discriminate E))).
  - reflexivity.
  - right. reflexivity.
  - reflexivity.
Defined.

(** ** Discovery of the masters *)

Lemma pollLoop_discovery (kubeClient : KubeClient) (n : Z) (attempts : nat)
    (calls calls' : nat) (items items' : list corev1.Node) (r : option pollError) :
  pollLoop attempts (discoveryCondition kubeClient n) (calls, items) = (r, (calls', items')) →
  (items' = items ∨ ∃ c, listMasterNodes kubeClient c = inr items')
  ∧ (r = None →
     Z.of_nat (length items') = n ∧ 0 < n
     ∧ ∃ c, listMasterNodes kubeClient c = inr items')
  ∧ ((∀ e, r ≠ Some (ConditionError e)) → attempts ≠ O →
     ∃ c, listMasterNodes kubeClient c = inr items').
Proof.
  revert calls items. induction attempts as [|k IH]; intros calls items; simpl.
  - intros [= <- <- <-]. split_and!; [by left|done|done].
  - destruct (listMasterNodes kubeClient calls) as [e|nodes] eqn:Hl.
    + intros [= <- <- <-]. split_and!; [by left|done|].
      intros Hne. by destruct (Hne e).
    + destruct (bool_decide (Z.of_nat (length nodes) ≠ 0)
                && bool_decide (n = Z.of_nat (length nodes))) eqn:Hc.
      * intros [= <- <- <-].
        apply andb_true_iff in Hc as [H1 H2].
        apply bool_decide_eq_true in H1, H2.
        split_and!; [right; by exists calls| |intros _ _; by exists calls].
        intros _. split_and!; [done|lia|by exists calls].
      * intros Hrec. apply IH in Hrec as (H1 & H2 & H3).
        split_and!.
        -- right. destruct H1 as [-> | H1]; [by exists calls|done].
        -- done.
        -- intros Hne _. destruct H1 as [-> | H1]; [by exists calls|done].
Qed.

(** X6: a discovery that ends before the deadline found exactly the
    expected number of masters, and at least one; with an expected count
    of zero or less (the replica count could not be read) no discovery ends
    before the deadline. *)
Theorem discovery_complete (kubeClient : KubeClient) (n timeout : Z) :
  let poll :=
    PollImmediate OVN_MASTER_DISCOVERY_POLL timeout (discoveryCondition kubeClient n) (O, []) in
  (poll.1 = None → Z.of_nat (length poll.2.2) = n ∧ 0 < n)
  ∧ (n ≤ 0 → poll.1 ≠ None).
Proof.
  intros poll.
  assert (Hp : poll.1 = None → Z.of_nat (length poll.2.2) = n ∧ 0 < n).
  { unfold poll, PollImmediate.
    destruct (pollLoop _ _ _) as [r [calls' items']] eqn:Hpoll.
    apply pollLoop_discovery in Hpoll as (_ & H2 & _). simpl. intros Hr.
    destruct (H2 Hr) as (? & ? & _). done. }
  split; [done|]. intros Hn Hr. apply Hp in Hr. lia.
Qed.

Lemma discovery_complete_witness :
  (PollImmediate OVN_MASTER_DISCOVERY_POLL 250 (discoveryCondition example_client 0)
     (O, [])).1 ≠ None.
Proof.
  apply (proj2 (discovery_complete example_client 0 250)). lia.
Defined.

Lemma discoverMasters_run (kubeClient : KubeClient) (n : Z) (s s' : BootState)
    (r : outcome (list corev1.Node)) :
  discoverMasters kubeClient n s = (r, s') →
  conf s' = conf s
  ∧ (OVN_MASTER_DISCOVERY_TIMEOUT s' = OVN_MASTER_DISCOVERY_TIMEOUT s
     ∨ (OVN_MASTER_DISCOVERY_TIMEOUT s' = OVN_MASTER_DISCOVERY_TIMEOUT s - 120
        ∧ 0 < OVN_MASTER_DISCOVERY_TIMEOUT s'))
  ∧ ∀ items, r = Ok items → ∃ c, listMasterNodes kubeClient c = inr items.
Proof.
  unfold discoverMasters, PollImmediate.
  destruct (pollLoop _ _ _) as [e [calls items]] eqn:Hpoll.
  apply pollLoop_discovery in Hpoll as (_ & _ & H3).
  destruct e as [[|e]|].
  - unfold OVN_MASTER_DISCOVERY_BACKOFF.
    destruct (Z.ltb_spec 0 (OVN_MASTER_DISCOVERY_TIMEOUT s - 120));
      intros [= <- <-]; simpl; (split_and!; [done| |]);
      try (by left); try (right; lia);
      intros items' [= <-]; by apply H3.
  - intros [= <- <-]. split_and!; [done|by left|done].
  - intros [= <- <-]. split_and!; [done|by left|].
    intros items' [= <-]. by apply H3.
Qed.

(** ** The addresses of the masters *)

Lemma masterIPs_inr (items : list corev1.Node) (ips : list string) :
  masterIPs items = inr ips →
  ips = map (λ node, internalIP (corev1.Addresses node)) items
  ∧ Forall (λ ip, ip ≠ "") ips.
Proof.
  revert ips. induction items as [|node items IH]; intros ips; simpl.
  - intros [= <-]. by split.
  - case_bool_decide as Hip; [done|].
    destruct (masterIPs items) as [e|ips'] eqn:Hm; [done|].
    intros [= <-]. destruct (IH ips' eq_refl) as [-> Hall].
    split; [done|]. by constructor.
Qed.

(** X7: the addresses of the masters are the first internal address of
    each node, in order, none of them empty; the loop fails exactly when a
    node has none, with an error naming the first such node. *)
Theorem masterIPs_spec (items : list corev1.Node) :
  match masterIPs items with
  | inr ips =>
      ips = map (λ node, internalIP (corev1.Addresses node)) items
      ∧ Forall (λ ip, ip ≠ "") ips
  | inl e =>
      ∃ (before : list corev1.Node) (node : corev1.Node) (after : list corev1.Node),
        items = before ++ node :: after
        ∧ Forall (λ n, internalIP (corev1.Addresses n) ≠ "") before
        ∧ internalIP (corev1.Addresses node) = ""
        ∧ e = "No InternalIP found on master node '" +:+ corev1.Name node +:+ "'"
  end.
Proof.
  destruct (masterIPs items) as [e|ips] eqn:Hm; [|by apply masterIPs_inr].
  revert e Hm. induction items as [|node items IH]; intros e; simpl; [done|].
  case_bool_decide as Hip.
  - intros [= <-]. exists [], node, items. by split_and!.
  - destruct (masterIPs items) as [e'|ips'] eqn:Hm'; [|done].
    intros [= <-]. destruct (IH e' eq_refl) as (before & n & after & -> & Hall & Hn & ->).
    exists (node :: before), n, after. split_and!; try done. by constructor.
Qed.

(** ** Bootstrap as a whole *)

Section BootstrapProperties.
Context `{Names}.
Variable yamlUnmarshalReplicas : string → string + string.
Variable BootstrapInfra : KubeClient → string + bootstrap.InfraBootstrapResult.
Variable ParseDuration : string → string + Z.

(** X8: what a successful bootstrap returns.  The master addresses are
    sorted, none is empty and there is at least one; they are, up to their
    order, the internal addresses of the nodes of one listing; the
    initiator is one of them, and it is the one annotated on the
    configuration when bootstrap returns. *)
Theorem bootstrapOVN_result (kubeClient : KubeClient) (s s' : BootState)
    (res : bootstrap.BootstrapResult) :
  bootstrapOVN yamlUnmarshalReplicas BootstrapInfra ParseDuration kubeClient s = (Ok res, s') →
  let ovn := bootstrap.OVN res in
  Sorted string_le (bootstrap.MasterIPs ovn)
  ∧ bootstrap.MasterIPs ovn ≠ []
  ∧ Forall (λ ip, ip ≠ "") (bootstrap.MasterIPs ovn)
  ∧ (∃ (c : nat) (items : list corev1.Node),
       listMasterNodes kubeClient c = inr items
       ∧ bootstrap.MasterIPs ovn ≡ₚ map (λ node, internalIP (corev1.Addresses node)) items)
  ∧ bootstrap.ClusterInitiator ovn ∈ bootstrap.MasterIPs ovn
  ∧ index_ok (operv1.Annotations (conf s')) OVNRaftClusterInitiator
    = Some (bootstrap.ClusterInitiator ovn).
Proof.
  intros Hrun ovn.
  apply bootstrapOVN_steps in Hrun as (s1 & _ & [[_ Hne]|(n & rd & s2 & Hd & Hrest)]);
    [by destruct (Hne res)|].
  destruct Hrest as [[_ Hne]|(items & ips & ri & -> & Hips & Hel & Hres)];
    [by destruct (Hne res)|].
  destruct (Hres res eq_refl) as (-> & Hl & _).
  apply discoverMasters_run in Hd as (_ & _ & Hlist).
  destruct (Hlist items eq_refl) as [c Hc].
  apply masterIPs_inr in Hips as [Hmap Hall].
  unfold ovn. rewrite Hl.
  set (l := sort_Strings ips) in *.
  set (i := bootstrap.ClusterInitiator (bootstrap.OVN res)) in *.
  assert (Hann : ∀ a : StringMap,
            index_ok (annotate a OVNRaftClusterInitiator i) OVNRaftClusterInitiator = Some i).
  { intros [m|]; simpl; [apply lookup_insert_eq|apply lookup_singleton_eq]. }
  assert (Hne : l ≠ []).
  { intros E. rewrite E in Hel.
    unfold electInitiator in Hel. rewrite (bind_run get _ s2 s2 s2) in Hel by done.
    destruct (index_ok _ _); simpl in Hel; done. }
  assert (Hin : i ∈ l ∧ index_ok (operv1.Annotations (conf s')) OVNRaftClusterInitiator
                        = Some i).
  { destruct (index_ok (operv1.Annotations (conf s2)) OVNRaftClusterInitiator)
      as [c0|] eqn:Hc0.
    - destruct (decide (c0 ∈ l)) as [Hc0in|Hc0nin].
      + rewrite (electInitiator_keep l s2 c0 Hc0 Hc0in) in Hel.
        injection Hel as -> <-. done.
      + destruct l as [|x l']; [done|].
        rewrite electInitiator_reelect in Hel by (intros c' Hc'; congruence).
        injection Hel as -> <-. split; [apply list_elem_of_here|apply Hann].
    - destruct l as [|x l']; [done|].
      rewrite electInitiator_reelect in Hel by (intros c' Hc'; congruence).
      injection Hel as -> <-. split; [apply list_elem_of_here|apply Hann]. }
  split_and!.
  - apply sort_Strings_sorted.
  - done.
  - unfold l. by rewrite sort_Strings_perm.
  - exists c, items. split; [done|]. rewrite <- Hmap. apply sort_Strings_perm.
  - apply Hin.
  - apply Hin.
Qed.

(** X9: through any run of bootstrap, successful or not, the discovery
    deadline is kept or lowered by 120 seconds to a positive value: it
    never grows, and a positive deadline stays positive. *)
Theorem bootstrapOVN_deadline (kubeClient : KubeClient) (s s' : BootState)
    (r : outcome bootstrap.BootstrapResult) :
  bootstrapOVN yamlUnmarshalReplicas BootstrapInfra ParseDuration kubeClient s = (r, s') →
  (OVN_MASTER_DISCOVERY_TIMEOUT s' = OVN_MASTER_DISCOVERY_TIMEOUT s
   ∨ (OVN_MASTER_DISCOVERY_TIMEOUT s' = OVN_MASTER_DISCOVERY_TIMEOUT s - 120
      ∧ 0 < OVN_MASTER_DISCOVERY_TIMEOUT s'))
  ∧ (0 < OVN_MASTER_DISCOVERY_TIMEOUT s → 0 < OVN_MASTER_DISCOVERY_TIMEOUT s').
Proof.
  intros Hrun.
  assert (Hmain : OVN_MASTER_DISCOVERY_TIMEOUT s' = OVN_MASTER_DISCOVERY_TIMEOUT s
                  ∨ (OVN_MASTER_DISCOVERY_TIMEOUT s' = OVN_MASTER_DISCOVERY_TIMEOUT s - 120
                     ∧ 0 < OVN_MASTER_DISCOVERY_TIMEOUT s')).
  { apply bootstrapOVN_steps in Hrun as (s1 & H1 & Hrest).
    assert (Ht1 : OVN_MASTER_DISCOVERY_TIMEOUT s1 = OVN_MASTER_DISCOVERY_TIMEOUT s).
    { destruct H1 as [[r1 H1]| ->]; [|done].
      by apply bootstrapOVNConfig_run in H1 as (? & _). }
    destruct Hrest as [[-> _]|(n & rd & s2 & Hd & Hrest)]; [by left|].
    apply discoverMasters_run in Hd as (_ & Ht2 & _). rewrite Ht1 in Ht2.
    destruct Hrest as [[-> _]|(items & ips & ri & -> & _ & Hel & _)]; [done|].
    apply electInitiator_run in Hel as [-> | (i & _ & _ & -> & _)]; done. }
  split; [done|]. lia.
Qed.

End BootstrapProperties.

Lemma bootstrapOVN_result_witness :
  let s := example_state 250 (example_conf None None) in
  let run :=
    bootstrapOVN (H := example_names) example_yaml (example_infra false) example_duration
      example_client s in
  match run.1 with
  | Ok res => Sorted string_le (bootstrap.MasterIPs (bootstrap.OVN res))
  | _ => False
  end.
Proof.
  intros s run.
  destruct run as [r s'] eqn:Hrun. pose proof Hrun as Hrun'.
  vm_compute in Hrun'. injection Hrun' as <- _. simpl.
  apply (bootstrapOVN_result (H := example_names) example_yaml (example_infra false)
           example_duration example_client s s' _ Hrun).
Defined.

Lemma bootstrapOVN_deadline_witness :
  let s := example_state 250 (example_conf None None) in
  let run :=
    bootstrapOVN (H := example_names) example_yaml (example_infra false) example_duration
      example_client_no_masters s in
  0 < OVN_MASTER_DISCOVERY_TIMEOUT run.2.
Proof.
  intros s run. destruct run as [r s'] eqn:Hrun.
  apply (proj2 (bootstrapOVN_deadline (H := example_names) example_yaml
                  (example_infra false) example_duration example_client_no_masters
                  s s' r Hrun)).
  simpl. lia.
Defined.

(** ** The node mode and the gateway mode *)

(** X10: a configuration step that succeeds returns one of the three node
    modes, and leaves a gateway configuration set; when none was set on
    entry, traffic is routed via the host exactly when the
    [gateway-mode-config] map exists and says [local].  A failure to read
    the [dpu-mode-config] map, other than its absence, fails the step. *)
Theorem bootstrapOVNConfig_spec (kubeClient : KubeClient) (s s' : BootState)
    (r : outcome bootstrap.OVNConfigBoostrapResult) :
  bootstrapOVNConfig kubeClient s = (r, s') →
  (∀ cfg, r = Ok cfg →
     (bootstrap.NodeMode cfg = OVN_NODE_MODE_FULL
      ∨ bootstrap.NodeMode cfg = OVN_NODE_MODE_DPU_HOST
      ∨ bootstrap.NodeMode cfg = OVN_NODE_MODE_DPU)
     ∧ is_Some (gateway_of (conf s'))
     ∧ (gateway_of (conf s) = None →
        ∃ g, gateway_of (conf s') = Some g
             ∧ (operv1.RoutingViaHost g = true ↔
                ∃ cm, getGatewayModeConfig kubeClient = Found cm
                      ∧ index cm "mode" = OVN_LOCAL_GW_MODE)))
  ∧ (∀ e, getDpuModeConfig kubeClient = GetFailed e → ∀ cfg, r ≠ Ok cfg).
Proof.
  unfold bootstrapOVNConfig. rewrite (bind_run get _ s s s) by done.
  unfold gateway_of.
  destruct (operv1.OVNKubernetes (operv1.Spec (conf s))) as [oc|] eqn:Hoc;
    [|intros [= <- <-]; split; [done|]; intros; done].
  assert (Hmode : ∀ (s0 s1 : BootState) (r0 : outcome bootstrap.OVNConfigBoostrapResult),
            match getDpuModeConfig kubeClient with
            | Found cm =>
                if bool_decide (index cm "mode" ≠ OVN_NODE_MODE_DPU_HOST)
                   && bool_decide (index cm "mode" ≠ OVN_NODE_MODE_DPU)
                then mret {| bootstrap.NodeMode := OVN_NODE_MODE_FULL |}
                else mret {| bootstrap.NodeMode := index cm "mode" |}
            | NotFound _ => mret {| bootstrap.NodeMode := OVN_NODE_MODE_FULL |}
            | GetFailed e => fail ("Could not determine Node Mode: " +:+ e)
            end s0 = (r0, s1) →
            s1 = s0
            ∧ (∀ cfg, r0 = Ok cfg →
                 bootstrap.NodeMode cfg = OVN_NODE_MODE_FULL
                 ∨ bootstrap.NodeMode cfg = OVN_NODE_MODE_DPU_HOST
                 ∨ bootstrap.NodeMode cfg = OVN_NODE_MODE_DPU)
            ∧ (∀ e, getDpuModeConfig kubeClient = GetFailed e → ∀ cfg, r0 ≠ Ok cfg)).
  { intros s0 s1 r0.
    destruct (getDpuModeConfig kubeClient) as [cm|e|e].
    - repeat case_bool_decide; simpl; intros [= <- <-];
        (split_and!; [done| |done]); intros cfg [= <-]; simpl; tauto.
    - intros [= <- <-]. split_and!; [done| |done]. intros cfg [= <-]. by left.
    - intros [= <- <-]. split_and!; [done|done|]. intros e' _ cfg. done. }
  destruct (operv1.Gateway oc) as [g|] eqn:Hg.
  - rewrite (bind_run (mret tt) _ s s tt) by done.
    intros Hrun. apply Hmode in Hrun as (-> & Hm & Hf).
    split; [|done]. intros cfg Hr.
    split_and!; [by apply Hm|rewrite Hoc, Hg; by eexists|done].
  - intros Hrun. apply bind_inv in Hrun as [(u & s1 & Hgw & Hrun)|(r0 & Hgw & Hne)].
    + apply Hmode in Hrun as (-> & Hm & Hf).
      split; [|done]. intros cfg Hr.
      unfold bootstrapOVNGatewayConfig in Hgw.
      destruct (set_GatewayConfig _ (conf s)) as [c'|] eqn:Hset; [|done].
      inversion Hgw; subst. simpl.
      apply set_GatewayConfig_frame in Hset as (_ & _ & Hg').
      unfold gateway_of in Hg'.
      destruct (operv1.OVNKubernetes (operv1.Spec c')) as [oc'|]; [|done].
      split_and!; [by apply Hm|by rewrite Hg'|].
      intros _. eexists. split; [exact Hg'|]. simpl.
      rewrite bool_decide_eq_true.
      destruct (getGatewayModeConfig kubeClient) as [cm|e|e].
      * repeat case_bool_decide; simpl;
          (split; [intros E|intros (cm' & [= <-] & Hl)]);
          try done; try congruence; try (by exists cm).
      * split; [done|]. by intros (cm' & [=] & _).
      * split; [done|]. by intros (cm' & [=] & _).
    + split; [intros cfg ->; by destruct (Hne cfg)|]. intros e _ cfg ->.
      by destruct (Hne cfg).
Qed.

Lemma bootstrapOVNConfig_spec_witness :
  let s := example_state 250 (example_conf None None) in
  let run := bootstrapOVNConfig example_client s in
  (bootstrap.NodeMode {| bootstrap.NodeMode := "full" |} = OVN_NODE_MODE_FULL
   ∨ bootstrap.NodeMode {| bootstrap.NodeMode := "full" |} = OVN_NODE_MODE_DPU_HOST
   ∨ bootstrap.NodeMode {| bootstrap.NodeMode := "full" |} = OVN_NODE_MODE_DPU)
  ∧ is_Some (gateway_of (conf run.2)).
Proof.
  intros s run.
  pose proof (bootstrapOVNConfig_spec example_client s run.2 run.1 (surjective_pairing run))
    as [Hok _].
  destruct (Hok {| bootstrap.NodeMode := "full" |} eq_refl) as (Hmode & Hgateway & _).
  split; [exact Hmode|exact Hgateway].
Defined.

(** ** The flows configuration *)





(** ** Validation *)

Lemma existsb_elem {A} (f : A → bool) (l : list A) :
  existsb f l = true ↔ ∃ x, x ∈ l ∧ f x = true.
Proof.
  rewrite existsb_exists. split; intros (x & Hx & Hf); exists x; split; try done;
    by apply list_elem_of_In.
Qed.

Lemma existsb_or_negb_nil {A} (f : A → bool) (l : list A) :
  negb (existsb f l) && negb (existsb (λ x, negb (f x)) l) = true ↔ l = [].
Proof.
  destruct l as [|x l]; simpl; [done|]. split; [|done].
  destruct (f x); simpl; [done|]. by rewrite andb_false_r.
Qed.

Lemma if_singleton_nil {A} (b : bool) (x : A) :
  (if b then [x] else []) = [] → b = false.
Proof. by destruct b. Qed.

(** X12: a configuration that validation accepts has at least one cluster
    network, one service network or a pair of them of both IP families,
    the same IP families among cluster and service networks, an MTU, if
    set, from 576 to 65536 and a Geneve port, if set, from 1 to 65535. *)
Theorem validateOVNKubernetes_sound (IsIPv6CIDRString : string → bool)
    (conf : operv1.NetworkSpec) :
  validateOVNKubernetes IsIPv6CIDRString conf = [] →
  let v6 := IsIPv6CIDRString in
  let cn := operv1.CIDR <$> operv1.ClusterNetwork conf in
  let sn := operv1.ServiceNetwork conf in
  cn ≠ [] ∧ sn ≠ []
  ∧ ((∃ x, x ∈ cn ∧ v6 x = true) ↔ (∃ x, x ∈ sn ∧ v6 x = true))
  ∧ ((∃ x, x ∈ cn ∧ v6 x = false) ↔ (∃ x, x ∈ sn ∧ v6 x = false))
  ∧ (length sn = 1%nat
     ∨ (length sn = 2%nat ∧ (∃ x, x ∈ sn ∧ v6 x = true) ∧ (∃ x, x ∈ sn ∧ v6 x = false)))
  ∧ (∀ oc mtu, operv1.OVNKubernetes conf = Some oc → operv1.MTU oc = Some mtu →
       576 ≤ mtu ≤ 65536)
  ∧ (∀ oc port, operv1.OVNKubernetes conf = Some oc → operv1.GenevePort oc = Some port →
       1 ≤ port ≤ 65535).
Proof.
  unfold validateOVNKubernetes. cbv zeta. intros Hv.
  apply app_eq_nil in Hv as [H1 Hv]. apply app_eq_nil in Hv as [H2 Hv].
  apply app_eq_nil in Hv as [H3 Hv]. apply app_eq_nil in Hv as [H4 H5].
  apply if_singleton_nil in H1, H2, H3, H4.
  set (cnl := operv1.ClusterNetwork conf) in *.
  set (snl := operv1.ServiceNetwork conf) in *.
  set (c6 := existsb (λ cn, IsIPv6CIDRString (operv1.CIDR cn)) cnl) in *.
  set (c4 := existsb (λ cn, negb (IsIPv6CIDRString (operv1.CIDR cn))) cnl) in *.
  set (s6 := existsb (λ sn, IsIPv6CIDRString sn) snl) in *.
  set (s4 := existsb (λ sn, negb (IsIPv6CIDRString sn)) snl) in *.
  assert (Hcn6 : c6 = true ↔ ∃ x, x ∈ operv1.CIDR <$> cnl ∧ IsIPv6CIDRString x = true).
  { unfold c6. rewrite existsb_elem. split.
    - intros (e & He & Hf). exists (operv1.CIDR e). split; [|done].
      by apply list_elem_of_fmap_2.
    - intros (x & (e & -> & He)%list_elem_of_fmap & Hf). by exists e. }
  assert (Hcn4 : c4 = true ↔ ∃ x, x ∈ operv1.CIDR <$> cnl ∧ IsIPv6CIDRString x = false).
  { unfold c4. rewrite existsb_elem. split.
    - intros (e & He & Hf). exists (operv1.CIDR e). split; [|by apply negb_true_iff].
      by apply list_elem_of_fmap_2.
    - intros (x & (e & -> & He)%list_elem_of_fmap & Hf). exists e.
      split; [done|by apply negb_true_iff]. }
  assert (Hsn6 : s6 = true ↔ ∃ x, x ∈ snl ∧ IsIPv6CIDRString x = true).
  { apply existsb_elem. }
  assert (Hsn4 : s4 = true ↔ ∃ x, x ∈ snl ∧ IsIPv6CIDRString x = false).
  { unfold s4. rewrite existsb_elem. split; intros (x & Hx & Hf); exists x; split; try done;
      by apply negb_true_iff. }
  assert (E4 : c4 = s4) by (destruct c4, s4, c6, s6; done).
  assert (E6 : c6 = s6) by (destruct c4, s4, c6, s6; done).
  split_and!.
  - intros E. destruct cnl; [|done]. done.
  - intros E. unfold s6, s4 in H2. rewrite E in H2. done.
  - by rewrite <- Hcn6, <- Hsn6, E6.
  - by rewrite <- Hcn4, <- Hsn4, E4.
  - apply orb_false_iff in H4 as [Hle H4]. apply Z.ltb_ge in Hle.
    destruct snl as [|x [|y [|z snl']]] eqn:Esn; simpl in Hle; try lia.
    + done.
    + by left.
    + right. split; [done|]. simpl in H4.
      apply orb_false_iff in H4 as [H44 H46].
      apply negb_false_iff in H44, H46. split; [by apply Hsn6|by apply Hsn4].
  - intros oc mtu Hoc Hmtu. rewrite Hoc in H5. apply app_eq_nil in H5 as [H5 _].
    rewrite Hmtu in H5. apply if_singleton_nil in H5. lia.
  - intros oc port Hoc Hport. rewrite Hoc in H5. apply app_eq_nil in H5 as [_ H5].
    rewrite Hport in H5. apply if_singleton_nil in H5. lia.
Qed.

Lemma validateOVNKubernetes_sound_witness :
  length (operv1.ServiceNetwork (example_spec None)) = 1%nat
  ∨ (length (operv1.ServiceNetwork (example_spec None)) = 2%nat
     ∧ (∃ x, x ∈ operv1.ServiceNetwork (example_spec None) ∧ contains_colon x = true)
     ∧ (∃ x, x ∈ operv1.ServiceNetwork (example_spec None) ∧ contains_colon x = false)).
Proof.
  apply (validateOVNKubernetes_sound contains_colon (example_spec None)).
  reflexivity.
Defined.

(** ** Defaults *)

(** X13: after the defaults are filled, the OVN-Kubernetes configuration
    exists with an MTU, a Geneve port and a policy audit configuration
    whose four fields are set; every value that was set is kept, 6081 is
    the port otherwise, and the fields outside the OVN-Kubernetes
    configuration are untouched.  An unset MTU is taken from the previous
    configuration if it has one, else it is the host MTU less the
    encapsulation overhead, 100, or 146 with IPsec. *)
Theorem fillOVNKubernetesDefaults_spec (conf : operv1.NetworkSpec)
    (previous : option operv1.NetworkSpec) (hostMTU : Z) :
  ∃ (oc' : operv1.OVNKubernetesConfig) (pa' : operv1.PolicyAuditConfig),
    fillOVNKubernetesDefaults conf previous hostMTU = set_OVNKubernetes oc' conf
    ∧ operv1.PolicyAudit oc' = Some pa'
    ∧ is_Some (operv1.MTU oc') ∧ is_Some (operv1.GenevePort oc')
    ∧ is_Some (operv1.RateLimit pa') ∧ is_Some (operv1.MaxFileSize pa')
    ∧ operv1.Destination pa' ≠ "" ∧ operv1.SyslogFacility pa' ≠ ""
    ∧ (operv1.OVNKubernetes conf = None →
       operv1.GenevePort oc' = Some 6081 ∧ operv1.IPsecConfig oc' = None
       ∧ operv1.HybridOverlay oc' = None ∧ operv1.Gateway oc' = None)
    ∧ (∀ oc, operv1.OVNKubernetes conf = Some oc →
         operv1.HybridOverlay oc' = operv1.HybridOverlay oc
         ∧ operv1.IPsecConfig oc' = operv1.IPsecConfig oc
         ∧ operv1.Gateway oc' = operv1.Gateway oc
         ∧ (∀ m, operv1.MTU oc = Some m → operv1.MTU oc' = Some m)
         ∧ (∀ p, operv1.GenevePort oc = Some p → operv1.GenevePort oc' = Some p)
         ∧ (operv1.GenevePort oc = None → operv1.GenevePort oc' = Some 6081)
         ∧ (∀ m poc p, operv1.MTU oc = None → previous = Some p →
              operv1.OVNKubernetes p = Some poc → operv1.MTU poc = Some m →
              operv1.MTU oc' = Some m)
         ∧ (operv1.MTU oc = None → previous = None → 146 ≤ hostMTU < 2 ^ 32 →
            operv1.MTU oc'
            = Some (hostMTU - match operv1.IPsecConfig oc with
                              | Some _ => 146
                              | None => 100
                              end))).
Proof.
  unfold fillOVNKubernetesDefaults. cbv zeta.
  eexists _, _. split; [reflexivity|]. simpl.
  split_and!.
  - done.
  - repeat case_match; by eexists.
  - repeat case_match; by eexists.
  - repeat case_match; by eexists.
  - repeat case_match; by eexists.
  - destruct (operv1.PolicyAudit _) as [pa|]; simpl; try case_bool_decide; done.
  - destruct (operv1.PolicyAudit _) as [pa|]; simpl; try case_bool_decide; done.
  - intros ->. done.
  - intros oc ->. split_and!; try done.
    + by intros m ->.
    + by intros p ->.
    + by intros ->.
    + by intros m poc p -> -> -> ->.
    + intros -> -> Hh. unfold wrapU32.
      change ((100 + 46) mod 2 ^ 32) with 146.
      destruct (operv1.IPsecConfig oc); f_equal;
        rewrite (Z.mod_small hostMTU) by lia; rewrite Z.mod_small; lia.
Qed.

(** X14: filling the defaults twice is filling them once, whatever the
    previous configuration and the host MTU of the second call are. *)
Theorem fillOVNKubernetesDefaults_idempotent (conf : operv1.NetworkSpec)
    (previous previous' : option operv1.NetworkSpec) (hostMTU hostMTU' : Z) :
  fillOVNKubernetesDefaults (fillOVNKubernetesDefaults conf previous hostMTU) previous'
    hostMTU'
  = fillOVNKubernetesDefaults conf previous hostMTU.
Proof.
  unfold fillOVNKubernetesDefaults at 1. cbv zeta.
  destruct (fillOVNKubernetesDefaults_spec conf previous hostMTU)
    as (oc' & pa' & -> & Hpa & [m Hm] & [g Hg] & [rl Hrl] & [mf Hmf] & Hd & Hs & _).
  unfold set_OVNKubernetes at 1 2 3 4 5 6 7; simpl.
  rewrite Hpa, Hm, Hg, Hrl, Hmf.
  rewrite !bool_decide_eq_false_2 by done.
  unfold set_OVNKubernetes. simpl. f_equal. f_equal.
  destruct oc' as [? ? ? ? ? ?], pa'; simpl in *. by subst.
Qed.

(** ** Changes of immutable fields *)

(** X15: between two configurations that both have an OVN-Kubernetes
    section, without MTU migration requested, a change is accepted
    exactly when the MTU, the Geneve port, the hybrid overlay and the
    presence of IPsec are the same on both sides: nothing else is looked
    at.  Without the section on either side the check panics. *)
Theorem isOVNKubernetesChangeSafe_spec (prev next : operv1.NetworkSpec) :
  (∀ m, operv1.Migration next = Some m → operv1.MigrationMTU m = None) →
  (∀ pn nn : operv1.OVNKubernetesConfig,
     operv1.OVNKubernetes prev = Some pn → operv1.OVNKubernetes next = Some nn →
     (∃ errs, isOVNKubernetesChangeSafe prev next = Ok errs)
     ∧ (isOVNKubernetesChangeSafe prev next = Ok [] ↔
        operv1.MTU pn = operv1.MTU nn
        ∧ operv1.GenevePort pn = operv1.GenevePort nn
        ∧ operv1.HybridOverlay pn = operv1.HybridOverlay nn
        ∧ operv1.IPsecConfig pn = operv1.IPsecConfig nn))
  ∧ (operv1.OVNKubernetes prev = None ∨ operv1.OVNKubernetes next = None →
     isOVNKubernetesChangeSafe prev next = Panic NilDereference).
Proof.
  intros Hmig. unfold isOVNKubernetesChangeSafe. cbv zeta.
  assert (Hm : match operv1.Migration next with
               | Some m => operv1.MigrationMTU m
               | None => None
               end = None).
  { destruct (operv1.Migration next) as [m|]; [by apply Hmig|done]. }
  rewrite Hm. split.
  - intros pn nn -> ->. split.
    + case_bool_decide; by eexists.
    + destruct (operv1.HybridOverlay pn) as [hp|] eqn:Ehp,
        (operv1.HybridOverlay nn) as [hn|] eqn:Ehn,
        (operv1.IPsecConfig pn) as [[]|] eqn:Eip,
        (operv1.IPsecConfig nn) as [[]|] eqn:Ein;
        repeat case_bool_decide; simpl; split;
        try (intros [=]); try (intros (? & ? & ? & ?)); try done; try congruence.
  - intros [-> | ->]; [done|]. by destruct (operv1.OVNKubernetes prev).
Qed.

Lemma isOVNKubernetesChangeSafe_spec_witness :
  isOVNKubernetesChangeSafe (example_spec None)
    (example_spec (Some {| operv1.RoutingViaHost := true |})) = Ok [].
Proof.
  apply (proj1 (isOVNKubernetesChangeSafe_spec (example_spec None)
                  (example_spec (Some {| operv1.RoutingViaHost := true |}))
                  ltac:(intros m [=]))
           (example_ovn_config None)
           (example_ovn_config (Some {| operv1.RoutingViaHost := true |}))
           eq_refl eq_refl).
  by split_and!.
Defined.

(** X16: the acceptance of an MTU migration.  When the next configuration
    requests a migration with all its values, and no migration was
    requested before, the change is accepted exactly when the migration
    starts from the MTU currently applied, the target machine MTU leaves
    room for the target network MTU and the encapsulation overhead, and the
    Geneve port, the hybrid overlay and the presence of IPsec are
    unchanged; the MTU of the configuration itself may then change.  A
    migration that lacks one of its values is never accepted. *)
Theorem isOVNKubernetesChangeSafe_migration (prev next : operv1.NetworkSpec)
    (pn nn : operv1.OVNKubernetesConfig) (m : operv1.NetworkMigration)
    (mm : operv1.MTUMigration) :
  operv1.OVNKubernetes prev = Some pn → operv1.OVNKubernetes next = Some nn →
  operv1.Migration next = Some m → operv1.MigrationMTU m = Some mm →
  (∀ (net mach : operv1.MTUMigrationValues) (from to machTo cur : Z),
     operv1.Network_ mm = Some net → operv1.Machine mm = Some mach →
     operv1.From net = Some from → operv1.To net = Some to →
     operv1.To mach = Some machTo →
     operv1.Migration prev = None → operv1.MTU pn = Some cur →
     (isOVNKubernetesChangeSafe prev next = Ok [] ↔
      from = cur
      ∧ wrapU32 (to + match operv1.IPsecConfig nn with
                      | Some _ => 146
                      | None => 100
                      end) ≤ machTo
      ∧ operv1.GenevePort pn = operv1.GenevePort nn
      ∧ operv1.HybridOverlay pn = operv1.HybridOverlay nn
      ∧ operv1.IPsecConfig pn = operv1.IPsecConfig nn))
  ∧ (operv1.Network_ mm = None ∨ operv1.Machine mm = None
     ∨ (∃ net, operv1.Network_ mm = Some net
               ∧ (operv1.From net = None ∨ operv1.To net = None))
     ∨ (∃ mach, operv1.Machine mm = Some mach ∧ operv1.To mach = None) →
     ∃ errs,
       isOVNKubernetesChangeSafe prev next
       = Ok ("invalid Migration.MTU, at least one of the required fields is missing"
             :: errs)).
Proof.
  intros Hpn Hnn Hm Hmm. unfold isOVNKubernetesChangeSafe. cbv zeta.
  rewrite Hm, Hmm, Hpn, Hnn. split.
  - intros net mach from to machTo cur Hnet Hmach Hfrom Hto HmachTo Hprev Hcur.
    unfold checkMTUMigration, getOVNEncapOverhead.
    rewrite Hnet, Hmach, Hfrom, Hto, HmachTo, Hprev, Hpn, Hcur, Hnn.
    change (wrapU32 (100 + 46)) with 146.
    destruct (operv1.HybridOverlay pn) as [hp|] eqn:Ehp,
      (operv1.HybridOverlay nn) as [hn|] eqn:Ehn,
      (operv1.IPsecConfig pn) as [[]|] eqn:Eip,
      (operv1.IPsecConfig nn) as [[]|] eqn:Ein;
      repeat case_bool_decide; simpl;
      repeat (match goal with |- context [Z.ltb ?a ?b] => destruct (Z.ltb_spec a b) end);
      simpl; split;
      try (intros [=]); try (intros (? & ? & ? & ? & ?)); try done; try congruence;
      try lia.
  - intros Hmissing. unfold checkMTUMigration.
    destruct (operv1.Network_ mm) as [net|] eqn:Hnet,
      (operv1.Machine mm) as [mach|] eqn:Hmach; try by eexists.
    destruct (operv1.From net) as [from|] eqn:Hfrom,
      (operv1.To net) as [to|] eqn:Hto,
      (operv1.To mach) as [machTo|] eqn:HmachTo; try by eexists.
    exfalso. destruct Hmissing as [?|[?|[(net' & [= <-] & [?|?])|(mach' & [= <-] & ?)]]];
      congruence.
Qed.

Lemma isOVNKubernetesChangeSafe_migration_witness :
  let mm :=
    {| operv1.Network_ := Some {| operv1.From := Some 1400; operv1.To := Some 1300 |};
       operv1.Machine := None |} in
  let m := {| operv1.MigrationMTU := Some mm |} in
  let next :=
    {| operv1.ClusterNetwork := operv1.ClusterNetwork (example_spec None);
       operv1.ServiceNetwork := operv1.ServiceNetwork (example_spec None);
       operv1.OVNKubernetes := Some (example_ovn_config None);
       operv1.Migration := Some m;
       operv1.DeployKubeProxy := None;
       operv1.ExportFlows := None |} in
  ∃ errs,
    isOVNKubernetesChangeSafe (example_spec None) next
    = Ok ("invalid Migration.MTU, at least one of the required fields is missing" :: errs).
Proof.
  intros mm m next.
  apply (proj2 (isOVNKubernetesChangeSafe_migration (example_spec None) next
                  (example_ovn_config None) (example_ovn_config None) m mm
                  eq_refl eq_refl eq_refl eq_refl)).
  right. left. reflexivity.
Defined.

(** ** Lists written as strings *)

Lemma append_cons (x : Ascii.ascii) (a b : string) :
  String x a +:+ b = String x (a +:+ b).
Proof. reflexivity. Qed.

Lemma append_assoc (a b c : string) : (a +:+ b) +:+ c = a +:+ (b +:+ c).
Proof.
  induction a as [|x a IH]; [done|]. rewrite !append_cons. by f_equal.
Qed.

Lemma append_nil_r (a : string) : a +:+ "" = a.
Proof. induction a as [|x a IH]; [done|]. rewrite append_cons. by f_equal. Qed.

Lemma length_append (a b : string) :
  String.length (a +:+ b) = (String.length a + String.length b)%nat.
Proof.
  induction a as [|x a IH]; [done|]. rewrite append_cons. simpl. by f_equal.
Qed.

Lemma TrimSuffix_comma_append (s : string) : TrimSuffix_comma (s +:+ ",") = s.
Proof.
  induction s as [|c s IH]; [done|].
  rewrite append_cons. cbn [TrimSuffix_comma]. rewrite IH.
  destruct s; reflexivity.
Qed.

Lemma foldl_append_from {A} (f : A → string) (acc : string) (l : list A) :
  foldl (λ a v, a +:+ f v) acc l = acc +:+ foldl (λ a v, a +:+ f v) "" l.
Proof.
  revert acc. induction l as [|x l IH]; intros acc; cbn [foldl].
  - by rewrite append_nil_r.
  - rewrite (IH (acc +:+ f x)), (IH ("" +:+ f x)).
    change ("" +:+ f x) with (f x). by rewrite append_assoc.
Qed.

Lemma concat_cons2 (sep x y : string) (l : list string) :
  String.concat sep (x :: y :: l) = x +:+ (sep +:+ String.concat sep (y :: l)).
Proof. reflexivity. Qed.

Lemma concat_cons_comma (x : string) (l : list string) :
  String.concat "," (x :: l) +:+ ","
  = (x +:+ ",") +:+ foldl (λ a v, a +:+ (v +:+ ",")) "" l.
Proof.
  revert x. induction l as [|y l IH]; intros x.
  - cbn [String.concat foldl]. by rewrite append_nil_r.
  - rewrite concat_cons2, !append_assoc, IH.
    cbn [foldl]. change ("" +:+ (y +:+ ",")) with (y +:+ ",").
    rewrite (foldl_append_from (λ v, v +:+ ",") (y +:+ ",")).
    by rewrite !append_assoc.
Qed.

(** X17: the collectors of a flow exporter, written one by one with a
    trailing comma and trimmed, are the collectors joined by commas: empty
    for no collector, with no comma lost or added otherwise. *)
Theorem collectorList_join (collectors : list string) :
  collectorList collectors = String.concat "," collectors.
Proof.
  unfold collectorList. destruct collectors as [|x l]; [done|].
  cbn [foldl]. change ("" +:+ (x +:+ ",")) with (x +:+ ",").
  rewrite (foldl_append_from (λ v, v +:+ ",") (x +:+ ",")).
  rewrite <- concat_cons_comma.
  apply TrimSuffix_comma_append.
Qed.

Lemma ippools_from (acc : string) (nets : list operv1.ClusterNetworkEntry) :
  acc ≠ "" →
  foldl (λ acc net,
           (if bool_decide (String.length acc ≠ 0%nat) then acc +:+ "," else acc)
           +:+ (operv1.CIDR net +:+ "/" +:+ pretty (operv1.HostPrefix net)))
        acc nets
  = String.concat ","
      (acc :: map (λ net, operv1.CIDR net +:+ "/" +:+ pretty (operv1.HostPrefix net)) nets).
Proof.
  revert acc. induction nets as [|net nets IH]; intros acc Hacc; [done|].
  cbn [foldl map].
  assert (Hlen : String.length acc ≠ 0%nat) by (by destruct acc).
  rewrite (bool_decide_eq_true_2 _ Hlen).
  rewrite IH.
  - rewrite (concat_cons2 "," acc).
    set (f := λ net : operv1.ClusterNetworkEntry,
               operv1.CIDR net +:+ "/" +:+ pretty (operv1.HostPrefix net)).
    destruct (map f nets) as [|y ys].
    + cbn [String.concat]. by rewrite append_assoc.
    + rewrite !concat_cons2. by rewrite !append_assoc.
  - intros E. apply (f_equal String.length) in E.
    rewrite !length_append in E. simpl in E. lia.
Qed.

(** X18: the cluster networks are written as [CIDR/prefix] entries joined
    by commas. *)
Theorem ippools_join (nets : list operv1.ClusterNetworkEntry) :
  ippools nets
  = String.concat ","
      (map (λ net, operv1.CIDR net +:+ "/" +:+ pretty (operv1.HostPrefix net)) nets).
Proof.
  unfold ippools. destruct nets as [|net nets]; [done|].
  cbn [foldl map].
  rewrite (bool_decide_eq_false_2 (String.length "" ≠ 0%nat)) by (by intros []).
  change ("" +:+ ?x) with x.
  apply ippools_from.
  intros E. apply (f_equal String.length) in E. rewrite !length_append in E.
  simpl in E. lia.
Qed.

(** ** The annotation of the daemonsets *)

Lemma annotate_lookup (anno : StringMap) (key value : string) :
  annotation (annotate anno key value) key = Some value
  ∧ ∀ k, k ≠ key → annotation (annotate anno key value) k = annotation anno k.
Proof.
  destruct anno as [m|]; simpl.
  - split; [apply lookup_insert_eq|]. intros k Hk. by apply lookup_insert_ne.
  - split; [apply lookup_singleton_eq|]. intros k Hk. by apply lookup_singleton_ne.
Qed.

Lemma annotate_idempotent (anno : StringMap) (key value : string) :
  annotate (annotate anno key value) key value = annotate anno key value.
Proof.
  destruct anno as [m|]; simpl; f_equal.
  - apply insert_insert_eq.
  - apply insert_singleton_eq.
Qed.

Lemma annotateDaemonset_other (obj : uns.Unstructured) (key value : string) :
  ovnDaemonset obj = false → annotateDaemonset obj key value = (obj, None).
Proof. unfold annotateDaemonset, ovnDaemonset. by intros ->. Qed.

Lemma annotateDaemonset_ovn (obj : uns.Unstructured) (key value : string) :
  ovnDaemonset obj = true →
  ∃ obj', (annotateDaemonset obj key value).1 = obj'
    ∧ ovnDaemonset obj' = true
    ∧ uns.Namespace obj' = uns.Namespace obj ∧ uns.Name obj' = uns.Name obj
    ∧ uns.Content obj' = uns.Content obj
    ∧ uns.Annotations obj' = annotate (uns.Annotations obj) key value
    ∧ match uns.Template obj with
      | uns.TemplateAnnotations t =>
          (annotateDaemonset obj key value).2 = None
          ∧ uns.Template obj' = uns.TemplateAnnotations (annotate t key value)
      | uns.TemplateBlocked e =>
          (annotateDaemonset obj key value).2 = Some e
          ∧ uns.Template obj' = uns.TemplateBlocked e
      end.
Proof.
  intros Hovn. unfold annotateDaemonset. fold (ovnDaemonset obj). rewrite Hovn.
  destruct (uns.Template obj) as [e|t] eqn:Ht; eexists; (split; [reflexivity|]);
    simpl; split_and!; try done.
Qed.

(** X19: an annotation that succeeds keeps the objects in their places;
    the master and node daemonsets of [apps/v1] carry the key with the
    value on the object and on its pod template, their other annotations
    and their contents as before, and every other object is untouched. *)
Theorem setOVNDaemonsetAnnotation_spec (objs objs' : list uns.Unstructured)
    (key value : string) :
  setOVNDaemonsetAnnotation objs key value = (objs', None) →
  Forall2 (λ obj obj',
             if ovnDaemonset obj then
               ovnDaemonset obj' = true
               ∧ uns.Namespace obj' = uns.Namespace obj
               ∧ uns.Name obj' = uns.Name obj
               ∧ uns.Content obj' = uns.Content obj
               ∧ annotation (uns.Annotations obj') key = Some value
               ∧ templateAnnotation obj' key = Some value
               ∧ ∀ k, k ≠ key →
                   annotation (uns.Annotations obj') k = annotation (uns.Annotations obj) k
                   ∧ templateAnnotation obj' k = templateAnnotation obj k
             else obj' = obj)
          objs objs'.
Proof.
  revert objs'. induction objs as [|obj rest IH]; intros objs' Hrun; simpl in Hrun.
  - injection Hrun as <-. constructor.
  - destruct (ovnDaemonset obj) eqn:Hovn.
    + destruct (annotateDaemonset_ovn obj key value Hovn)
        as (obj1 & Hobj1 & Hovn1 & Hns & Hname & Hcontent & Hanno & Htmpl).
      destruct (annotateDaemonset obj key value) as [obj2 err]. simpl in *. subst obj2.
      destruct (uns.Template obj) as [e|t] eqn:Ht; destruct Htmpl as [-> Htmpl]; [done|].
      destruct (setOVNDaemonsetAnnotation rest key value) as [rest' err'].
      injection Hrun as <- ->. constructor; [|by apply IH].
      rewrite Hovn. unfold templateAnnotation. rewrite Htmpl, Hanno, Ht.
      split_and!; try done; try apply annotate_lookup.
      intros k Hk. split; by apply annotate_lookup.
    + rewrite (annotateDaemonset_other obj key value Hovn) in Hrun.
      destruct (setOVNDaemonsetAnnotation rest key value) as [rest' err'].
      injection Hrun as <- ->. constructor; [|by apply IH]. by rewrite Hovn.
Qed.

Lemma setOVNDaemonsetAnnotation_spec_witness :
  Forall2 (λ obj obj',
             if ovnDaemonset obj then
               ovnDaemonset obj' = true
               ∧ uns.Namespace obj' = uns.Namespace obj
               ∧ uns.Name obj' = uns.Name obj
               ∧ uns.Content obj' = uns.Content obj
               ∧ annotation (uns.Annotations obj') "mode" = Some "dual-stack"
               ∧ templateAnnotation obj' "mode" = Some "dual-stack"
               ∧ ∀ k, k ≠ "mode" →
                   annotation (uns.Annotations obj') k = annotation (uns.Annotations obj) k
                   ∧ templateAnnotation obj' k = templateAnnotation obj k
             else obj' = obj)
          [ ToUnstructured (example_ds "ovnkube-node" "4.10.0" "single-stack" false 3 3) ]
          (setOVNDaemonsetAnnotation
             [ ToUnstructured (example_ds "ovnkube-node" "4.10.0" "single-stack" false 3 3) ]
             "mode" "dual-stack").1.
Proof.
  apply (setOVNDaemonsetAnnotation_spec
           [ ToUnstructured (example_ds "ovnkube-node" "4.10.0" "single-stack" false 3 3) ]
           _ "mode" "dual-stack").
  reflexivity.
Defined.

(** X20: an annotation that fails stopped at a master or node daemonset
    whose pod template cannot be set, with the error of the setter.  The
    objects before it are annotated, that object has its own annotation
    already written, and the objects after it are as they were. *)
Theorem setOVNDaemonsetAnnotation_error (objs objs' : list uns.Unstructured)
    (key value e : string) :
  setOVNDaemonsetAnnotation objs key value = (objs', Some e) →
  ∃ (before after : list uns.Unstructured) (obj : uns.Unstructured),
    objs = before ++ obj :: after
    ∧ ovnDaemonset obj = true
    ∧ uns.Template obj = uns.TemplateBlocked e
    ∧ objs' = (setOVNDaemonsetAnnotation before key value).1
              ++ withAnnotations (annotate (uns.Annotations obj) key value) obj :: after
    ∧ (setOVNDaemonsetAnnotation before key value).2 = None.
Proof.
  revert objs'. induction objs as [|obj rest IH]; intros objs' Hrun; simpl in Hrun; [done|].
  destruct (ovnDaemonset obj) eqn:Hovn.
  - destruct (annotateDaemonset_ovn obj key value Hovn)
      as (obj1 & Hobj1 & Hovn1 & Hns & Hname & Hcontent & Hanno & Htmpl).
    assert (Hshape : ∀ t, uns.Template obj1 = t →
              obj1 = {| uns.APIVersion := uns.APIVersion obj1; uns.Kind := uns.Kind obj1;
                        uns.Namespace := uns.Namespace obj; uns.Name := uns.Name obj;
                        uns.Annotations := annotate (uns.Annotations obj) key value;
                        uns.Template := t; uns.Content := uns.Content obj |}).
    { intros t <-. rewrite <- Hns, <- Hname, <- Hcontent, <- Hanno. by destruct obj1. }
    destruct (annotateDaemonset obj key value) as [obj2 err] eqn:Hann.
    simpl in *. subst obj2.
    destruct (uns.Template obj) as [e0|t] eqn:Ht; destruct Htmpl as [-> Htmpl].
    + injection Hrun as <- <-. exists [], rest, obj. split_and!; try done.
      simpl. f_equal. unfold annotateDaemonset in Hann. fold (ovnDaemonset obj) in Hann.
      rewrite Hovn, Ht in Hann. injection Hann as <-. unfold withAnnotations. by rewrite Ht.
    + destruct (setOVNDaemonsetAnnotation rest key value) as [rest' err'] eqn:Hrest.
      injection Hrun as <- ->.
      destruct (IH rest' eq_refl) as (before & after & x & -> & Hx & Hxt & -> & Hb).
      exists (obj :: before), after, x. split_and!; try done.
      * simpl. rewrite Hann.
        destruct (setOVNDaemonsetAnnotation before key value) as [b' eb]. simpl in *.
        by subst eb.
      * simpl. rewrite Hann.
        destruct (setOVNDaemonsetAnnotation before key value) as [b' eb]. simpl in *.
        by subst eb.
  - rewrite (annotateDaemonset_other obj key value Hovn) in Hrun.
    destruct (setOVNDaemonsetAnnotation rest key value) as [rest' err'] eqn:Hrest.
    injection Hrun as <- ->.
    destruct (IH rest' eq_refl) as (before & after & x & -> & Hx & Hxt & -> & Hb).
    exists (obj :: before), after, x. split_and!; try done.
    + simpl. rewrite (annotateDaemonset_other obj key value Hovn).
      destruct (setOVNDaemonsetAnnotation before key value) as [b' eb]. simpl in *.
      by subst eb.
    + simpl. rewrite (annotateDaemonset_other obj key value Hovn).
      destruct (setOVNDaemonsetAnnotation before key value) as [b' eb]. simpl in *.
      by subst eb.
Qed.

Lemma annotateDaemonset_idempotent (obj : uns.Unstructured) (key value : string) :
  annotateDaemonset (annotateDaemonset obj key value).1 key value
  = annotateDaemonset obj key value.
Proof.
  destruct (ovnDaemonset obj) eqn:Hovn.
  - unfold annotateDaemonset. fold (ovnDaemonset obj). rewrite Hovn.
    unfold ovnDaemonset in Hovn.
    destruct (uns.Template obj) as [e|t]; simpl; rewrite Hovn;
      by rewrite !annotate_idempotent.
  - rewrite (annotateDaemonset_other obj key value Hovn). simpl.
    by apply annotateDaemonset_other.
Qed.

(** X21: annotating again with the same key and value changes nothing:
    the second call returns the objects and the error of the first. *)
Theorem setOVNDaemonsetAnnotation_idempotent (objs : list uns.Unstructured)
    (key value : string) :
  setOVNDaemonsetAnnotation (setOVNDaemonsetAnnotation objs key value).1 key value
  = setOVNDaemonsetAnnotation objs key value.
Proof.
  induction objs as [|obj rest IH]; [done|]. simpl.
  pose proof (annotateDaemonset_idempotent obj key value) as Hobj.
  destruct (annotateDaemonset obj key value) as [obj' [e|]] eqn:Hann; simpl in *.
  - by rewrite Hobj.
  - destruct (setOVNDaemonsetAnnotation rest key value) as [rest' err] eqn:Hrest.
    simpl in *. by rewrite Hobj, IH.
Qed.

Lemma setOVNDaemonsetAnnotation_error_witness :
  let master :=
    {| uns.APIVersion := "apps/v1"; uns.Kind := "DaemonSet";
       uns.Namespace := "openshift-ovn-kubernetes"; uns.Name := "ovnkube-master";
       uns.Annotations := None; uns.Template := uns.TemplateBlocked "not a map";
       uns.Content := "" |} in
  ∃ (before after : list uns.Unstructured) (obj : uns.Unstructured),
    [ master; master ] = before ++ obj :: after
    ∧ ovnDaemonset obj = true
    ∧ uns.Template obj = uns.TemplateBlocked "not a map"
    ∧ (setOVNDaemonsetAnnotation [ master; master ] "mode" "dual-stack").1
      = (setOVNDaemonsetAnnotation before "mode" "dual-stack").1
        ++ withAnnotations (annotate (uns.Annotations obj) "mode" "dual-stack") obj :: after
    ∧ (setOVNDaemonsetAnnotation before "mode" "dual-stack").2 = None.
Proof.
  intros master.
  apply (setOVNDaemonsetAnnotation_error [ master; master ] _ "mode" "dual-stack" "not a map").
  reflexivity.
Defined.

(** ** The template data *)

Lemma setAll_app (l1 l2 : list (string * dataValue)) (d : gmap string dataValue) :
  setAll (l1 ++ l2) d = setAll l2 (setAll l1 d).
Proof. apply foldl_app. Qed.

Lemma setAll_lookup_notin (k : string) (kvs : list (string * dataValue))
    (d : gmap string dataValue) :
  k ∉ kvs.*1 → setAll kvs d !! k = d !! k.
Proof.
  revert d. induction kvs as [|[k' v] kvs IH]; intros d Hk; [done|].
  change (setAll ((k', v) :: kvs) d) with (setAll kvs (<[k':=v]> d)).
  rewrite fmap_cons, not_elem_of_cons in Hk. destruct Hk as [Hk Hkvs].
  rewrite IH by done. by apply lookup_insert_ne.
Qed.

Lemma setAll_lookup_last (k : string) (v : dataValue) (l1 l2 : list (string * dataValue))
    (d : gmap string dataValue) :
  k ∉ l2.*1 → setAll (l1 ++ (k, v) :: l2) d !! k = Some v.
Proof.
  intros Hk. rewrite setAll_app.
  change (setAll ((k, v) :: l2) ?m) with (setAll l2 (<[k:=v]> m)).
  rewrite setAll_lookup_notin by done. apply lookup_insert_eq.
Qed.

Lemma renderOVNFlowsConfig_frame (bootstrapResult : bootstrap.BootstrapResult)
    (data : gmap string dataValue) (k : string) :
  k ∉ [ "IPFIXCollectors"; "IPFIXCacheMaxFlows"; "IPFIXSampling"; "IPFIXCacheActiveTimeout" ] →
  renderOVNFlowsConfig bootstrapResult data !! k = data !! k.
Proof.
  intros Hk. rewrite !not_elem_of_cons in Hk. destruct Hk as (H1 & H2 & H3 & H4 & _).
  unfold renderOVNFlowsConfig.
  destruct (bootstrap.Flows _) as [flows|]; [|done].
  case_bool_decide; [done|]. cbv zeta.
  repeat case_match; rewrite ?lookup_insert_ne by done; done.
Qed.

Ltac notin_keys :=
  cbn [fmap list_fmap fst app];
  repeat (apply not_elem_of_cons; split; [done|]); apply not_elem_of_nil.

(** After the unfolding of [renderData]: a key that the flow exporters, the
    hybrid overlay, IPsec and the gateway mode do not write is read from the
    first writes. *)
Ltac lookup_first_writes :=
  rewrite !setAll_app;
  rewrite setAll_lookup_notin by (repeat case_match; notin_keys);
  rewrite setAll_lookup_notin by notin_keys;
  rewrite setAll_lookup_notin by (repeat case_match; notin_keys).

(** X22: the number of database members that must be available is a strict
    majority of the masters, the least one; the single-node flag is set
    exactly for one master, and then that number is one.  No later write of
    the data replaces either. *)
Theorem renderData_quorum `{Names} (Getenv : string → string)
    (pluginCNIConfDir : operv1.NetworkSpec → string) (CNIBinDir : string)
    (conf : operv1.NetworkSpec) (c : operv1.OVNKubernetesConfig)
    (mtu routableMTU : dataValue) (masterIP0 : string) (pa : operv1.PolicyAuditConfig)
    (bootstrapResult : bootstrap.BootstrapResult) :
  let data := renderData Getenv pluginCNIConfDir CNIBinDir conf c mtu routableMTU masterIP0 pa
                bootstrapResult in
  let n := Z.of_nat (length (bootstrap.MasterIPs (bootstrap.OVN bootstrapResult))) in
  ∃ (q : Z) (sno : bool),
    data !! "OVN_MIN_AVAILABLE" = Some (DInt q)
    ∧ data !! "IsSNO" = Some (DBool sno)
    ∧ n < 2 * q ≤ n + 2
    ∧ (sno = true ↔ n = 1)
    ∧ (sno = true → q = 1).
Proof.
  cbv zeta. unfold renderData. cbv zeta.
  exists (Z.of_nat (length (bootstrap.MasterIPs (bootstrap.OVN bootstrapResult))) / 2 + 1),
    (bool_decide (length (bootstrap.MasterIPs (bootstrap.OVN bootstrapResult)) = 1%nat)).
  split_and!.
  - rewrite lookup_insert_ne by done.
    rewrite renderOVNFlowsConfig_frame by notin_keys.
    lookup_first_writes. reflexivity.
  - apply lookup_insert_eq.
  - pose proof (Z.div_mod (Z.of_nat (length (bootstrap.MasterIPs (bootstrap.OVN bootstrapResult)))) 2).
    pose proof (Z.mod_pos_bound (Z.of_nat (length (bootstrap.MasterIPs (bootstrap.OVN bootstrapResult)))) 2).
    lia.
  - pose proof (Z.div_mod (Z.of_nat (length (bootstrap.MasterIPs (bootstrap.OVN bootstrapResult)))) 2).
    pose proof (Z.mod_pos_bound (Z.of_nat (length (bootstrap.MasterIPs (bootstrap.OVN bootstrapResult)))) 2).
    lia.
  - rewrite bool_decide_eq_true. lia.
  - rewrite bool_decide_eq_true. by intros ->.
Qed.

(** X23: the inactivity probes are never empty: each is the value of its
    environment variable, and 180000 for the controller, 60000 for the
    northbound database, when the variable is empty or unset.  The
    controller's first write, of the raw variable, does not survive. *)
Theorem renderData_probes `{Names} (Getenv : string → string)
    (pluginCNIConfDir : operv1.NetworkSpec → string) (CNIBinDir : string)
    (conf : operv1.NetworkSpec) (c : operv1.OVNKubernetesConfig)
    (mtu routableMTU : dataValue) (masterIP0 : string) (pa : operv1.PolicyAuditConfig)
    (bootstrapResult : bootstrap.BootstrapResult) :
  let data := renderData Getenv pluginCNIConfDir CNIBinDir conf c mtu routableMTU masterIP0 pa
                bootstrapResult in
  ∃ controller nb : string,
    data !! "OVN_CONTROLLER_INACTIVITY_PROBE" = Some (DString controller)
    ∧ data !! "OVN_NB_INACTIVITY_PROBE" = Some (DString nb)
    ∧ controller ≠ "" ∧ nb ≠ ""
    ∧ controller = (if bool_decide (Getenv "OVN_CONTROLLER_INACTIVITY_PROBE" = "")
                    then "180000" else Getenv "OVN_CONTROLLER_INACTIVITY_PROBE")
    ∧ nb = (if bool_decide (Getenv "OVN_NB_INACTIVITY_PROBE" = "")
            then "60000" else Getenv "OVN_NB_INACTIVITY_PROBE").
Proof.
  cbv zeta. unfold renderData. cbv zeta.
  eexists _, _. split_and!.
  - rewrite lookup_insert_ne by done.
    rewrite renderOVNFlowsConfig_frame by notin_keys.
    lookup_first_writes. reflexivity.
  - rewrite lookup_insert_ne by done.
    rewrite renderOVNFlowsConfig_frame by notin_keys.
    lookup_first_writes. reflexivity.
  - destruct (Getenv "OVN_CONTROLLER_INACTIVITY_PROBE"); simpl; done.
  - destruct (Getenv "OVN_NB_INACTIVITY_PROBE"); simpl; done.
  - destruct (Getenv "OVN_CONTROLLER_INACTIVITY_PROBE"); simpl; done.
  - destruct (Getenv "OVN_NB_INACTIVITY_PROBE"); simpl; done.
Qed.

Lemma renderOVNFlowsConfig_collectors (bootstrapResult : bootstrap.BootstrapResult)
    (data : gmap string dataValue) :
  renderOVNFlowsConfig bootstrapResult data !! "IPFIXCollectors"
  = match bootstrap.Flows (bootstrap.OVN bootstrapResult) with
    | None => data !! "IPFIXCollectors"
    | Some flows =>
        if bool_decide (bootstrap.Target flows = "") then data !! "IPFIXCollectors"
        else
          Some (DString
                  match data !! "IPFIXCollectors" with
                  | Some (DString colls) =>
                      if bool_decide (colls = "") then bootstrap.Target flows
                      else colls +:+ "," +:+ bootstrap.Target flows
                  | _ => bootstrap.Target flows
                  end)
    end.
Proof.
  unfold renderOVNFlowsConfig.
  destruct (bootstrap.Flows _) as [flows|]; [|done].
  case_bool_decide; [done|]. cbv zeta.
  destruct (bootstrap.CacheActiveTimeout flows), (bootstrap.Sampling flows),
    (bootstrap.CacheMaxFlows flows);
    rewrite ?lookup_insert_ne by done;
    repeat case_match; by rewrite lookup_insert_eq.
Qed.

(** X24: the collectors of the template data.  Each exporter configured
    in the operator configuration gives its collectors, joined as the loop
    writes them, and an exporter that is not configured gives the empty
    string.  The target of the [ovs-flows-config] map reaches the IPFIX
    collectors only: it is appended to the configured ones after a comma,
    it stands alone when none is configured, and an empty target changes
    nothing. *)
Theorem renderData_collectors `{Names} (Getenv : string → string)
    (pluginCNIConfDir : operv1.NetworkSpec → string) (CNIBinDir : string)
    (conf : operv1.NetworkSpec) (c : operv1.OVNKubernetesConfig)
    (mtu routableMTU : dataValue) (masterIP0 : string) (pa : operv1.PolicyAuditConfig)
    (bootstrapResult : bootstrap.BootstrapResult) :
  let data := renderData Getenv pluginCNIConfDir CNIBinDir conf c mtu routableMTU masterIP0 pa
                bootstrapResult in
  let configured {A} (exporter : operv1.ExportNetworkFlows → option A)
        (collectors : A → list string) : string :=
    match operv1.ExportFlows conf with
    | Some e =>
        match exporter e with
        | Some f => collectorList (collectors f)
        | None => ""
        end
    | None => ""
    end in
  let ipfix := configured operv1.IPFIX operv1.IPFIXCollectors in
  data !! "NetFlowCollectors"
  = Some (DString (configured operv1.NetFlow operv1.NetFlowCollectors))
  ∧ data !! "SFlowCollectors"
    = Some (DString (configured operv1.SFlow operv1.SFlowCollectors))
  ∧ data !! "IPFIXCollectors"
    = Some (DString
              match bootstrap.Flows (bootstrap.OVN bootstrapResult) with
              | None => ipfix
              | Some flows =>
                  if bool_decide (bootstrap.Target flows = "") then ipfix
                  else if bool_decide (ipfix = "") then bootstrap.Target flows
                  else ipfix +:+ "," +:+ bootstrap.Target flows
              end).
Proof.
  cbv zeta. unfold renderData. cbv zeta.
  split_and!.
  - rewrite lookup_insert_ne by done.
    rewrite renderOVNFlowsConfig_frame by notin_keys.
    destruct (operv1.ExportFlows conf) as [[[nf|] [sf|] [ipf|]]|];
      destruct (operv1.HybridOverlay c); reflexivity.
  - rewrite lookup_insert_ne by done.
    rewrite renderOVNFlowsConfig_frame by notin_keys.
    destruct (operv1.ExportFlows conf) as [[[nf|] [sf|] [ipf|]]|];
      destruct (operv1.HybridOverlay c); reflexivity.
  - rewrite lookup_insert_ne by done.
    rewrite renderOVNFlowsConfig_collectors.
    match goal with
    | |- context [setAll ?kvs ∅ !! "IPFIXCollectors"] =>
        assert (Hbase : setAll kvs ∅ !! "IPFIXCollectors"
                        = Some (DString
                                  match operv1.ExportFlows conf with
                                  | Some e =>
                                      match operv1.IPFIX e with
                                      | Some f => collectorList (operv1.IPFIXCollectors f)
                                      | None => ""
                                      end
                                  | None => ""
                                  end))
    end.
    { destruct (operv1.ExportFlows conf) as [[[nf|] [sf|] [ipf|]]|];
        destruct (operv1.HybridOverlay c); reflexivity. }
    rewrite Hbase.
    destruct (bootstrap.Flows _) as [flows|]; [|done].
    repeat case_bool_decide; done.
Qed.

(** ** The rendering: panics and the configuration *)

Lemma never_panics_bind {St A B} (m : M St A) (f : A → M St B) :
  never_panics m → (∀ a, never_panics (f a)) → never_panics (m ≫= f).
Proof.
  intros Hm Hf s p. unfold mbind, M_bind. specialize (Hm s).
  destruct (m s) as [[a|e|q] s1]; simpl in *; [apply Hf|done|].
  by destruct (Hm q).
Qed.

Lemma never_panics_ret {St A} (a : A) : never_panics (mret a : M St A).
Proof. intros s p. done. Qed.

Lemma never_panics_fail {St A} (e : string) : never_panics (fail e : M St A).
Proof. intros s p. done. Qed.

Lemma never_panics_get {St} : never_panics (get : M St St).
Proof. intros s p. done. Qed.

Lemma never_panics_put {St} (s0 : St) : never_panics (put s0).
Proof. intros s p. done. Qed.

Lemma never_panics_deref {St A} (a : A) : never_panics (deref (Some a) : M St A).
Proof. intros s p. done. Qed.

Lemma never_panics_deref_bind {St A B} (a : A) (f : A → M St B) :
  never_panics (f a) → never_panics (deref (Some a) ≫= f).
Proof. intros Hf s p. apply Hf. Qed.

Lemma bind_panic {St A B} (m : M St A) (f : A → M St B) (s s1 : St) (p : panic) :
  m s = (Panic p, s1) → (m ≫= f) s = (Panic p, s1).
Proof. unfold mbind, M_bind. by intros ->. Qed.

Lemma keeps_store_bind {St A B} (m : M St A) (f : A → M St B) :
  keeps_store m → (∀ a, keeps_store (f a)) → keeps_store (m ≫= f).
Proof.
  intros Hm Hf s. unfold mbind, M_bind. specialize (Hm s).
  destruct (m s) as [[a|e|q] s1]; simpl in *; subst; [apply Hf|done..].
Qed.

Lemma bind_keeps_store {St A B} (m : M St A) (f : A → M St B) (s : St) :
  (∀ a, keeps_store (f a)) → ((m ≫= f) s).2 = (m s).2.
Proof.
  intros Hf. unfold mbind, M_bind.
  destruct (m s) as [[a|e|q] s1]; simpl; [apply Hf|done..].
Qed.

Lemma keeps_store_ret {St A} (a : A) : keeps_store (mret a : M St A).
Proof. intros s. done. Qed.

Lemma keeps_store_fail {St A} (e : string) : keeps_store (fail e : M St A).
Proof. intros s. done. Qed.

Lemma keeps_store_get {St} : keeps_store (get : M St St).
Proof. intros s. done. Qed.

Lemma keeps_store_deref {St A} (o : option A) : keeps_store (deref o : M St A).
Proof. intros s. by destruct o. Qed.

Create HintDb render.

#[local] Hint Resolve never_panics_ret never_panics_fail never_panics_get never_panics_put
  never_panics_deref keeps_store_ret keeps_store_fail keeps_store_get keeps_store_deref
  : render.

Ltac render_step :=
  lazymatch goal with
  | |- never_panics (_ ≫= _) => apply never_panics_bind; [|intros ?]
  | |- keeps_store (_ ≫= _) => apply keeps_store_bind; [|intros ?]
  | |- _ (match ?x with _ => _ end) => destruct x eqn:?
  | |- _ (if ?b then _ else _) => destruct b eqn:?
  | |- _ => solve [auto with render]
  end.

Section RenderRuns.
Context `{Names}.
Variable compareVersions : string → string → versionChange.
Variable Getenv : string → string.
Variable RenderDir RenderTemplate :
  string → string → gmap string dataValue → string + list uns.Unstructured.
Variable pluginCNIConfDir : operv1.NetworkSpec → string.
Variable CNIBinDir : string.
Variable fillKubeProxyDefaults : operv1.NetworkSpec → operv1.NetworkSpec.

(** A daemonset that a decision withholds exists. *)
Lemma rolloutDecision_existing
    (existingNode existingMaster prePuller : option appsv1.DaemonSet)
    (serviceNetwork : list string) (releaseVersion : string) :
  let d :=
    rolloutDecision compareVersions existingNode existingMaster prePuller serviceNetwork
      releaseVersion in
  (updateNode d = false → is_Some existingNode)
  ∧ (updateMaster d = false → is_Some existingMaster).
Proof.
  unfold rolloutDecision.
  destruct (gate_shape existingNode existingMaster (ipFamilyModeOf serviceNetwork))
    as [-> | (-> & Hn & Hm)]; simpl; [|done].
  destruct (upgrade_shape compareVersions existingNode existingMaster releaseVersion)
    as [-> | [[-> | ->] [Hn Hm]]]; simpl; try done;
    destruct (prepull_shape existingNode prePuller releaseVersion) as [-> | [-> Hn']];
    simpl; done.
Qed.

Ltac withheld_step :=
  lazymatch goal with
  | |- never_panics
         (if negb (updateMaster (rolloutDecision ?cv ?en ?em ?pp ?sn ?rv)) then _ else _) =>
      let E := fresh "E" in
      let ds := fresh "ds" in
      let Hds := fresh "Hds" in
      destruct (updateMaster (rolloutDecision cv en em pp sn rv)) eqn:E; simpl;
      [|destruct (proj2 (rolloutDecision_existing en em pp sn rv) E) as [ds Hds];
        rewrite Hds]
  | |- never_panics
         (if negb (updateNode (rolloutDecision ?cv ?en ?em ?pp ?sn ?rv)) then _ else _) =>
      let E := fresh "E" in
      let ds := fresh "ds" in
      let Hds := fresh "Hds" in
      destruct (updateNode (rolloutDecision cv en em pp sn rv)) eqn:E; simpl;
      [|destruct (proj1 (rolloutDecision_existing en em pp sn rv) E) as [ds Hds];
        rewrite Hds]
  end.

Lemma renderOVNKubernetes_ready (bootstrapResult : bootstrap.BootstrapResult)
    (manifestDir : string) (conf : operv1.NetworkSpec) (p : panic) :
  renderReady conf bootstrapResult →
  (renderOVNKubernetes compareVersions Getenv RenderDir RenderTemplate pluginCNIConfDir
     CNIBinDir fillKubeProxyDefaults bootstrapResult manifestDir conf).1
  ≠ Panic p.
Proof.
  intros ((c & Hc & [pa Hpa]) & Hmig & Hips).
  unfold renderOVNKubernetes. cbv zeta.
  destruct (bootstrap.ExternalControlPlane _); [done|].
  rewrite (bind_run get _ conf conf conf) by done. rewrite Hc.
  rewrite (bind_run (deref (Some c)) _ conf conf c) by done.
  lazymatch goal with
  | |- (?m conf).1 ≠ _ => assert (Hm : never_panics m); [|apply Hm]
  end.
  apply never_panics_bind.
  { unfold migrationComplete in Hmig.
    destruct (operv1.Migration conf) as [[[m|]]|]; [|auto with render..].
    destruct (operv1.Network_ m) as [net|]; [|done].
    destruct Hmig as [[from Hfrom] [to Hto]].
    apply never_panics_deref_bind. rewrite Hfrom. apply never_panics_deref_bind.
    rewrite Hto. apply never_panics_deref_bind.
    repeat render_step. }
  intros [mtu routableMTU].
  apply never_panics_bind.
  { destruct (bootstrap.MasterIPs _); [done|auto with render]. }
  intros masterIP0. rewrite Hpa. apply never_panics_deref_bind.
  apply never_panics_bind; [repeat render_step|]. intros manifests.
  apply never_panics_bind; [repeat render_step|]. intros objs.
  apply never_panics_bind; [repeat render_step|]. intros conf'.
  apply never_panics_bind; [repeat render_step|]. intros objs1.
  apply never_panics_bind.
  { withheld_step; repeat render_step. }
  intros objs2.
  apply never_panics_bind.
  { withheld_step; repeat render_step. }
  intros objs3. repeat render_step.
Qed.

(** X25: the panics of the rendering.  In a cluster with its own control
    plane, and on a bootstrap result that holds its node configuration, as
    bootstrap builds it, the rendering panics exactly when its inputs are
    not ready:
    when the OVN-Kubernetes configuration or its policy audit configuration
    is nil, when an MTU migration lacks its network values, or when there
    is no master address.  On ready inputs no step panics, whatever the
    templates render and whatever the daemonsets are: a daemonset that is
    put back in place of the rendered one is never nil. *)
Theorem renderOVNKubernetes_panics (bootstrapResult : bootstrap.BootstrapResult)
    (manifestDir : string) (conf : operv1.NetworkSpec) :
  bootstrap.ExternalControlPlane (bootstrap.Infra bootstrapResult) = false →
  (∃ p : panic,
     (renderOVNKubernetes compareVersions Getenv RenderDir RenderTemplate pluginCNIConfDir
        CNIBinDir fillKubeProxyDefaults bootstrapResult manifestDir conf).1
     = Panic p)
  ↔ ¬ renderReady conf bootstrapResult.
Proof.
  intros Hext. split.
  - intros [p Hp] Hready. by apply (renderOVNKubernetes_ready _ manifestDir _ p) in Hready.
  - intros Hnot. unfold renderOVNKubernetes. cbv zeta. rewrite Hext.
    rewrite (bind_run get _ conf conf conf) by done.
    destruct (operv1.OVNKubernetes conf) as [c|] eqn:Hc; [|by eexists].
    rewrite (bind_run (deref (Some c)) _ conf conf c) by done.
    lazymatch goal with
    | |- ∃ p, ((?blk ≫= ?f) conf).1 = Panic p =>
        destruct (blk conf) as [[[mtu routableMTU]|e|q] s1] eqn:Hblk;
        [rewrite (bind_run blk f conf s1 _ Hblk)
        |exfalso
        |exists q; by rewrite (bind_panic blk f conf s1 q Hblk)]
    end.
    + assert (Hmig : migrationComplete conf).
      { unfold migrationComplete. revert Hblk.
        cbv [mbind M_bind deref crash mret M_ret put fail].
        destruct (operv1.Migration conf) as [[[m|]]|]; [|done..].
        destruct (operv1.Network_ m) as [net|]; [|done].
        destruct (operv1.From net) as [from|]; [|done].
        destruct (operv1.To net) as [to|]; [|done].
        intros _. split; by eexists. }
      cbv beta iota.
      destruct (bootstrap.MasterIPs (bootstrap.OVN bootstrapResult)) as [|ip ips] eqn:Hips;
        [by eexists|].
      rewrite (bind_run (mret ip) _ s1 s1 ip) by done.
      destruct (operv1.PolicyAudit c) as [pa|] eqn:Hpa; [|by eexists].
      destruct Hnot. split_and!; [|done|by rewrite Hips].
      exists c. split; [done|]. by rewrite Hpa.
    + revert Hblk. cbv [mbind M_bind deref crash mret M_ret put fail].
      destruct (operv1.Migration conf) as [[[m|]]|]; [|done..].
      destruct (operv1.Network_ m) as [net|]; [|done].
      destruct (operv1.From net) as [from|]; [|done].
      destruct (operv1.To net) as [to|]; [|done].
      by destruct (to <? from).
Qed.

(** X26: what the rendering writes to the configuration.  Outside the DPU
    mode the only write is the MTU of a migration, applied as the MTU of
    the OVN-Kubernetes configuration; it is written as soon as the values
    of the migration are read, so the configuration carries it also when
    the rendering then fails or panics.  Without a migration, or with an
    external control plane, every run leaves the configuration as it
    is. *)
Theorem renderOVNKubernetes_conf (bootstrapResult : bootstrap.BootstrapResult)
    (manifestDir : string) (conf : operv1.NetworkSpec) :
  bootstrap.NodeMode (bootstrap.OVNKubernetesConfig (bootstrap.OVN bootstrapResult))
  ≠ OVN_NODE_MODE_DPU →
  (renderOVNKubernetes compareVersions Getenv RenderDir RenderTemplate pluginCNIConfDir
     CNIBinDir fillKubeProxyDefaults bootstrapResult manifestDir conf).2
  = (if bootstrap.ExternalControlPlane (bootstrap.Infra bootstrapResult) then conf
     else appliedMTU conf).
Proof.
  intros Hmode. unfold renderOVNKubernetes. cbv zeta.
  destruct (bootstrap.ExternalControlPlane _); [done|].
  rewrite (bind_run get _ conf conf conf) by done.
  unfold appliedMTU.
  destruct (operv1.OVNKubernetes conf) as [c|]; [|done].
  rewrite (bind_run (deref (Some c)) _ conf conf c) by done.
  rewrite bind_keeps_store.
  - cbv [mbind M_bind deref crash mret M_ret put fail].
    destruct (operv1.Migration conf) as [[[m|]]|]; [|done..].
    destruct (operv1.Network_ m) as [net|]; [|done].
    destruct (operv1.From net) as [from|]; [|done].
    destruct (operv1.To net) as [to|]; [|done].
    by destruct (to <? from).
  - intros [mtu routableMTU].
    apply keeps_store_bind; [destruct (bootstrap.MasterIPs _); by intros ?|].
    intros masterIP0.
    apply keeps_store_bind; [auto with render|]. intros pa.
    apply keeps_store_bind; [repeat render_step|]. intros manifests.
    apply keeps_store_bind.
    { rewrite (bool_decide_eq_false_2 _ Hmode). repeat render_step. }
    intros objs. repeat render_step.
Qed.

End RenderRuns.

Lemma renderOVNKubernetes_panics_witness :
  (∃ p : panic,
     (renderOVNKubernetes (H := example_names) compareVersions_spec example_getenv
        example_render example_render (λ _, "/etc/cni") "/opt/cni/bin" id
        (example_bootstrapResult false [] None None None) "bindata" (example_spec None)).1
     = Panic p)
  ↔ ¬ renderReady (example_spec None) (example_bootstrapResult false [] None None None).
Proof.
  apply (renderOVNKubernetes_panics (H := example_names) compareVersions_spec example_getenv
           example_render example_render (λ _, "/etc/cni") "/opt/cni/bin" id
           (example_bootstrapResult false [] None None None) "bindata" (example_spec None)).
  reflexivity.
Defined.

Lemma renderOVNKubernetes_conf_witness :
  (renderOVNKubernetes (H := example_names) compareVersions_spec example_getenv
     example_render example_render (λ _, "/etc/cni") "/opt/cni/bin" id
     (example_bootstrapResult false [ "10.0.0.1" ] None None None) "bindata"
     (example_spec None)).2
  = appliedMTU (example_spec None).
Proof.
  apply (renderOVNKubernetes_conf (H := example_names) compareVersions_spec example_getenv
           example_render example_render (λ _, "/etc/cni") "/opt/cni/bin" id
           (example_bootstrapResult false [ "10.0.0.1" ] None None None) "bindata"
           (example_spec None)).
  discriminate.
Defined.
